(** * Eveflow backend: a shallow embedding of the admin and auth routes

    The development follows [Backend/models.py], [Backend/admin_routes.py]
    and [Backend/auth_routes.py].  Tables are finite maps from the integer
    primary key to a row record, a request body is a finite map from keys
    to JSON values, and a handler is a function from the store and the
    request to a response and the committed store.

    Modelling boundaries:
    - Python [str] is modelled by [string] over 8-bit characters; [upper]
      and [strip] agree with Python on code points below 128.
    - JSON values are scalars (null, booleans, integers, strings) or lists
      of scalars; a request body is a JSON object.
    - A handler that raises is caught by its [except Exception] clause: it
      answers 500 and rolls the session back, so the store is unchanged.
      A handler that returns before [db.session.commit()] leaves the store
      unchanged as well (the session is discarded with the request).
    - What a column holds after a Python value was bound to it is the
      database's: it is the parameter [bind] of the handlers, which also
      says when the driver or the database refuses the value.  NULL is
      bound as NULL, a NULL in a [nullable=False] column and a second use
      of a [transaction_id] make the flush raise, and a column with a
      [default] takes it when an INSERT is given [None].  The two
      currency columns hold the strings the handlers compute; their
      length limits, which SQLite does not enforce, are not modelled.
    - Primary keys and the identity of a token are integers without
      bound; the theorems that depend on it ask for an integer that fits
      the INTEGER column ([fits_integer]).
    - [Query.filter_by] on the query joined with [Event] is the ORM's: the
      criterion it builds for a keyword is a parameter of the handlers.
    - [datetime.utcnow()] is read once per request and passed as [now]. *)

From stdpp Require Import base option list gmap strings pretty sorting.
From Stdlib Require Import ZArith Ascii String.

Open Scope string_scope.
Open Scope Z_scope.

(** ** Python strings *)

Module PyStr.

Definition comma : ascii := ","%char.

(** [str.isspace] on one character, for code points below 128:
    TAB, LF, VT, FF, CR, FS, GS, RS, US and SPACE. *)
Definition is_space (c : ascii) : bool :=
  let n := N_of_ascii c in
  ((9 <=? n) && (n <=? 13) || (28 <=? n) && (n <=? 32))%N.

Definition upper_char (c : ascii) : ascii :=
  let n := N_of_ascii c in
  if ((97 <=? n) && (n <=? 122))%N then ascii_of_N (n - 32) else c.

Fixpoint upper (s : string) : string :=
  match s with
  | EmptyString => EmptyString
  | String c s' => String (upper_char c) (upper s')
  end.

Fixpoint lstrip (s : string) : string :=
  match s with
  | EmptyString => EmptyString
  | String c s' => if is_space c then lstrip s' else s
  end.

Fixpoint rstrip (s : string) : string :=
  match s with
  | EmptyString => EmptyString
  | String c s' =>
      match rstrip s' with
      | EmptyString => if is_space c then EmptyString else String c EmptyString
      | r => String c r
      end
  end.

(** [s.strip()] *)
Definition strip (s : string) : string := rstrip (lstrip s).

(** [s.split(',')]: never empty, [''.split(',') == ['']]. *)
Fixpoint split (s : string) : list string :=
  match s with
  | EmptyString => [EmptyString]
  | String c s' =>
      if Ascii.eqb c comma then EmptyString :: split s'
      else match split s' with
           | h :: t => String c h :: t
           | [] => [String c EmptyString]
           end
  end.

(** [','.join(l)] *)
Fixpoint join (l : list string) : string :=
  match l with
  | [] => EmptyString
  | [x] => x
  | x :: rest => x +:+ String comma (join rest)
  end.

(** [s.replace('Z', '+00:00')] *)
Fixpoint replace_Z (s : string) : string :=
  match s with
  | EmptyString => EmptyString
  | String c s' =>
      if Ascii.eqb c "Z"%char then "+00:00" +:+ replace_Z s'
      else String c (replace_Z s')
  end.

Fixpoint has_comma (s : string) : bool :=
  match s with
  | EmptyString => false
  | String c s' => Ascii.eqb c comma || has_comma s'
  end.

(** The white space [int()] skips around the digits of an ASCII string:
    TAB, LF, VT, FF, CR and SPACE (not FS, GS, RS, US, which [str.strip]
    removes). *)
Definition is_int_space (c : ascii) : bool :=
  let n := N_of_ascii c in
  ((9 <=? n) && (n <=? 13) || (n =? 32))%N.

Fixpoint int_lstrip (s : string) : string :=
  match s with
  | EmptyString => EmptyString
  | String c s' => if is_int_space c then int_lstrip s' else s
  end.

Fixpoint int_rstrip (s : string) : string :=
  match s with
  | EmptyString => EmptyString
  | String c s' =>
      match int_rstrip s' with
      | EmptyString => if is_int_space c then EmptyString else String c EmptyString
      | r => String c r
      end
  end.

Definition int_strip (s : string) : string := int_rstrip (int_lstrip s).

End PyStr.

(** ** JSON values as the handlers see them *)

Inductive scalar : Type :=
  | SNull
  | SBool (b : bool)
  | SInt (n : Z)
  | SStr (s : string).

Inductive json : Type :=
  | JVal (v : scalar)
  | JList (l : list scalar).

#[global] Instance scalar_eq_dec : EqDecision scalar.
Proof. solve_decision. Defined.
#[global] Instance json_eq_dec : EqDecision json.
Proof. solve_decision. Defined.

Definition JNone : json := JVal SNull.
Definition JStr (s : string) : json := JVal (SStr s).

(** [str(v)] *)
Definition py_str (v : scalar) : string :=
  match v with
  | SNull => "None"
  | SBool true => "True"
  | SBool false => "False"
  | SInt n => pretty n
  | SStr s => s
  end.

(** Truth value of a Python object: [None], [False], [0], [''] and [[]]
    are false. *)
Definition truthy (v : json) : bool :=
  match v with
  | JVal SNull => false
  | JVal (SBool b) => b
  | JVal (SInt n) => negb (n =? 0)
  | JVal (SStr s) => negb (String.eqb s "")
  | JList l => match l with [] => false | _ => true end
  end.

(** [v.upper()]: only [str] has the method, anything else raises
    [AttributeError], modelled by [None]. *)
Definition py_upper (v : json) : option string :=
  match v with
  | JVal (SStr s) => Some (PyStr.upper s)
  | _ => None
  end.

(** A column read back as a Python value: NULL is [None]. *)
Definition of_column (c : option string) : json :=
  match c with
  | Some s => JStr s
  | None => JNone
  end.

(** ** [normalize_currency_options] *)

(** One turn of the loop over [values]. *)
Definition clean_step (cleaned : list string) (value : string) : list string :=
  let code := PyStr.upper (PyStr.strip value) in
  let code := if bool_decide (code ∈ ["EURO"; "EUROS"]) then "EUR" else code in
  if negb (String.eqb code "") && negb (bool_decide (code ∈ cleaned))
  then cleaned ++ [code]
  else cleaned.

Definition currency_codes (values : list string) : list string :=
  fold_left clean_step values [].

Definition normalize_currency_options (raw_options default_currency : json)
  : option string :=
  if negb (truthy raw_options) then py_upper default_currency
  else
    let values :=
      match raw_options with
      | JList l => map py_str l
      | JVal v => PyStr.split (py_str v)
      end in
    match currency_codes values with
    | [] => d ← py_upper default_currency; Some (PyStr.join [d])
    | cleaned => Some (PyStr.join cleaned)
    end.

(** [[c.strip() for c in s.split(',') if c.strip()]] *)
Definition allowed_currencies (s : string) : list string :=
  filter (λ c, c ≠ "") (map PyStr.strip (PyStr.split s)).


(** [int(s)] on a string: surrounding white space (see [is_int_space]),
    an optional sign, and decimal digits that may be separated by single
    underscores; [None] stands for [ValueError]. *)
Definition digit_of (c : ascii) : option Z :=
  let n := N_of_ascii c in
  if ((48 <=? n) && (n <=? 57))%N then Some (Z.of_N (n - 48)) else None.

Fixpoint py_digits (acc : Z) (after_digit : bool) (s : string) : option Z :=
  match s with
  | EmptyString => if after_digit then Some acc else None
  | String c s' =>
      match digit_of c with
      | Some d => py_digits (10 * acc + d) true s'
      | None =>
          if Ascii.eqb c "_"%char && after_digit then py_digits acc false s'
          else None
      end
  end.

Definition py_int (s : string) : option Z :=
  match PyStr.int_strip s with
  | String "+"%char r => py_digits 0 false r
  | String "-"%char r => Z.opp <$> py_digits 0 false r
  | t => py_digits 0 false t
  end.

(** ** The tables of [models.py] *)

Definition datetime := Z.

Record User := mkUser {
  email : string;
  password_hash : string;
  full_name : string;
  role : string;
  phone : option string;
  company_name : option string;
  business_type : option string;
  user_created_at : datetime;
  user_updated_at : datetime;
  is_active : bool
}.

Record Event := mkEvent {
  name : json;
  description : json;
  event_date : datetime;
  location : json;
  venue : json;
  expected_attendees : json;
  vendor_fee : json;
  event_status : json;
  created_by_admin_id : Z;
  default_currency : option string;
  currency_options : option string;
  mpesa_number : json;
  paypal_account : json;
  zelle_account : json;
  card_instructions : json;
  event_created_at : datetime;
  event_updated_at : datetime
}.

Record VendorApplication := mkApplication {
  app_vendor_id : Z;
  event_id : Z;
  product_service : string;
  booth_requirements : option string;
  additional_notes : option string;
  app_status : string;
  admin_notes : json;
  reviewed_at : option datetime;
  reviewed_by : option Z;
  applied_at : datetime;
  app_updated_at : datetime
}.

Record Payment := mkPayment {
  application_id : Z;
  pay_vendor_id : Z;
  amount : json;
  payment_method : json;
  transaction_id : json;
  pay_status : string;
  currency : option string;
  pay_to : option string;
  payment_date : option datetime;
  pay_created_at : datetime;
  pay_updated_at : datetime;
  notes : json
}.

(** The store: one finite map per table, keyed by the primary key [id]. *)
Record db := mkDb {
  users : gmap Z User;
  events : gmap Z Event;
  vendor_applications : gmap Z VendorApplication;
  payments : gmap Z Payment
}.

(** The key an auto-increment column gives to the next row. *)
Definition next_id {A} (m : gmap Z A) : Z :=
  1 + map_fold (λ k _ acc, Z.max k acc) 0 m.

(** [Model.query.filter_by(...).all()]: the rows, with their keys. *)
Definition rows_where {A} (P : A → bool) (m : gmap Z A) : list (Z * A) :=
  filter (λ r, P r.2 = true) (map_to_list m).

(** [.order_by(column.desc())] *)
Definition order_by_desc {A} (key : A → Z) (l : list A) : list A :=
  @merge_sort A (λ x y, key y ≤ key x)
    (λ x y, decide (key y ≤ key x)) l.

(** ** Responses *)

Inductive body : Type :=
  | Error (msg : string)
  | VendorDetails (vendor : Z * User)
      (applications : list (Z * VendorApplication))
      (vendor_payments : list (Z * Payment))
  | VendorToggled (msg : string) (vendor : Z * User)
  | ApplicationList (l : list (Z * VendorApplication))
  | ApplicationReviewed (msg : string) (application : Z * VendorApplication)
  | EventList (l : list (Z * Event * nat * nat))
  | EventSaved (msg : string) (event : Z * Event)
  | EventDeleted (msg : string)
  | PaymentList (l : list (Z * Payment))
  | PaymentSaved (msg : string) (payment : Z * Payment)
  | LoggedIn (msg : string) (user : Z * User) (access_token : string).

Record response := mkResponse { status_code : nat; payload : body }.

Definition error (code : nat) (msg : string) : response :=
  mkResponse code (Error msg).

(** What [except Exception as e] answers; the text of [str(e)] is the
    library's and is not modelled. *)
Definition server_error : response := error 500 "".

(** ** Identity ([_current_user_id], [check_admin], [get_current_admin_id])

    [identity] is what [get_jwt_identity()] returns for the bearer token
    that [jwt_required] has already verified. *)

Definition _current_user_id (identity : string) : option Z := py_int identity.

Definition check_admin (st : db) (identity : string) : bool :=
  match _current_user_id identity with
  | None => false
  | Some current_user_id =>
      match users st !! current_user_id with
      | Some user => String.eqb (role user) "admin"
      | None => false
      end
  end.

Definition get_current_admin_id (st : db) (identity : string) : option Z :=
  match _current_user_id identity with
  | None => None
  | Some current_user_id =>
      match users st !! current_user_id with
      | Some user =>
          if String.eqb (role user) "admin" then Some current_user_id else None
      | None => None
      end
  end.

(** ** Row updates *)

Definition set_users (st : db) (m : gmap Z User) : db :=
  mkDb m (events st) (vendor_applications st) (payments st).
Definition set_events (st : db) (m : gmap Z Event) : db :=
  mkDb (users st) m (vendor_applications st) (payments st).
Definition set_payments (st : db) (m : gmap Z Payment) : db :=
  mkDb (users st) (events st) (vendor_applications st) m.

(** [vendor.is_active = not vendor.is_active; vendor.updated_at = now] *)
Definition toggled (vendor : User) (now : datetime) : User :=
  mkUser (email vendor) (password_hash vendor) (full_name vendor) (role vendor)
    (phone vendor) (company_name vendor) (business_type vendor)
    (user_created_at vendor) now (negb (is_active vendor)).

(** The five assignments of [review_application]. *)
Definition reviewed (a : VendorApplication) (new_status : string)
    (new_notes : json) (reviewer : Z) (now : datetime) : VendorApplication :=
  mkApplication (app_vendor_id a) (event_id a) (product_service a)
    (booth_requirements a) (additional_notes a)
    new_status new_notes (Some now) (Some reviewer) (applied_at a) now.

(** [Payment(application_id=.., vendor_id=.., amount=.., status='pending')]
    with the column defaults of the model. *)
Definition new_payment (application_id vendor_id : Z) (fee : json)
    (now : datetime) : Payment :=
  mkPayment application_id vendor_id fee JNone JNone "pending"
    (Some "USD") None None now now JNone.

(** The assignments of [update_payment_status], with the three optional
    columns as the database stores them. *)
Definition payment_updated (p : Payment) (new_status : string)
    (method transaction notes' : json) (now : datetime) : Payment :=
  mkPayment (application_id p) (pay_vendor_id p) (amount p)
    method transaction
    new_status (currency p) (pay_to p)
    (match payment_date p with
     | Some d => Some d
     | None => if String.eqb new_status "completed" then Some now else None
     end)
    (pay_created_at p) now
    notes'.

(** UNIQUE(transaction_id): a non-NULL value may appear in one row only. *)
Definition transaction_id_free (m : gmap Z Payment) (payment_id : Z)
    (t : json) : bool :=
  bool_decide (t = JNone) ||
  bool_decide
    (rows_where (λ p, bool_decide (transaction_id p = t)) (delete payment_id m)
     = []).

(** ** Columns

    The column types of [models.py] that the admin handlers write a
    request value to. *)
Inductive sqltype : Type :=
  | SqlString (length : nat)
  | SqlText
  | SqlInteger
  | SqlFloat.

(** [nullable=False]: a NULL makes the flush raise ([None]). *)
Definition not_null (stored : option json) : option json :=
  match stored with
  | Some (JVal SNull) => None
  | _ => stored
  end.

(** ** The handlers of [admin_routes.py] and [auth_routes.py] *)

Section Handlers.

(** The database: [bind ty v] is what a column of type [ty] holds, as it
    is read back, after a statement bound the Python value [v] (not
    [None]) to it; [None] when the driver or the database refuses the
    value, so that the flush raises. *)
Variable bind : sqltype → json → option json.

(** A value bound to a column: [None] is bound as NULL. *)
Definition column (ty : sqltype) (v : json) : option json :=
  match v with
  | JVal SNull => Some JNone
  | _ => bind ty v
  end.

(** A column with a [default], in an INSERT: the ORM leaves a [None] out
    of the statement and the default is stored.  [v] is the value of the
    body, if the key is there; without the key the handlers pass the same
    default themselves. *)
Definition column_or (ty : sqltype) (dflt : json) (v : option json)
  : option json :=
  match v with
  | None | Some (JVal SNull) => Some dflt
  | Some v => bind ty v
  end.

(** [if key in data: row.column = data[key]], as the UPDATE stores it;
    without the key the column is not written. *)
Definition updated_column (ty : sqltype) (data : gmap string json)
    (key : string) (old : json) : option json :=
  match data !! key with
  | Some v => column ty v
  | None => Some old
  end.

(** Library functions the handlers call. *)
Variable fromisoformat : string → option datetime.
Variable check_password_hash : string → string → bool.
Variable create_access_token : string → string.
(** [str(l)] of a list. *)
Variable repr_list : list scalar → string.
(** [query.filter_by(key=value)] on applications joined with their event:
    the criterion the ORM builds for the keyword, [None] when it raises. *)
Variable filter_by :
  string → scalar → option (VendorApplication → Event → bool).

Definition py_str_json (v : json) : string :=
  match v with
  | JVal s => py_str s
  | JList l => repr_list l
  end.

(** *** Vendor management *)

Definition get_vendor_details (st : db) (identity : string) (vendor_id : Z)
  : response :=
  if negb (check_admin st identity) then error 403 "Access denied"
  else
    match users st !! vendor_id with
    | None => error 404 "Vendor not found"
    | Some vendor =>
        if negb (String.eqb (role vendor) "vendor")
        then error 404 "Vendor not found"
        else
          let applications :=
            rows_where (λ a, app_vendor_id a =? vendor_id)
              (vendor_applications st) in
          let payments :=
            rows_where (λ p, pay_vendor_id p =? vendor_id) (payments st) in
          mkResponse 200 (VendorDetails (vendor_id, vendor) applications payments)
    end.

Definition toggle_vendor_status (st : db) (identity : string) (vendor_id : Z)
    (now : datetime) : response * db :=
  if negb (check_admin st identity) then (error 403 "Access denied", st)
  else
    match users st !! vendor_id with
    | None => (error 404 "Vendor not found", st)
    | Some vendor =>
        if negb (String.eqb (role vendor) "vendor")
        then (error 404 "Vendor not found", st)
        else
          let vendor' := toggled vendor now in
          let status := if is_active vendor' then "activated" else "deactivated" in
          (mkResponse 200
             (VendorToggled ("Vendor " +:+ status +:+ " successfully")
                (vendor_id, vendor')),
           set_users st (<[vendor_id := vendor']> (users st)))
    end.

(** *** Application management *)

(** [VendorApplication.query.join(Event).filter(
      Event.created_by_admin_id == current_admin_id)] *)
Definition owned_applications (st : db) (current_admin_id : Z)
  : list (Z * VendorApplication) :=
  rows_where
    (λ a, match events st !! event_id a with
          | Some e => created_by_admin_id e =? current_admin_id
          | None => false
          end)
    (vendor_applications st).

(** One [query.filter_by(key=value)] on the joined query. *)
Definition apply_filter_by (st : db) (key : string) (value : scalar)
    (query : list (Z * VendorApplication))
  : option (list (Z * VendorApplication)) :=
  criterion ← filter_by key value;
  Some (filter
          (λ r, match events st !! event_id r.2 with
                | Some e => criterion r.2 e
                | None => false
                end = true)
          query).

Definition get_all_applications (st : db) (identity : string)
    (args : gmap string string) : response :=
  if negb (check_admin st identity) then error 403 "Access denied"
  else
    match get_current_admin_id st identity with
    | None => error 403 "Access denied"
    | Some current_admin_id =>
        let status := args !! "status" in
        let event_id := args !! "event_id" ≫= py_int in
        let query := Some (owned_applications st current_admin_id) in
        let query :=
          match status with
          | Some s =>
              if negb (String.eqb s "")
              then query ≫= apply_filter_by st "status" (SStr s)
              else query
          | None => query
          end in
        let query :=
          match event_id with
          | Some n =>
              if negb (n =? 0)
              then query ≫= apply_filter_by st "event_id" (SInt n)
              else query
          | None => query
          end in
        match query with
        | None => server_error
        | Some applications =>
            mkResponse 200
              (ApplicationList (order_by_desc (λ r, applied_at r.2) applications))
        end
    end.

(** [Payment.query.filter_by(application_id=id)] *)
Definition payments_of (st : db) (id : Z) : list (Z * Payment) :=
  rows_where (λ p, application_id p =? id) (payments st).

(** What the flush of [review_application] writes: the reviewed row, with
    [admin_notes = data.get('admin_notes')] as the database stores it, and
    the payments table, with a new payment when the application is
    approved and has none.  [amount] is [nullable=False]: an event without
    a fee makes the INSERT raise. *)
Definition reviewed_rows (st : db) (id : Z) (application : VendorApplication)
    (event : Event) (new_status : string) (data : gmap string json)
    (reviewer : Z) (now : datetime)
  : option (VendorApplication * gmap Z Payment) :=
  new_notes ← column SqlText (default JNone (data !! "admin_notes"));
  payments' ←
    (if String.eqb new_status "approved" then
       match payments_of st id with
       | [] =>
           fee ← not_null (Some (vendor_fee event));
           Some (<[next_id (payments st) :=
                     new_payment id (app_vendor_id application) fee now]>
                   (payments st))
       | _ :: _ => Some (payments st)
       end
     else Some (payments st));
  Some (reviewed application new_status new_notes reviewer now, payments').

Definition review_application (st : db) (identity : string)
    (application_id : Z) (data : gmap string json) (now : datetime)
  : response * db :=
  if negb (check_admin st identity) then (error 403 "Access denied", st)
  else
    match _current_user_id identity with
    | None => (error 401 "Invalid token", st)
    | Some current_user_id =>
        match vendor_applications st !! application_id with
        | None => (error 404 "Application not found", st)
        | Some application =>
            match events st !! event_id application with
            | None => (error 403 "Access denied for this event", st)
            | Some event =>
                if negb (created_by_admin_id event =? current_user_id)
                then (error 403 "Access denied for this event", st)
                else
                  match data !! "status" with
                  | Some (JVal (SStr new_status)) =>
                      if bool_decide (new_status ∈ ["approved"; "rejected"])
                      then
                        match
                          reviewed_rows st application_id application event
                            new_status data current_user_id now
                        with
                        | None => (server_error, st)
                        | Some (application', payments') =>
                            (mkResponse 200
                               (ApplicationReviewed
                                  ("Application " +:+ new_status
                                   +:+ " successfully")
                                  (application_id, application')),
                             mkDb (users st) (events st)
                               (<[application_id := application']>
                                  (vendor_applications st))
                               payments')
                        end
                      else
                        (error 400 "Invalid status. Must be approved or rejected", st)
                  | _ =>
                      (error 400 "Invalid status. Must be approved or rejected", st)
                  end
            end
        end
    end.

(** *** Event management *)

Definition count_applications (st : db) (id : Z) : nat :=
  List.length (rows_where (λ a, event_id a =? id) (vendor_applications st)).

Definition count_approved (st : db) (id : Z) : nat :=
  List.length (rows_where
            (λ a, (event_id a =? id) && String.eqb (app_status a) "approved")
            (vendor_applications st)).

Definition get_all_events (st : db) (identity : string) : response :=
  if negb (check_admin st identity) then error 403 "Access denied"
  else
    match get_current_admin_id st identity with
    | None => error 403 "Access denied"
    | Some current_admin_id =>
        let events :=
          order_by_desc (λ r, event_date r.2)
            (rows_where (λ e, created_by_admin_id e =? current_admin_id)
               (events st)) in
        mkResponse 200
          (EventList
             (map (λ r, (r.1, r.2, count_applications st r.1,
                         count_approved st r.1))
                events))
    end.

(** [datetime.fromisoformat(data['event_date'].replace('Z', '+00:00'))]:
    [inl] carries the response when the field is rejected. *)
Definition parse_event_date (v : json) (invalid : string)
  : response + datetime :=
  match v with
  | JVal (SStr s) =>
      match fromisoformat (PyStr.replace_Z s) with
      | Some d => inr d
      | None => inl (error 400 invalid)
      end
  | _ => inl server_error
  end.

(** The two currency columns [create_event] passes to [Event(...)]:
    [str(data.get('default_currency', 'USD')).upper()] and
    [normalize_currency_options(data.get('currency_options'),
                                data.get('default_currency', 'USD'))]. *)
Definition created_default_currency (data : gmap string json) : string :=
  PyStr.upper (py_str_json (default (JStr "USD") (data !! "default_currency"))).

Definition created_currency_options (data : gmap string json) : option string :=
  normalize_currency_options
    (default JNone (data !! "currency_options"))
    (default (JStr "USD") (data !! "default_currency")).

(** The row the INSERT of [create_event] stores.  [name] is
    [nullable=False]; [vendor_fee] and [status] have the defaults [0.0]
    and ['upcoming']. *)
Definition inserted_event (data : gmap string json) (name' : json)
    (event_date' : datetime) (admin_id : Z)
    (default_currency' currency_options' : string) (now : datetime)
  : option Event :=
  name' ← not_null (column (SqlString 200) name');
  description' ← column SqlText (default JNone (data !! "description"));
  location' ← column (SqlString 200) (default JNone (data !! "location"));
  venue' ← column (SqlString 200) (default JNone (data !! "venue"));
  expected_attendees' ←
    column SqlInteger (default JNone (data !! "expected_attendees"));
  vendor_fee' ← column_or SqlFloat (JVal (SInt 0)) (data !! "vendor_fee");
  status' ← column_or (SqlString 20) (JStr "upcoming") (data !! "status");
  mpesa_number' ←
    column (SqlString 40) (default JNone (data !! "mpesa_number"));
  paypal_account' ←
    column (SqlString 120) (default JNone (data !! "paypal_account"));
  zelle_account' ←
    column (SqlString 120) (default JNone (data !! "zelle_account"));
  card_instructions' ←
    column (SqlString 255) (default JNone (data !! "card_instructions"));
  Some (mkEvent name' description' event_date' location' venue'
          expected_attendees' vendor_fee' status' admin_id
          (Some default_currency') (Some currency_options')
          mpesa_number' paypal_account' zelle_account' card_instructions'
          now now).

Definition create_event (st : db) (identity : string)
    (data : gmap string json) (now : datetime) : response * db :=
  if negb (check_admin st identity) then (error 403 "Access denied", st)
  else
    match get_current_admin_id st identity with
    | None => (error 403 "Access denied", st)
    | Some current_admin_id =>
        match data !! "name", data !! "event_date" with
        | None, _ => (error 400 "Missing required field: name", st)
        | Some _, None => (error 400 "Missing required field: event_date", st)
        | Some name, Some raw_date =>
            match parse_event_date raw_date
                    "Invalid event_date format. Use ISO format" with
            | inl rejected => (rejected, st)
            | inr event_date =>
                let default_currency := created_default_currency data in
                match created_currency_options data with
                | None => (server_error, st)
                | Some currency_options =>
                    if bool_decide
                         (default_currency ∈ allowed_currencies currency_options)
                    then
                      match
                        inserted_event data name event_date current_admin_id
                          default_currency currency_options now
                      with
                      | None => (server_error, st)
                      | Some event =>
                          let id := next_id (events st) in
                          (mkResponse 201
                             (EventSaved "Event created successfully"
                                (id, event)),
                           set_events st (<[id := event]> (events st)))
                      end
                    else
                      (error 400
                         "default_currency must be included in currency_options",
                       st)
                end
            end
        end
    end.

(** The row of [event] after the assignments of [update_event] have been
    flushed, given the parsed date and the two currency columns.  [name]
    is [nullable=False]. *)
Definition merged (event : Event) (data : gmap string json)
    (event_date' : datetime)
    (default_currency' currency_options' : option string)
    (now : datetime) : option Event :=
  name' ←
    match data !! "name" with
    | Some v => not_null (column (SqlString 200) v)
    | None => Some (name event)
    end;
  description' ← updated_column SqlText data "description" (description event);
  location' ← updated_column (SqlString 200) data "location" (location event);
  venue' ← updated_column (SqlString 200) data "venue" (venue event);
  expected_attendees' ←
    updated_column SqlInteger data "expected_attendees"
      (expected_attendees event);
  vendor_fee' ← updated_column SqlFloat data "vendor_fee" (vendor_fee event);
  status' ← updated_column (SqlString 20) data "status" (event_status event);
  mpesa_number' ←
    updated_column (SqlString 40) data "mpesa_number" (mpesa_number event);
  paypal_account' ←
    updated_column (SqlString 120) data "paypal_account" (paypal_account event);
  zelle_account' ←
    updated_column (SqlString 120) data "zelle_account" (zelle_account event);
  card_instructions' ←
    updated_column (SqlString 255) data "card_instructions"
      (card_instructions event);
  Some (mkEvent name' description' event_date' location' venue'
          expected_attendees' vendor_fee' status' (created_by_admin_id event)
          default_currency' currency_options'
          mpesa_number' paypal_account' zelle_account' card_instructions'
          (event_created_at event) now).

(** [event.event_date] after [update_event] has looked at the key. *)
Definition updated_event_date (event : Event) (data : gmap string json)
  : response + datetime :=
  match data !! "event_date" with
  | Some raw_date => parse_event_date raw_date "Invalid event_date format"
  | None => inr (event_date event)
  end.

(** The two currency columns after the assignments of [update_event]:
    a column is replaced only when its key is in [data]; the normalization
    falls back on [data.get('default_currency', event.default_currency)].
    [None] for the options means that the normalization raised. *)
Definition updated_default_currency (event : Event) (data : gmap string json)
  : option string :=
  match data !! "default_currency" with
  | Some v => Some (PyStr.upper (py_str_json v))
  | None => default_currency event
  end.

Definition updated_currency_options (event : Event) (data : gmap string json)
  : option (option string) :=
  match data !! "currency_options" with
  | Some raw_options =>
      Some <$> normalize_currency_options raw_options
                 (default (of_column (default_currency event))
                    (data !! "default_currency"))
  | None => Some (currency_options event)
  end.

Definition update_event (st : db) (identity : string) (event_id : Z)
    (data : gmap string json) (now : datetime) : response * db :=
  if negb (check_admin st identity) then (error 403 "Access denied", st)
  else
    match events st !! event_id with
    | None => (error 404 "Event not found", st)
    | Some event =>
        match get_current_admin_id st identity with
        | None => (error 403 "Access denied for this event", st)
        | Some current_admin_id =>
            if negb (created_by_admin_id event =? current_admin_id)
            then (error 403 "Access denied for this event", st)
            else
              match updated_event_date event data with
              | inl rejected => (rejected, st)
              | inr event_date =>
                  let default_currency := updated_default_currency event data in
                  match updated_currency_options event data with
                  | None => (server_error, st)
                  | Some currency_options =>
                      let allowed :=
                        allowed_currencies (default "" currency_options) in
                      if bool_decide (allowed = [])
                      then (error 400 "currency_options cannot be empty", st)
                      else if negb (bool_decide
                                (PyStr.upper (default "" default_currency) ∈ allowed))
                      then
                        (error 400
                           "default_currency must be included in currency_options",
                         st)
                      else
                        match
                          merged event data event_date default_currency
                            currency_options now
                        with
                        | None => (server_error, st)
                        | Some event' =>
                            (mkResponse 200
                               (EventSaved "Event updated successfully"
                                  (event_id, event')),
                             set_events st (<[event_id := event']> (events st)))
                        end
                  end
              end
        end
    end.

Definition delete_event (st : db) (identity : string) (event_id : Z)
  : response * db :=
  if negb (check_admin st identity) then (error 403 "Access denied", st)
  else
    match events st !! event_id with
    | None => (error 404 "Event not found", st)
    | Some event =>
        match get_current_admin_id st identity with
        | None => (error 403 "Access denied for this event", st)
        | Some current_admin_id =>
            if negb (created_by_admin_id event =? current_admin_id)
            then (error 403 "Access denied for this event", st)
            else
              let app_count := count_applications st event_id in
              if (0 <? app_count)%nat
              then
                (error 400
                   ("Cannot delete event with " +:+ pretty app_count
                    +:+ " applications. Cancel event instead."),
                 st)
              else
                (mkResponse 200 (EventDeleted "Event deleted successfully"),
                 set_events st (delete event_id (events st)))
        end
    end.

(** *** Payment management *)

(** The admin at the end of the chain payment, application, event. *)
Definition payment_owner (st : db) (p : Payment) : option Z :=
  a ← vendor_applications st !! application_id p;
  e ← events st !! event_id a;
  Some (created_by_admin_id e).

(** [Payment.query.join(VendorApplication).join(Event).filter(
      Event.created_by_admin_id == current_admin_id)] *)
Definition get_all_payments (st : db) (identity : string) : response :=
  if negb (check_admin st identity) then error 403 "Access denied"
  else
    match get_current_admin_id st identity with
    | None => error 403 "Access denied"
    | Some current_admin_id =>
        mkResponse 200
          (PaymentList
             (order_by_desc (λ r, pay_created_at r.2)
                (rows_where
                   (λ p, bool_decide (payment_owner st p = Some current_admin_id))
                   (payments st))))
    end.

(** The row the flush of [update_payment_status] stores.  A
    [transaction_id] that is written must not be held by another row. *)
Definition stored_payment (m : gmap Z Payment) (payment_id : Z)
    (payment : Payment) (new_status : string) (data : gmap string json)
    (now : datetime) : option Payment :=
  method ←
    updated_column (SqlString 50) data "payment_method"
      (payment_method payment);
  transaction ←
    updated_column (SqlString 100) data "transaction_id"
      (transaction_id payment);
  notes' ← updated_column SqlText data "notes" (notes payment);
  if bool_decide (data !! "transaction_id" = None)
     || transaction_id_free m payment_id transaction
  then Some (payment_updated payment new_status method transaction notes' now)
  else None.

Definition update_payment_status (st : db) (identity : string)
    (payment_id : Z) (data : gmap string json) (now : datetime)
  : response * db :=
  if negb (check_admin st identity) then (error 403 "Access denied", st)
  else
    match payments st !! payment_id with
    | None => (error 404 "Payment not found", st)
    | Some payment =>
        match get_current_admin_id st identity with
        | None => (error 403 "Access denied", st)
        | Some current_admin_id =>
            if negb (bool_decide
                       (payment_owner st payment = Some current_admin_id))
            then (error 403 "Access denied for this event", st)
            else
              match data !! "status" with
              | None => (error 400 "Status is required", st)
              | Some (JVal (SStr new_status)) =>
                  if bool_decide
                       (new_status ∈ ["pending"; "completed"; "failed"; "refunded"])
                  then
                    match
                      stored_payment (payments st) payment_id payment
                        new_status data now
                    with
                    | None => (server_error, st)
                    | Some payment' =>
                        (mkResponse 200
                           (PaymentSaved "Payment status updated successfully"
                              (payment_id, payment')),
                         set_payments st
                           (<[payment_id := payment']> (payments st)))
                    end
                  else (error 400 "Invalid status", st)
              | Some _ => (error 400 "Invalid status", st)
              end
        end
    end.

(** *** Login *)

(** [User.query.filter_by(email=value).first()] *)
Definition user_by_email (st : db) (value : json) : option (Z * User) :=
  head (rows_where (λ u, bool_decide (JStr (email u) = value)) (users st)).

Definition login (st : db) (data : gmap string json) : response :=
  if negb (truthy (default JNone (data !! "email")))
     || negb (truthy (default JNone (data !! "password")))
  then error 400 "Email and password are required"
  else
    let role_hint := default JNone (data !! "role") in
    match user_by_email st (default JNone (data !! "email")) with
    | None => error 401 "Invalid email or password"
    | Some (id, user) =>
        match default JNone (data !! "password") with
        | JVal (SStr password) =>
            if negb (check_password_hash (password_hash user) password)
            then error 401 "Invalid email or password"
            else if negb (is_active user)
            then error 403 "Account is deactivated"
            else if truthy role_hint
                    && negb (bool_decide (JStr (role user) = role_hint))
            then
              error 401
                ("Invalid credentials for " +:+ py_str_json role_hint +:+ " login")
            else
              mkResponse 200
                (LoggedIn "Login successful" (id, user)
                   (create_access_token (py_str (SInt id))))
        | _ => server_error
        end
    end.

(** *** The mutating calls of the admin surface, as one step function *)

Inductive admin_call : Type :=
  | ToggleVendorStatus (vendor_id : Z)
  | ReviewApplication (application_id : Z) (data : gmap string json)
  | CreateEvent (data : gmap string json)
  | UpdateEvent (event_id : Z) (data : gmap string json)
  | DeleteEvent (event_id : Z)
  | UpdatePaymentStatus (payment_id : Z) (data : gmap string json).

Record request := mkRequest {
  req_identity : string;
  req_call : admin_call;
  req_time : datetime
}.

Definition handle (st : db) (r : request) : response * db :=
  match req_call r with
  | ToggleVendorStatus vendor_id =>
      toggle_vendor_status st (req_identity r) vendor_id (req_time r)
  | ReviewApplication application_id data =>
      review_application st (req_identity r) application_id data (req_time r)
  | CreateEvent data => create_event st (req_identity r) data (req_time r)
  | UpdateEvent event_id data =>
      update_event st (req_identity r) event_id data (req_time r)
  | DeleteEvent event_id => delete_event st (req_identity r) event_id
  | UpdatePaymentStatus payment_id data =>
      update_payment_status st (req_identity r) payment_id data (req_time r)
  end.

(** The store after a sequence of requests, served one after the other. *)
Definition run (st : db) (rs : list request) : db :=
  fold_left (λ st r, (handle st r).2) rs st.

End Handlers.

(** ** Further handlers: vendors, profile, public events, reports *)

(** The answer of a handler whose payload is of type [A]. *)
Inductive reply (A : Type) : Type :=
  | Failed (code : nat) (msg : string)
  | Returned (code : nat) (payload : A).
Arguments Failed {A} code msg.
Arguments Returned {A} code payload.

(** [.order_by(column.asc())] *)
Definition order_by_asc {A} (key : A → Z) (l : list A) : list A :=
  @merge_sort A (λ x y, key x ≤ key y)
    (λ x y, decide (key x ≤ key y)) l.

(** Rows selected by a criterion that also reads the primary key. *)
Definition rows_with {A} (P : Z → A → bool) (m : gmap Z A) : list (Z * A) :=
  filter (λ r, P r.1 r.2 = true) (map_to_list m).

(** [get_all_vendors]: [User.query.filter_by(role='vendor')
      .order_by(User.created_at.desc()).all()] *)
Definition get_all_vendors (st : db) (identity : string)
  : reply (list (Z * User)) :=
  if negb (check_admin st identity) then Failed 403 "Access denied"
  else
    Returned 200
      (order_by_desc (λ r, user_created_at r.2)
         (rows_where (λ u, String.eqb (role u) "vendor") (users st))).

(** [get_current_user] of [auth_routes.py] *)
Definition get_current_user (st : db) (identity : string) : reply (Z * User) :=
  match _current_user_id identity with
  | None => Failed 401 "Invalid token"
  | Some current_user_id =>
      match users st !! current_user_id with
      | None => Failed 404 "User not found"
      | Some user => Returned 200 (current_user_id, user)
      end
  end.

(** [public_events] of [app.py]: no token is asked for. *)
Definition public_events (st : db) : reply (list (Z * Event)) :=
  Returned 200
    (order_by_asc (λ r, event_date r.2)
       (rows_where
          (λ e, bool_decide (event_status e ∈ [JStr "upcoming"; JStr "ongoing"]))
          (events st))).

(** [GROUP BY status] with [count(id)]: one row for each status that
    occurs. *)
Definition group_by_status (rows : list (Z * VendorApplication))
  : list (string * nat) :=
  map (λ s, (s, List.length
                  (filter (λ r, app_status r.2 = s) rows)))
    (remove_dups (map (λ r, app_status r.2) rows)).

(** [get_applications_by_status] *)
Definition get_applications_by_status (st : db) (identity : string)
  : reply (list (string * nat)) :=
  if negb (check_admin st identity) then Failed 403 "Access denied"
  else
    match get_current_admin_id st identity with
    | None => Failed 403 "Access denied"
    | Some current_admin_id =>
        Returned 200 (group_by_status (owned_applications st current_admin_id))
    end.

(** [sum(amounts)]: starts from 0; a boolean counts as 0 or 1; anything
    that is not a number raises [TypeError]. *)
Fixpoint py_sum (amounts : list json) : option Z :=
  match amounts with
  | [] => Some 0
  | JVal (SInt n) :: rest => Z.add n <$> py_sum rest
  | JVal (SBool b) :: rest => Z.add (Z.b2z b) <$> py_sum rest
  | _ :: _ => None
  end.

Record dashboard := mkDashboard {
  vendors_total : nat;
  vendors_active : nat;
  vendors_inactive : Z;
  vendors_new_this_week : nat;
  applications_total : nat;
  applications_pending : nat;
  applications_approved : nat;
  applications_rejected : nat;
  applications_new_this_week : nat;
  events_total : nat;
  events_upcoming : nat;
  events_ongoing : nat;
  revenue_total : Z;
  revenue_pending : Z
}.

Section Dashboard.

(** [timedelta(days=n)], in the unit of [datetime]. *)
Variable timedelta_days : Z → Z.

(** [get_admin_dashboard_stats] *)
Definition get_admin_dashboard_stats (st : db) (identity : string)
    (now : datetime) : reply dashboard :=
  if negb (check_admin st identity) then Failed 403 "Access denied"
  else
    match get_current_admin_id st identity with
    | None => Failed 403 "Access denied"
    | Some current_admin_id =>
        let owned_events :=
          rows_where (λ e, created_by_admin_id e =? current_admin_id)
            (events st) in
        let owned_event_ids := map fst owned_events in
        let owned_apps :=
          match owned_event_ids with
          | [] => []
          | _ :: _ =>
              rows_where (λ a, bool_decide (event_id a ∈ owned_event_ids))
                (vendor_applications st)
          end in
        let owned_vendor_ids := map (λ r, app_vendor_id r.2) owned_apps in
        let vendors (P : User → bool) : nat :=
          match owned_vendor_ids with
          | [] => 0%nat
          | _ :: _ =>
              List.length
                (rows_with
                   (λ id u, String.eqb (role u) "vendor" && P u
                            && bool_decide (id ∈ owned_vendor_ids))
                   (users st))
          end in
        let total_vendors := vendors (λ _, true) in
        let active_vendors := vendors is_active in
        let with_status (s : string) : nat :=
          List.length (filter (λ r, app_status r.2 = s) owned_apps) in
        let all_payments :=
          rows_where
            (λ p, bool_decide (payment_owner st p = Some current_admin_id))
            (payments st) in
        let amounts (s : string) : list json :=
          map (λ r, amount r.2)
            (filter (λ r, pay_status r.2 = s) all_payments) in
        match py_sum (amounts "completed"), py_sum (amounts "pending") with
        | Some total_revenue, Some pending_revenue =>
            let week_ago := now - timedelta_days 7 in
            Returned 200
              (mkDashboard
                 total_vendors active_vendors
                 (Z.of_nat total_vendors - Z.of_nat active_vendors)
                 (vendors (λ u, week_ago <=? user_created_at u))
                 (List.length owned_apps)
                 (with_status "pending") (with_status "approved")
                 (with_status "rejected")
                 (List.length
                    (filter (λ r, week_ago ≤ applied_at r.2) owned_apps))
                 (List.length owned_events)
                 (List.length
                    (filter (λ r, event_status r.2 = JStr "upcoming"
                                  ∧ now < event_date r.2) owned_events))
                 (List.length
                    (filter (λ r, event_status r.2 = JStr "ongoing")
                       owned_events))
                 total_revenue pending_revenue)
        | _, _ => Failed 500 ""
        end
    end.

End Dashboard.

(** ** [_normalize_database_url] of [config.py] *)

Module Config.

(** [s.startswith(prefix)] *)
Fixpoint startswith (prefix s : string) : bool :=
  match prefix, s with
  | EmptyString, _ => true
  | String a prefix', String b s' => Ascii.eqb a b && startswith prefix' s'
  | String _ _, EmptyString => false
  end.

Fixpoint drop (n : nat) (s : string) : string :=
  match n, s with
  | O, _ => s
  | S n', String _ s' => drop n' s'
  | S _, EmptyString => EmptyString
  end.

(** [s.replace(old, new, 1)]: the leftmost occurrence of [old] is
    replaced. *)
Fixpoint replace_first (old new s : string) : string :=
  if startswith old s then new +:+ drop (String.length old) s
  else match s with
       | EmptyString => EmptyString
       | String c s' => String c (replace_first old new s')
       end.

(** [url] is [None] when the environment variable is not set. *)
Definition _normalize_database_url (url : option string) : option string :=
  match url with
  | None => None
  | Some u =>
      if String.eqb u "" then Some u
      else if startswith "postgres://" u
      then Some (replace_first "postgres://" "postgresql+psycopg://" u)
      else if startswith "postgresql://" u
      then Some (replace_first "postgresql://" "postgresql+psycopg://" u)
      else Some u
  end.

End Config.

(** ** Notions used in the statements *)

(** What one turn of the loop makes of a token: trimmed, upper-cased, and
    [EURO]/[EUROS] replaced by [EUR]. *)
Definition canonical (value : string) : string :=
  let code := PyStr.upper (PyStr.strip value) in
  if bool_decide (code ∈ ["EURO"; "EUROS"]) then "EUR" else code.

(** A currency code as the loop appends it. *)
Definition is_code (c : string) : Prop :=
  c ≠ "" ∧ PyStr.has_comma c = false ∧ canonical c = c.

(** [identity] is the token of the admin [admin_id]. *)
Definition is_admin (st : db) (identity : string) (admin_id : Z) : Prop :=
  _current_user_id identity = Some admin_id
  ∧ ∃ user, users st !! admin_id = Some user ∧ role user = "admin".

(** The store after the review calls [calls] (body and time of each) on
    application [id], served one after the other. *)
Definition review_all (bind : sqltype → json → option json)
    (st : db) (identity : string) (id : Z)
    (calls : list (gmap string json * datetime)) : db :=
  fold_left (λ st c, (review_application bind st identity id c.1 c.2).2)
    calls st.

(** The currency columns of an event are consistent: the default is
    stored in upper case and is one of the parsed options. *)
Definition currency_ok (e : Event) : Prop :=
  ∃ d o, default_currency e = Some d
         ∧ currency_options e = Some o
         ∧ PyStr.upper d = d
         ∧ d ∈ allowed_currencies o.

Definition upper_case_default (e : Event) : Prop :=
  ∀ d, default_currency e = Some d → PyStr.upper d = d.

Definition all_currency_ok (st : db) : Prop :=
  ∀ id e, events st !! id = Some e → currency_ok e.

(** The filters [get_all_applications] acts on: a status that is not
    empty, an event id that parses and is not zero. *)
Definition status_filter (args : gmap string string) : option string :=
  match args !! "status" with
  | Some s => if String.eqb s "" then None else Some s
  | None => None
  end.

Definition event_filter (args : gmap string string) : option Z :=
  match args !! "event_id" ≫= py_int with
  | Some n => if n =? 0 then None else Some n
  | None => None
  end.

(** The application [a], joined with its event, passes the criterion that
    [filter_by] builds for [key] and the value [f], when there is one. *)
Definition passes
    (filter_by : string → scalar → option (VendorApplication → Event → bool))
    (st : db) (key : string) (f : option scalar) (a : VendorApplication)
  : Prop :=
  ∀ v, f = Some v →
    ∃ criterion e, filter_by key v = Some criterion
                   ∧ events st !! event_id a = Some e
                   ∧ criterion a e = true.

(** Two rows of the same account: everything but the activation flag and
    the time of the last update agrees. *)
Definition same_account (u u' : User) : Prop :=
  email u' = email u
  ∧ password_hash u' = password_hash u
  ∧ full_name u' = full_name u
  ∧ role u' = role u
  ∧ phone u' = phone u
  ∧ company_name u' = company_name u
  ∧ business_type u' = business_type u
  ∧ user_created_at u' = user_created_at u.

(** The writes one admin request can make to the store. *)
Inductive written (st : db) : db → Prop :=
  | written_nothing : written st st
  | written_toggle vendor_id vendor now :
      users st !! vendor_id = Some vendor →
      role vendor = "vendor" →
      written st (set_users st (<[vendor_id := toggled vendor now]> (users st)))
  | written_review id a e s notes now :
      vendor_applications st !! id = Some a →
      events st !! event_id a = Some e →
      s ∈ ["approved"; "rejected"] →
      s = "rejected" ∨ payments_of st id ≠ [] →
      written st
        (mkDb (users st) (events st)
           (<[id := reviewed a s notes (created_by_admin_id e) now]>
              (vendor_applications st))
           (payments st))
  | written_first_approval id a e notes now :
      vendor_applications st !! id = Some a →
      events st !! event_id a = Some e →
      payments_of st id = [] →
      written st
        (mkDb (users st) (events st)
           (<[id := reviewed a "approved" notes (created_by_admin_id e) now]>
              (vendor_applications st))
           (<[next_id (payments st) :=
                new_payment id (app_vendor_id a) (vendor_fee e) now]>
              (payments st)))
  | written_create e :
      written st (set_events st (<[next_id (events st) := e]> (events st)))
  | written_update id e e' :
      events st !! id = Some e →
      created_by_admin_id e' = created_by_admin_id e →
      written st (set_events st (<[id := e']> (events st)))
  | written_delete id e :
      events st !! id = Some e →
      count_applications st id = 0%nat →
      written st (set_events st (delete id (events st)))
  | written_payment id p s method transaction notes' now :
      payments st !! id = Some p →
      written st
        (set_payments st
           (<[id := payment_updated p s method transaction notes' now]>
              (payments st))).

(** The rows refer to rows that exist: every application to its event,
    every payment to its application, whose vendor it repeats. *)
Definition references_ok (st : db) : Prop :=
  (∀ id a, vendor_applications st !! id = Some a →
           is_Some (events st !! event_id a))
  ∧ (∀ id p, payments st !! id = Some p →
             ∃ a, vendor_applications st !! application_id p = Some a
                  ∧ pay_vendor_id p = app_vendor_id a).

(** Every application has at most one payment, and an approved one has
    one. *)
Definition payments_ok (st : db) : Prop :=
  ∀ id a, vendor_applications st !! id = Some a →
    (List.length (payments_of st id) ≤ 1)%nat
    ∧ (app_status a = "approved" → payments_of st id ≠ []).

(** The columns [update_event] copies from the body, with their keys
    and types. *)
Definition patch_columns : list (string * sqltype * (Event → json)) :=
  [("name", SqlString 200, name); ("description", SqlText, description);
   ("location", SqlString 200, location); ("venue", SqlString 200, venue);
   ("expected_attendees", SqlInteger, expected_attendees);
   ("vendor_fee", SqlFloat, vendor_fee);
   ("status", SqlString 20, event_status);
   ("mpesa_number", SqlString 40, mpesa_number);
   ("paypal_account", SqlString 120, paypal_account);
   ("zelle_account", SqlString 120, zelle_account);
   ("card_instructions", SqlString 255, card_instructions)].

(** An integer that fits the INTEGER column of a primary key (and the
    64-bit integers of the drivers): beyond it [Query.get] raises. *)
Definition fits_integer (n : Z) : Prop := -2 ^ 63 ≤ n < 2 ^ 63.

(** The application [a] with another status. *)
Definition with_status (a : VendorApplication) (s : string)
  : VendorApplication :=
  mkApplication (app_vendor_id a) (event_id a) (product_service a)
    (booth_requirements a) (additional_notes a) s (admin_notes a)
    (reviewed_at a) (reviewed_by a) (applied_at a) (app_updated_at a).

(** The list [normalize_currency_options] loops over, for an input that
    is not false. *)
Definition option_values (raw_options : json) : list string :=
  match raw_options with
  | JList l => map py_str l
  | JVal v => PyStr.split (py_str v)
  end.

(** Strings without white space, and strings of decimal digits. *)
Fixpoint no_space (s : string) : bool :=
  match s with
  | EmptyString => true
  | String c s' => negb (PyStr.is_space c) && no_space s'
  end.

Fixpoint is_digits (s : string) : bool :=
  match s with
  | EmptyString => true
  | String c s' => bool_decide (is_Some (digit_of c)) && is_digits s'
  end.

(** ** A small store used in the examples

    Admin 1 owns event 1 and admin 2 owns event 2.  Vendor 3 has applied
    to both: application 1 (on event 1) is pending, application 2 (on
    event 2) is approved and has payment 1.  Vendor 4 is deactivated and
    has applied to nothing. *)
Module Sample.

Definition user (email role : string) (active : bool) : User :=
  mkUser email ("hash:" +:+ email) email role None None None 0 0 active.

Definition event (owner : Z) (fee : Z) : Event :=
  mkEvent (JStr "Fair") JNone 1000 JNone JNone JNone (JVal (SInt fee))
    (JStr "upcoming") owner (Some "USD") (Some "USD,EUR")
    JNone JNone JNone JNone 0 0.

Definition application (vendor event : Z) (status : string)
    (at_ : option datetime) (by_ : option Z) : VendorApplication :=
  mkApplication vendor event "Food" None None status JNone at_ by_ 5 5.

Definition payment : Payment :=
  mkPayment 2 3 (JVal (SInt 750)) JNone JNone "pending" (Some "USD") None
    None 20 20 JNone.

Definition store : db :=
  mkDb
    (list_to_map
       [(1, user "a@example.org" "admin" true);
        (2, user "b@example.org" "admin" true);
        (3, user "v@example.org" "vendor" true);
        (4, user "w@example.org" "vendor" false)])
    (list_to_map [(1, event 1 500); (2, event 2 750)])
    (list_to_map
       [(1, application 3 1 "pending" None None);
        (2, application 3 2 "approved" (Some 10) (Some 2))])
    (list_to_map [(1, payment)]).

(** Stand-ins for the library functions. *)
Definition fromisoformat (s : string) : option datetime :=
  if String.eqb s "2026-04-15T10:00:00+00:00" then Some 1776247200 else None.
Definition check_password_hash (hash password : string) : bool :=
  String.eqb hash ("hash:" +:+ password).
Definition create_access_token (identity : string) : string :=
  "jwt:" +:+ identity.
Definition repr_list (l : list scalar) : string :=
  "[" +:+ PyStr.join (map py_str l) +:+ "]".
(** [Query.filter_by] resolves its keywords against the entity joined
    last, here [Event]: it has a [status] and no [event_id], for which it
    raises. *)
Definition filter_by (key : string) (value : scalar)
  : option (VendorApplication → Event → bool) :=
  if String.eqb key "status"
  then Some (λ _ e, bool_decide (event_status e = JVal value))
  else None.
(** A strict database: a text column takes a string that fits, a numeric
    column an integer that a double holds exactly, and every other value
    is refused. *)
Definition bind (ty : sqltype) (v : json) : option json :=
  match ty, v with
  | SqlString n, JVal (SStr s) =>
      if (String.length s <=? n)%nat then Some v else None
  | SqlText, JVal (SStr _) => Some v
  | (SqlInteger | SqlFloat), JVal (SInt n) =>
      if (Z.abs n <=? 2 ^ 53) then Some v else None
  | _, _ => None
  end.


End Sample.

(** * Properties *)

(** ** Strings *)

Module PyStrFacts.
Import PyStr.

Ltac by_cases_on_char c :=
  destruct c as [[] [] [] [] [] [] [] []]; reflexivity.

Lemma upper_char_idem c : upper_char (upper_char c) = upper_char c.
Proof. by_cases_on_char c. Qed.

Lemma is_space_upper_char c : is_space (upper_char c) = is_space c.
Proof. by_cases_on_char c. Qed.

Lemma comma_upper_char c : Ascii.eqb (upper_char c) comma = Ascii.eqb c comma.
Proof. by_cases_on_char c. Qed.

Lemma upper_idem s : upper (upper s) = upper s.
Proof. induction s as [|c s IH]; simpl; [done|]. by rewrite upper_char_idem, IH. Qed.

Lemma upper_empty s : upper s = "" ↔ s = "".
Proof. destruct s; simpl; split; congruence. Qed.

Lemma lstrip_upper s : lstrip (upper s) = upper (lstrip s).
Proof.
  induction s as [|c s IH]; simpl; [done|].
  rewrite is_space_upper_char. by destruct (is_space c).
Qed.

Lemma rstrip_upper s : rstrip (upper s) = upper (rstrip s).
Proof.
  induction s as [|c s IH]; simpl; [done|].
  rewrite IH, is_space_upper_char.
  destruct (rstrip s); simpl; [by destruct (is_space c)|done].
Qed.

Lemma strip_upper s : strip (upper s) = upper (strip s).
Proof. unfold strip. by rewrite lstrip_upper, rstrip_upper. Qed.

Lemma rstrip_idem s : rstrip (rstrip s) = rstrip s.
Proof.
  induction s as [|c s IH]; simpl; [done|].
  destruct (rstrip s) as [|c' r] eqn:E.
  - destruct (is_space c) eqn:Ec; simpl; [done|]. by rewrite Ec.
  - change (rstrip (String c (String c' r)) = String c (String c' r)).
    simpl in IH |- *. by rewrite IH.
Qed.

(** A string that starts with a non-space is left alone by [lstrip], and
    [rstrip] keeps its first character. *)
Lemma lstrip_rstrip_head c s :
  is_space c = false → ∃ r, rstrip (String c s) = String c r.
Proof.
  intros Hc. simpl. destruct (rstrip s); [rewrite Hc|]; eauto.
Qed.

Lemma lstrip_cases s :
  lstrip s = "" ∨ ∃ c r, lstrip s = String c r ∧ is_space c = false.
Proof.
  induction s as [|c s IH]; simpl; [by left|].
  destruct (is_space c) eqn:Ec; [done|]. right; eauto.
Qed.

Lemma strip_idem s : strip (strip s) = strip s.
Proof.
  unfold strip. destruct (lstrip_cases s) as [->|(c & r & -> & Hc)]; [done|].
  destruct (lstrip_rstrip_head c r Hc) as [r' Hr]. rewrite Hr.
  simpl lstrip. rewrite Hc, <- Hr. apply rstrip_idem.
Qed.

Lemma has_comma_upper s : has_comma (upper s) = has_comma s.
Proof. induction s as [|c s IH]; simpl; [done|]. by rewrite comma_upper_char, IH. Qed.

Lemma has_comma_lstrip s : has_comma s = false → has_comma (lstrip s) = false.
Proof.
  induction s as [|c s IH]; simpl; [done|].
  intros [? ?]%orb_false_iff. destruct (is_space c); simpl; [auto|].
  apply orb_false_iff; auto.
Qed.

Lemma has_comma_rstrip s : has_comma s = false → has_comma (rstrip s) = false.
Proof.
  induction s as [|c s IH]; simpl; [done|].
  intros [Hc Hs]%orb_false_iff. specialize (IH Hs).
  destruct (rstrip s); simpl in *.
  - destruct (is_space c); simpl; [done|]. by rewrite Hc.
  - by rewrite Hc.
Qed.

Lemma has_comma_strip s : has_comma s = false → has_comma (strip s) = false.
Proof. intros. by apply has_comma_rstrip, has_comma_lstrip. Qed.

Lemma split_not_nil s : split s ≠ [].
Proof.
  destruct s as [|c s]; simpl; [done|].
  destruct (Ascii.eqb c comma); [done|]. by destruct (split s).
Qed.

Lemma split_has_comma s : Forall (λ t, has_comma t = false) (split s).
Proof.
  induction s as [|c s IH]; simpl; [by repeat constructor|].
  destruct (Ascii.eqb c comma) eqn:Ec; [by constructor|].
  destruct (split s) as [|h t]; [by repeat constructor; simpl; rewrite Ec|].
  inversion_clear IH. constructor; [|done]. simpl. by rewrite Ec.
Qed.

Lemma split_no_comma a : has_comma a = false → split a = [a].
Proof.
  induction a as [|c a IH]; simpl; [done|].
  intros [Hc Ha]%orb_false_iff. by rewrite Hc, IH.
Qed.

Lemma split_app_comma a r :
  has_comma a = false → split (a +:+ String comma r) = a :: split r.
Proof.
  induction a as [|c a IH]; simpl; [done|].
  intros [Hc Ha]%orb_false_iff. by rewrite Hc, IH.
Qed.

Lemma split_join cs :
  cs ≠ [] → Forall (λ c, has_comma c = false) cs → split (join cs) = cs.
Proof.
  induction cs as [|c cs IH]; [done|]. intros _ Hall.
  inversion_clear Hall as [|? ? Hc Hcs].
  destruct cs as [|c' cs]; [by apply split_no_comma|].
  change (join (c :: c' :: cs)) with (c +:+ String comma (join (c' :: cs))).
  rewrite split_app_comma by done. by rewrite IH.
Qed.

Lemma join_empty cs : join cs = "" → cs = [] ∨ ∃ cs', cs = "" :: cs'.
Proof.
  destruct cs as [|c cs]; [by left|]. right.
  destruct c; [eauto|]. destruct cs; simpl in *; discriminate.
Qed.

Example strip_example : strip "  a b  " = "a b".
Proof. reflexivity. Qed.

Example split_example : split "a,,b," = ["a"; ""; "b"; ""].
Proof. reflexivity. Qed.

Example join_example : join ["USD"; "EUR"] = "USD,EUR".
Proof. reflexivity. Qed.

End PyStrFacts.

Example py_int_examples :
  py_int " 12 " = Some 12 ∧ py_int "1_000" = Some 1000
  ∧ py_int "-7" = Some (-7) ∧ py_int "+0" = Some 0
  ∧ py_int "" = None ∧ py_int "_1" = None ∧ py_int "1__0" = None
  ∧ py_int "1_" = None ∧ py_int "0x10" = None ∧ py_int "- 1" = None.
Proof. vm_compute. done. Qed.

(** The separators FS, GS, RS and US are white space for [str.strip] and
    not for [int()]. *)
Example py_int_separator :
  PyStr.strip (String (ascii_of_N 28) "5") = "5"
  ∧ py_int (String (ascii_of_N 28) "5") = None
  ∧ py_int (String (ascii_of_N 9) "5") = Some 5.
Proof. vm_compute. done. Qed.

Example allowed_currencies_example :
  allowed_currencies "USD, EUR,," = ["USD"; "EUR"].
Proof. vm_compute. reflexivity. Qed.

(** ** Currency normalization *)

Section Normalize.
Import PyStr PyStrFacts.

Lemma clean_step_canonical cleaned v :
  clean_step cleaned v =
    if negb (String.eqb (canonical v) "")
       && negb (bool_decide (canonical v ∈ cleaned))
    then (cleaned ++ [canonical v])%list else cleaned.
Proof. reflexivity. Qed.

Lemma canonical_idem v : canonical (canonical v) = canonical v.
Proof.
  unfold canonical at 2 3. case_bool_decide as Halias; [done|].
  unfold canonical. rewrite strip_upper, strip_idem, upper_idem.
  by rewrite bool_decide_eq_false_2.
Qed.

Lemma canonical_has_comma v :
  has_comma v = false → has_comma (canonical v) = false.
Proof.
  intros Hv. unfold canonical. case_bool_decide; [done|].
  by rewrite has_comma_upper, has_comma_strip.
Qed.

Lemma canonical_is_code v :
  has_comma v = false → canonical v ≠ "" → is_code (canonical v).
Proof.
  intros Hv Hne. split_and!; [done|by apply canonical_has_comma|].
  apply canonical_idem.
Qed.

Lemma clean_step_inv cleaned v :
  has_comma v = false → Forall is_code cleaned → NoDup cleaned →
  Forall is_code (clean_step cleaned v) ∧ NoDup (clean_step cleaned v).
Proof.
  intros Hv Hall Hnd. rewrite clean_step_canonical.
  destruct (String.eqb_spec (canonical v) "") as [|Hne]; simpl; [done|].
  case_bool_decide as Hin; simpl; [done|]. split.
  - apply Forall_app; split; [done|]. apply Forall_singleton.
    by apply canonical_is_code.
  - apply NoDup_app; split_and!; [done| |by apply NoDup_singleton].
    intros x Hx ->%list_elem_of_singleton. done.
Qed.

Lemma fold_clean_step_inv values cleaned :
  Forall (λ v, has_comma v = false) values →
  Forall is_code cleaned → NoDup cleaned →
  Forall is_code (fold_left clean_step values cleaned)
  ∧ NoDup (fold_left clean_step values cleaned).
Proof.
  revert cleaned. induction values as [|v values IH]; intros cleaned Hvs Hall Hnd.
  - done.
  - inversion_clear Hvs. simpl.
    destruct (clean_step_inv cleaned v) as [? ?]; auto.
Qed.

(** On codes that are already clean and distinct the loop is the identity. *)
Lemma fold_clean_step_codes cs cleaned :
  Forall is_code cs → NoDup (cleaned ++ cs)%list →
  fold_left clean_step cs cleaned = (cleaned ++ cs)%list.
Proof.
  revert cleaned. induction cs as [|c cs IH]; intros cleaned Hall Hnd; simpl.
  - by rewrite app_nil_r.
  - inversion_clear Hall as [|? ? (Hne & _ & Hc) Hcs].
    rewrite clean_step_canonical, Hc.
    destruct (String.eqb_spec c "") as [|_]; [done|]. simpl.
    rewrite bool_decide_eq_false_2.
    + simpl. rewrite IH; [by rewrite <- app_assoc|done|by rewrite <- app_assoc].
    + apply NoDup_app in Hnd as (_ & Hdisj & _). intros Hin.
      apply (Hdisj c Hin). by left.
Qed.

Lemma currency_codes_of_split s :
  Forall is_code (currency_codes (split s))
  ∧ NoDup (currency_codes (split s)).
Proof.
  apply fold_clean_step_inv; [apply split_has_comma|constructor|constructor].
Qed.

Lemma currency_codes_join cs :
  cs ≠ [] → Forall is_code cs → NoDup cs →
  join cs ≠ "" ∧ currency_codes (split (join cs)) = cs.
Proof.
  intros Hne Hall Hnd. split.
  - intros [->|[cs' ->]]%join_empty; [done|].
    inversion_clear Hall as [|? ? (? & _) _]. done.
  - rewrite split_join; [|done|].
    + unfold currency_codes. by rewrite fold_clean_step_codes.
    + eapply Forall_impl; [exact Hall|]. by intros c (_ & ? & _).
Qed.

End Normalize.

(** C8 (as amended).  Normalization is idempotent on every input string
    that holds at least one currency code: the result [o] of
    [normalize_currency_options(s, d)] is returned unchanged by
    [normalize_currency_options(o, d')], whatever the two
    [default_currency] arguments are.  (When the input holds no code the
    result is [default_currency.upper()], which is not normalized.) *)
Theorem normalize_idempotent_on_codes (s : string) (d d' : json) :
  currency_codes (PyStr.split s) ≠ [] →
  ∃ o, normalize_currency_options (JStr s) d = Some o
       ∧ normalize_currency_options (JStr o) d' = Some o.
Proof.
  intros Hne.
  destruct (currency_codes_of_split s) as [Hall Hnd].
  destruct (currency_codes_join _ Hne Hall Hnd) as [Hjoin Hagain].
  assert (Hs : truthy (JStr s) = true).
  { destruct s; [by destruct Hne|done]. }
  exists (PyStr.join (currency_codes (PyStr.split s))). split.
  - unfold normalize_currency_options. rewrite Hs. simpl.
    by destruct (currency_codes (PyStr.split s)).
  - unfold normalize_currency_options.
    assert (Ho : truthy (JStr (PyStr.join (currency_codes (PyStr.split s)))) = true).
    { simpl. by destruct (String.eqb_spec
                            (PyStr.join (currency_codes (PyStr.split s))) ""). }
    rewrite Ho. simpl. rewrite Hagain.
    by destruct (currency_codes (PyStr.split s)).
Qed.

Lemma normalize_idempotent_on_codes_witness :
  currency_codes (PyStr.split " usd , Euros,usd") ≠ []
  ∧ ∃ o, normalize_currency_options (JStr " usd , Euros,usd") (JStr "kes")
           = Some o
         ∧ normalize_currency_options (JStr o) JNone = Some o.
Proof.
  split; [vm_compute; discriminate|].
  apply (normalize_idempotent_on_codes " usd , Euros,usd" (JStr "kes") JNone).
  vm_compute; discriminate.
Defined.

(** C8 fails as stated: with no options the upper-cased default is
    returned as it is, and normalizing that result changes it. *)
Lemma normalize_default_not_idempotent :
  normalize_currency_options (JStr "") (JStr "euro") = Some "EURO"
  ∧ normalize_currency_options (JStr "EURO") (JStr "euro") = Some "EUR"
  ∧ normalize_currency_options (JStr "EURO") (JStr "euro") ≠ Some "EURO".
Proof. vm_compute. split_and!; [reflexivity|reflexivity|discriminate]. Qed.

(** Without a code in the input the answer is the upper-cased default. *)
Lemma normalize_without_codes (s d : string) :
  currency_codes (PyStr.split s) = [] →
  normalize_currency_options (JStr s) (JStr d) = Some (PyStr.upper d).
Proof.
  intros Hnil. unfold normalize_currency_options.
  destruct (truthy (JStr s)); simpl; [|done]. by rewrite Hnil.
Qed.

Example normalize_scenario :
  normalize_currency_options (JList [SStr "Euros"; SStr " usd "]) (JStr "eur")
  = Some "EUR,USD".
Proof. vm_compute. reflexivity. Qed.

Example normalize_missing :
  normalize_currency_options JNone (JStr "kes") = Some "KES".
Proof. reflexivity. Qed.

(** ** The store *)

Section Store.

Lemma next_id_above {A} (m : gmap Z A) k :
  is_Some (m !! k) → k < next_id m.
Proof.
  unfold next_id.
  apply (map_fold_weak_ind
           (λ r (m : gmap Z A), is_Some (m !! k) → k < 1 + r)).
  - by intros [? ?%lookup_empty_Some].
  - intros i x m' r _ IH [y Hy]. destruct (decide (i = k)) as [->|Hne].
    + lia.
    + rewrite lookup_insert_ne in Hy by done.
      assert (k < 1 + r) by eauto. lia.
Qed.

Lemma next_id_fresh {A} (m : gmap Z A) : m !! next_id m = None.
Proof.
  destruct (m !! next_id m) eqn:E; [|done].
  assert (next_id m < next_id m) by (apply next_id_above; eauto). lia.
Qed.

Lemma elem_of_rows_where {A} (P : A → bool) (m : gmap Z A) k x :
  (k, x) ∈ rows_where P m ↔ m !! k = Some x ∧ P x = true.
Proof.
  unfold rows_where. rewrite list_elem_of_filter, elem_of_map_to_list.
  simpl. tauto.
Qed.

Lemma rows_where_nil {A} (P : A → bool) (m : gmap Z A) :
  rows_where P m = [] ↔ ∀ k x, m !! k = Some x → P x = false.
Proof.
  split.
  - intros Hnil k x Hk. destruct (P x) eqn:E; [|done].
    assert ((k, x) ∈ rows_where P m) as Hin by (by apply elem_of_rows_where).
    rewrite Hnil in Hin. by apply elem_of_nil in Hin.
  - intros Hall. destruct (rows_where P m) as [|[k x] l] eqn:E; [done|].
    assert ((k, x) ∈ rows_where P m) as [Hk HP]%elem_of_rows_where
      by (rewrite E; left).
    rewrite (Hall k x Hk) in HP. done.
Qed.

Lemma is_admin_check st identity admin_id :
  is_admin st identity admin_id →
  check_admin st identity = true
  ∧ get_current_admin_id st identity = Some admin_id.
Proof.
  intros [Hid (user & Huser & Hrole)].
  unfold check_admin, get_current_admin_id. rewrite Hid, Huser, Hrole. done.
Qed.

Lemma check_admin_is_admin st identity :
  check_admin st identity = true →
  ∃ admin_id, is_admin st identity admin_id.
Proof.
  unfold check_admin, is_admin.
  destruct (_current_user_id identity) as [uid|]; [|done].
  destruct (users st !! uid) as [user|] eqn:E; [|done].
  intros Hrole%String.eqb_eq. eauto.
Qed.

End Store.

(** ** Vendor accounts *)

(** C10.  Any admin can flip the [is_active] flag of any vendor: the call
    answers 200 and stores the vendor with the flag negated.  Nothing is
    asked of the events and applications in the store, so the vendor need
    not have applied to an event of this admin. *)
Theorem toggle_vendor_status_any_admin (st : db) (identity : string)
    (admin_id vendor_id : Z) (vendor : User) (now : datetime) :
  is_admin st identity admin_id →
  users st !! vendor_id = Some vendor →
  role vendor = "vendor" →
  ∃ msg,
    toggle_vendor_status st identity vendor_id now
    = (mkResponse 200 (VendorToggled msg (vendor_id, toggled vendor now)),
       set_users st (<[vendor_id := toggled vendor now]> (users st)))
    ∧ is_active (toggled vendor now) = negb (is_active vendor)
    ∧ users (toggle_vendor_status st identity vendor_id now).2 !! vendor_id
      = Some (toggled vendor now).
Proof.
  intros [Hcheck _]%is_admin_check Hvendor Hrole.
  unfold toggle_vendor_status. rewrite Hcheck, Hvendor, Hrole. simpl.
  eexists. split_and!; [reflexivity|reflexivity|].
  apply lookup_insert_eq.
Qed.

Lemma toggle_vendor_status_any_admin_witness :
  is_admin Sample.store "1" 1
  ∧ users Sample.store !! 4 = Some (Sample.user "w@example.org" "vendor" false)
  ∧ rows_where (λ a, app_vendor_id a =? 4) (vendor_applications Sample.store) = []
  ∧ ∃ msg,
      toggle_vendor_status Sample.store "1" 4 99
      = (mkResponse 200
           (VendorToggled msg
              (4, toggled (Sample.user "w@example.org" "vendor" false) 99)),
         set_users Sample.store
           (<[4 := toggled (Sample.user "w@example.org" "vendor" false) 99]>
              (users Sample.store)))
      ∧ is_active (toggled (Sample.user "w@example.org" "vendor" false) 99)
        = negb (is_active (Sample.user "w@example.org" "vendor" false))
      ∧ users (toggle_vendor_status Sample.store "1" 4 99).2 !! 4
        = Some (toggled (Sample.user "w@example.org" "vendor" false) 99).
Proof.
  assert (Hadmin : is_admin Sample.store "1" 1).
  { split; [reflexivity|]. eexists. split; reflexivity. }
  split_and!; [exact Hadmin|reflexivity|reflexivity|].
  apply (toggle_vendor_status_any_admin Sample.store "1" 1 4 _ 99 Hadmin);
    reflexivity.
Defined.

(** ** Reviewing applications *)

Section Review.

Variable bind : sqltype → json → option json.

(** What a flush of [review_application] that does not raise has written. *)
Lemma reviewed_rows_Some st id a e s data reviewer now a' payments' :
  reviewed_rows bind st id a e s data reviewer now = Some (a', payments') ↔
  ∃ new_notes,
    column bind SqlText (default JNone (data !! "admin_notes")) = Some new_notes
    ∧ a' = reviewed a s new_notes reviewer now
    ∧ (s = "approved" ∧ payments_of st id = [] ∧ vendor_fee e ≠ JNone
       ∧ payments'
         = <[next_id (payments st) :=
               new_payment id (app_vendor_id a) (vendor_fee e) now]>
             (payments st)
       ∨ (s ≠ "approved" ∨ payments_of st id ≠ []) ∧ payments' = payments st).
Proof.
  unfold reviewed_rows.
  destruct (column bind SqlText (default JNone (data !! "admin_notes")))
    as [new_notes|]; simpl; [|split; [done|by intros (? & ? & _)]].
  destruct (String.eqb_spec s "approved") as [->|Hs]; simpl.
  - destruct (payments_of st id) as [|r l] eqn:Hp; simpl.
    + destruct (vendor_fee e) as [[| | |]|] eqn:Hfee; simpl; split;
        try (intros [= <- <-]; exists new_notes; split_and!; try done;
             left; by rewrite ?Hfee);
        intros (n' & [= <-] & -> & [(_ & _ & Hne & ->)|[[?|?] _]]);
        by rewrite ?Hfee.
    + split.
      * intros [= <- <-]. exists new_notes. split_and!; try done.
        right. split; [by right|done].
      * by intros (n' & [= <-] & -> & [(_ & ? & _)|[_ ->]]).
  - split.
    + intros [= <- <-]. exists new_notes. split_and!; try done.
      right. split; [by left|done].
    + by intros (n' & [= <-] & -> & [(? & _)|[_ ->]]).
Qed.

(** The flush raises exactly when the notes cannot be stored, or the
    first payment of an approval has no amount. *)
Lemma reviewed_rows_is_Some st id a e s data reviewer now :
  is_Some (reviewed_rows bind st id a e s data reviewer now) ↔
  is_Some (column bind SqlText (default JNone (data !! "admin_notes")))
  ∧ (s = "approved" → payments_of st id = [] → vendor_fee e ≠ JNone).
Proof.
  split.
  - intros [[a' payments'] (n & Hn & _ & Hcase)%reviewed_rows_Some].
    split; [by rewrite Hn|].
    intros Hs Hnil. destruct Hcase as [(_ & _ & ? & _)|[[?|?] _]]; done.
  - intros [[n Hn] Hfee].
    destruct (decide (s = "approved" ∧ payments_of st id = []))
      as [[Hs Hnil]|Hno].
    + eexists (_, _). apply reviewed_rows_Some. exists n.
      split_and!; [done|done|]. left. split_and!; [done|done|by apply Hfee|done].
    + eexists (_, _). apply reviewed_rows_Some. exists n.
      split_and!; [done|done|]. right. split; [|done].
      destruct (decide (s = "approved")); [right|by left].
      intros ?. by apply Hno.
Qed.

(** The call of the owner with a new status among the two, as an
    equation. *)
Lemma review_application_owner st identity admin_id id a e data s now :
  is_admin st identity admin_id →
  vendor_applications st !! id = Some a →
  events st !! event_id a = Some e →
  created_by_admin_id e = admin_id →
  data !! "status" = Some (JStr s) →
  s ∈ ["approved"; "rejected"] →
  review_application bind st identity id data now
  = match reviewed_rows bind st id a e s data admin_id now with
    | None => (server_error, st)
    | Some (a', payments') =>
        (mkResponse 200
           (ApplicationReviewed ("Application " +:+ s +:+ " successfully")
              (id, a')),
         mkDb (users st) (events st) (<[id := a']> (vendor_applications st))
           payments')
    end.
Proof.
  intros Hadmin Ha He Howner Hstatus Hs.
  destruct (is_admin_check _ _ _ Hadmin) as [Hcheck _].
  destruct Hadmin as [Hid _].
  unfold review_application.
  rewrite Hcheck, Hid, Ha, He, Hstatus. simpl.
  rewrite (proj2 (Z.eqb_eq _ _) Howner). simpl.
  by rewrite bool_decide_eq_true_2 by done.
Qed.

(** A review that does not answer 200 leaves the store as it was. *)
Lemma review_application_refused st identity id data now :
  status_code (review_application bind st identity id data now).1 ≠ 200%nat →
  (review_application bind st identity id data now).2 = st.
Proof.
  unfold review_application.
  repeat (case_match; simpl; try done).
Qed.

(** A review that answers 200 was made by the owner of the event, with a
    new status among the two, and its flush did not raise. *)
Lemma review_application_inv st identity id data now :
  (status_code (review_application bind st identity id data now).1 ≠ 200%nat
   ∧ (review_application bind st identity id data now).2 = st)
  ∨ ∃ admin_id a e s a' payments',
      is_admin st identity admin_id
      ∧ vendor_applications st !! id = Some a
      ∧ events st !! event_id a = Some e
      ∧ created_by_admin_id e = admin_id
      ∧ data !! "status" = Some (JStr s)
      ∧ s ∈ ["approved"; "rejected"]
      ∧ reviewed_rows bind st id a e s data admin_id now = Some (a', payments')
      ∧ status_code (review_application bind st identity id data now).1
        = 200%nat
      ∧ (review_application bind st identity id data now).2
        = mkDb (users st) (events st) (<[id := a']> (vendor_applications st))
            payments'.
Proof.
  destruct (decide (status_code
                      (review_application bind st identity id data now).1
                    = 200%nat)) as [Hok|Hno];
    [right|left; split; [done|by apply review_application_refused]].
  revert Hok. unfold review_application.
  destruct (check_admin st identity) eqn:Hcheck; simpl; [|done].
  destruct (check_admin_is_admin _ _ Hcheck) as [admin_id Hadmin].
  pose proof Hadmin as [Hid _]. rewrite Hid.
  destruct (vendor_applications st !! id) as [a|] eqn:Ha; [|done].
  destruct (events st !! event_id a) as [e|] eqn:He; [|done].
  destruct (Z.eqb_spec (created_by_admin_id e) admin_id) as [Howner|]; [|done].
  simpl.
  destruct (data !! "status") as [[[| | |s]|]|] eqn:Hs; try done.
  case_bool_decide as Hin; [|done].
  destruct (reviewed_rows bind st id a e s data admin_id now)
    as [[a' payments']|] eqn:Hrows; [|done].
  intros _. exists admin_id, a, e, s, a', payments'. split_and!; done.
Qed.

(** A review writes to the applications and, for a first approval, to
    the payments; users and events are left alone. *)
Lemma review_application_tables st identity id data now :
  users (review_application bind st identity id data now).2 = users st
  ∧ events (review_application bind st identity id data now).2 = events st.
Proof.
  destruct (review_application_inv st identity id data now)
    as [[_ ->]|(? & ? & ? & ? & ? & ? & _ & _ & _ & _ & _ & _ & _ & _ & ->)];
    done.
Qed.


End Review.

(** C3 (as amended).  [review_application] does not look at the current
    status of the application.  For an application in any status, a
    review by the admin who owns its event, with a new status among
    approved and rejected, is answered 200 exactly when the database
    stores the notes and, for an approval that has to create the payment,
    the event has a fee; when it is answered 200 it stores the new status
    with [reviewed_at = now] and [reviewed_by] the admin.  A review that is
    not answered 200 leaves the store unchanged.  The status code of the
    answer is the same whatever status the application has. *)
Theorem review_application_any_status (bind : sqltype → json → option json)
    (st : db) (identity : string)
    (admin_id id : Z) (a : VendorApplication) (e : Event)
    (data : gmap string json) (now : datetime) :
  is_admin st identity admin_id →
  vendor_applications st !! id = Some a →
  events st !! event_id a = Some e →
  created_by_admin_id e = admin_id →
  (∀ s, data !! "status" = Some (JStr s) → s ∈ ["approved"; "rejected"] →
     (status_code (review_application bind st identity id data now).1
      = 200%nat ↔
      is_Some (column bind SqlText (default JNone (data !! "admin_notes")))
      ∧ (s = "approved" → payments_of st id = [] → vendor_fee e ≠ JNone))
     ∧ (status_code (review_application bind st identity id data now).1
        = 200%nat →
        ∃ a', vendor_applications
                (review_application bind st identity id data now).2 !! id
              = Some a'
              ∧ app_status a' = s
              ∧ reviewed_at a' = Some now
              ∧ reviewed_by a' = Some admin_id))
  ∧ (status_code (review_application bind st identity id data now).1
     ≠ 200%nat →
     (review_application bind st identity id data now).2 = st)
  ∧ (∀ s0,
       status_code
         (review_application bind
            (mkDb (users st) (events st)
               (<[id := with_status a s0]> (vendor_applications st))
               (payments st))
            identity id data now).1
       = status_code (review_application bind st identity id data now).1).
Proof.
  intros Hadmin Ha He Howner. split_and!.
  - intros s Hstatus Hs.
    rewrite (review_application_owner bind _ _ _ _ _ _ _ s now
               Hadmin Ha He Howner Hstatus Hs).
    rewrite <- reviewed_rows_is_Some.
    destruct (reviewed_rows bind st id a e s data admin_id now)
      as [[a' payments']|] eqn:Hrows; simpl.
    + split; [split; [rewrite Hrows; eauto|done]|]. intros _.
      apply reviewed_rows_Some in Hrows as (n & _ & -> & _).
      exists (reviewed a s n admin_id now).
      split; [apply lookup_insert_eq|done].
    + split; [|done]. split; [done|]. rewrite Hrows. by intros [? [=]].
  - apply review_application_refused.
  - intros s0.
    set (st0 := mkDb (users st) (events st)
                  (<[id := with_status a s0]> (vendor_applications st))
                  (payments st)).
    assert (Hadmin0 : is_admin st0 identity admin_id) by exact Hadmin.
    assert (Ha0 : vendor_applications st0 !! id = Some (with_status a s0))
      by apply lookup_insert_eq.
    destruct (data !! "status") as [[[| | |s]|]|] eqn:Hstatus.
    4: destruct (decide (s ∈ ["approved"; "rejected"])) as [Hs|Hs].
    4: { rewrite (review_application_owner bind st0 _ _ _ _ _ _ s now
                    Hadmin0 Ha0 He Howner Hstatus Hs).
         rewrite (review_application_owner bind st _ _ _ _ _ _ s now
                    Hadmin Ha He Howner Hstatus Hs).
         unfold reviewed_rows. simpl.
         change (payments_of st0 id) with (payments_of st id).
         destruct (column bind SqlText (default JNone (data !! "admin_notes")));
           simpl; [|done].
         destruct (String.eqb s "approved"); simpl; [|done].
         destruct (payments_of st id); simpl; [|done].
         by destruct (vendor_fee e) as [[| | |]|]. }
    all: destruct (is_admin_check _ _ _ Hadmin) as [Hcheck _];
      destruct (is_admin_check _ _ _ Hadmin0) as [Hcheck0 _];
      destruct Hadmin as [Hid _];
      unfold review_application;
      rewrite Hcheck, Hcheck0, Hid, Ha0, Ha; simpl;
      rewrite He; simpl;
      rewrite (proj2 (Z.eqb_eq _ _) Howner); simpl;
      rewrite Hstatus; try done.
    by rewrite bool_decide_eq_false_2.
Qed.

Lemma review_application_any_status_witness :
  is_admin Sample.store "2" 2
  ∧ vendor_applications Sample.store !! 2
    = Some (Sample.application 3 2 "approved" (Some 10) (Some 2))
  ∧ events Sample.store !! 2 = Some (Sample.event 2 750)
  ∧ status_code
      (review_application Sample.bind Sample.store "2" 2
         {[ "status" := JStr "rejected" ]} 99).1 = 200%nat
  ∧ ∃ a', vendor_applications
            (review_application Sample.bind Sample.store "2" 2
               {[ "status" := JStr "rejected" ]} 99).2 !! 2 = Some a'
          ∧ app_status a' = "rejected"
          ∧ reviewed_at a' = Some 99
          ∧ reviewed_by a' = Some 2.
Proof.
  assert (Hadmin : is_admin Sample.store "2" 2).
  { split; [reflexivity|]. eexists. split; reflexivity. }
  assert (H200 : status_code
                   (review_application Sample.bind Sample.store "2" 2
                      {[ "status" := JStr "rejected" ]} 99).1 = 200%nat)
    by (vm_compute; reflexivity).
  assert (Hs : "rejected" ∈ ["approved"; "rejected"]) by (right; left).
  assert (Hstatus : ({[ "status" := JStr "rejected" ]} : gmap string json)
                    !! "status" = Some (JStr "rejected"))
    by (vm_compute; reflexivity).
  split_and!; [exact Hadmin|reflexivity|reflexivity|exact H200|].
  exact (proj2 (proj1 (review_application_any_status Sample.bind Sample.store
                         "2" 2 2
                         (Sample.application 3 2 "approved" (Some 10) (Some 2))
                         (Sample.event 2 750)
                         {[ "status" := JStr "rejected" ]} 99
                         Hadmin eq_refl eq_refl eq_refl)
                  "rejected" Hstatus Hs) H200).
Defined.

(** C3 fails as stated: application 2 is approved and was reviewed at time
    10; a second review at time 99 turns it into a rejected one and
    overwrites [reviewed_at]. *)
Lemma review_application_leaves_terminal_status :
  app_status <$> vendor_applications Sample.store !! 2 = Some "approved"
  ∧ reviewed_at <$> vendor_applications Sample.store !! 2 = Some (Some 10)
  ∧ app_status <$>
      vendor_applications
        (review_application Sample.bind Sample.store "2" 2
           {[ "status" := JStr "rejected" ]} 99).2 !! 2 = Some "rejected"
  ∧ reviewed_at <$>
      vendor_applications
        (review_application Sample.bind Sample.store "2" 2
           {[ "status" := JStr "rejected" ]} 99).2 !! 2 = Some (Some 99).
Proof. vm_compute. done. Qed.

(** ** One payment per approved application *)

Section Approval.

Variable bind : sqltype → json → option json.



Lemma payments_of_ext st st' id :
  payments st' = payments st → payments_of st' id = payments_of st id.
Proof. unfold payments_of. by intros ->. Qed.

(** A review leaves the payments table alone, or adds the first payment
    of the application it reviews: a pending one, whose amount is the fee
    of the event. *)
Lemma review_application_payments st identity id data now :
  payments (review_application bind st identity id data now).2 = payments st
  ∨ payments_of st id = []
    ∧ status_code (review_application bind st identity id data now).1
      = 200%nat
    ∧ ∃ a e,
        vendor_applications st !! id = Some a
        ∧ events st !! event_id a = Some e
        ∧ payments (review_application bind st identity id data now).2
          = <[next_id (payments st) :=
                new_payment id (app_vendor_id a) (vendor_fee e) now]>
              (payments st).
Proof.
  destruct (review_application_inv bind st identity id data now)
    as [[_ ->]|(admin_id & a & e & s & a' & payments' & _ & Ha & He & _ & _ & _
                & (n & _ & _ & Hcase)%reviewed_rows_Some & Hok & ->)];
    [by left|].
  destruct Hcase as [(_ & Hnil & _ & ->)|[_ ->]]; [right|by left].
  split_and!; [done|done|]. exists a, e. done.
Qed.





Lemma rows_where_insert_length {A} (P : A → bool) (m : gmap Z A) k v :
  m !! k = None →
  List.length (rows_where P (<[k := v]> m))
  = ((if P v then 1 else 0) + List.length (rows_where P m))%nat.
Proof.
  intros Hk. unfold rows_where.
  rewrite (map_to_list_insert m k v Hk).
  destruct (P v) eqn:E.
  - by rewrite filter_cons_True.
  - rewrite filter_cons_False; [done|]. simpl. by rewrite E.
Qed.

(** A review never gives an application a second payment. *)
Lemma review_at_most_one_payment st identity id data now k :
  (List.length (payments_of st k) ≤ 1)%nat →
  (List.length
     (payments_of (review_application bind st identity id data now).2 k)
   ≤ 1)%nat.
Proof.
  intros Hone.
  destruct (review_application_payments st identity id data now)
    as [Hsame|(Hnil & _ & a & e & _ & _ & Hnew)].
  - by rewrite (payments_of_ext st).
  - unfold payments_of in *. rewrite Hnew.
    rewrite rows_where_insert_length by apply next_id_fresh. simpl.
    destruct (Z.eqb_spec id k) as [->|Hne]; [|done]. by rewrite Hnil.
Qed.


End Approval.




Example approve_twice_one_payment :
  payments_of
    (review_all Sample.bind Sample.store "1" 1
       [({[ "status" := JStr "approved" ]}, 50);
        ({[ "status" := JStr "approved" ]}, 60)]) 1
  = [(2, new_payment 1 3 (JVal (SInt 500)) 50)].
Proof. vm_compute. reflexivity. Qed.

(** ** Payments *)

Section Payments.

Variable bind : sqltype → json → option json.

(** What a flush of [update_payment_status] that does not raise has
    stored. *)
Lemma stored_payment_Some m pid p s data now p' :
  stored_payment bind m pid p s data now = Some p' ↔
  ∃ method transaction notes',
    updated_column bind (SqlString 50) data "payment_method" (payment_method p)
    = Some method
    ∧ updated_column bind (SqlString 100) data "transaction_id"
        (transaction_id p) = Some transaction
    ∧ updated_column bind SqlText data "notes" (notes p) = Some notes'
    ∧ (data !! "transaction_id" = None
       ∨ transaction_id_free m pid transaction = true)
    ∧ p' = payment_updated p s method transaction notes' now.
Proof.
  unfold stored_payment.
  destruct (updated_column bind (SqlString 50) data "payment_method" _)
    as [method|]; simpl; [|split; [done|by intros (? & ? & ? & ? & _)]].
  destruct (updated_column bind (SqlString 100) data "transaction_id" _)
    as [transaction|]; simpl; [|split; [done|by intros (? & ? & ? & _ & ? & _)]].
  destruct (updated_column bind SqlText data "notes" _)
    as [notes'|]; simpl;
    [|split; [done|by intros (? & ? & ? & _ & _ & ? & _)]].
  destruct (bool_decide (data !! "transaction_id" = None)
            || transaction_id_free m pid transaction) eqn:Hfree; split.
  - intros [= <-]. exists method, transaction, notes'.
    split_and!; try done.
    apply orb_true_iff in Hfree as [?%bool_decide_eq_true|?]; eauto.
  - by intros (? & ? & ? & [= <-] & [= <-] & [= <-] & _ & ->).
  - done.
  - intros (? & ? & ? & _ & [= <-] & _ & Hor & _).
    apply orb_false_iff in Hfree as [?%bool_decide_eq_false ?].
    destruct Hor; congruence.
Qed.

Lemma update_payment_status_refused st identity pid data now :
  status_code (update_payment_status bind st identity pid data now).1
  ≠ 200%nat →
  (update_payment_status bind st identity pid data now).2 = st.
Proof.
  unfold update_payment_status.
  repeat (case_match; simpl; try done).
Qed.

(** The call of the admin at the end of the payment's chain, with one of
    the four statuses, as an equation. *)
Lemma update_payment_status_owner st identity admin_id pid p data s now :
  is_admin st identity admin_id →
  payments st !! pid = Some p →
  payment_owner st p = Some admin_id →
  data !! "status" = Some (JStr s) →
  s ∈ ["pending"; "completed"; "failed"; "refunded"] →
  update_payment_status bind st identity pid data now
  = match stored_payment bind (payments st) pid p s data now with
    | None => (server_error, st)
    | Some p' =>
        (mkResponse 200
           (PaymentSaved "Payment status updated successfully" (pid, p')),
         set_payments st (<[pid := p']> (payments st)))
    end.
Proof.
  intros [Hcheck Hid]%is_admin_check Hp Howner Hstatus Hs.
  unfold update_payment_status.
  rewrite Hcheck, Hp, Hid, Howner, Hstatus. simpl.
  by rewrite !bool_decide_eq_true_2 by done.
Qed.

Lemma update_payment_status_accepted_inv st identity pid data now :
  status_code (update_payment_status bind st identity pid data now).1
  = 200%nat →
  ∃ admin_id p s method transaction notes',
    is_admin st identity admin_id
    ∧ payments st !! pid = Some p
    ∧ payment_owner st p = Some admin_id
    ∧ data !! "status" = Some (JStr s)
    ∧ s ∈ ["pending"; "completed"; "failed"; "refunded"]
    ∧ stored_payment bind (payments st) pid p s data now
      = Some (payment_updated p s method transaction notes' now)
    ∧ (update_payment_status bind st identity pid data now).2
      = set_payments st
          (<[pid := payment_updated p s method transaction notes' now]>
             (payments st)).
Proof.
  unfold update_payment_status.
  destruct (check_admin st identity) eqn:Hcheck; simpl; [|done].
  destruct (check_admin_is_admin _ _ Hcheck) as [admin_id Hadmin].
  destruct (is_admin_check _ _ _ Hadmin) as [_ Hid]. rewrite Hid.
  destruct (payments st !! pid) as [p|] eqn:Hp; [|done].
  case_bool_decide as Howner; simpl; [|done].
  destruct (data !! "status") as [[[| | |s]|]|] eqn:Hs; try done.
  case_bool_decide as Hin; [|done].
  destruct (stored_payment bind (payments st) pid p s data now)
    as [p'|] eqn:Hstored; [|done].
  intros _.
  pose proof Hstored as (method & transaction & notes' & _ & _ & _ & _ & ->)
    %stored_payment_Some.
  exists admin_id, p, s, method, transaction, notes'. split_and!; done.
Qed.

(** Either way the row [pid] is still there, and it is the old row or the
    updated one. *)
Lemma update_payment_status_row st identity pid p data now :
  payments st !! pid = Some p →
  status_code (update_payment_status bind st identity pid data now).1
  ≠ 200%nat
  ∧ payments (update_payment_status bind st identity pid data now).2 !! pid
    = Some p
  ∨ ∃ s method transaction notes',
      status_code (update_payment_status bind st identity pid data now).1
      = 200%nat
      ∧ data !! "status" = Some (JStr s)
      ∧ payments (update_payment_status bind st identity pid data now).2 !! pid
        = Some (payment_updated p s method transaction notes' now).
Proof.
  intros Hp.
  destruct (decide (status_code
                      (update_payment_status bind st identity pid data now).1
                    = 200%nat)) as [Hok|Hno].
  - right. destruct (update_payment_status_accepted_inv _ _ _ _ _ Hok)
      as (_ & p0 & s & method & transaction & notes' & _ & Hp0 & _ & Hs & _
          & _ & ->).
    rewrite Hp in Hp0. injection Hp0 as <-.
    exists s, method, transaction, notes'.
    split_and!; [done..|]. simpl. apply lookup_insert_eq.
  - left. split; [done|]. by rewrite update_payment_status_refused.
Qed.

Lemma update_payment_status_other st identity pid data now k :
  k ≠ pid →
  payments (update_payment_status bind st identity pid data now).2 !! k
  = payments st !! k.
Proof.
  intros Hne.
  destruct (decide (status_code
                      (update_payment_status bind st identity pid data now).1
                    = 200%nat)) as [Hok|Hno].
  - destruct (update_payment_status_accepted_inv _ _ _ _ _ Hok)
      as (_ & p0 & s & ? & ? & ? & _ & _ & _ & _ & _ & _ & ->).
    simpl. by apply lookup_insert_ne.
  - by rewrite update_payment_status_refused.
Qed.

Lemma update_payment_status_tables st identity pid data now :
  users (update_payment_status bind st identity pid data now).2 = users st
  ∧ events (update_payment_status bind st identity pid data now).2 = events st
  ∧ vendor_applications (update_payment_status bind st identity pid data now).2
    = vendor_applications st.
Proof.
  destruct (decide (status_code
                      (update_payment_status bind st identity pid data now).1
                    = 200%nat)) as [Hok|Hno].
  - by destruct (update_payment_status_accepted_inv _ _ _ _ _ Hok)
      as (_ & p0 & s & ? & ? & ? & _ & _ & _ & _ & _ & _ & ->).
  - by rewrite update_payment_status_refused.
Qed.

(** A body that carries the status alone writes no value of the request
    to a column: its flush cannot raise. *)
Lemma stored_payment_status_alone m pid p s data now :
  data !! "payment_method" = None →
  data !! "transaction_id" = None →
  data !! "notes" = None →
  stored_payment bind m pid p s data now
  = Some (payment_updated p s (payment_method p) (transaction_id p) (notes p)
            now).
Proof.
  intros Hm Ht Hn. unfold stored_payment, updated_column.
  rewrite Hm, Ht, Hn. by rewrite bool_decide_eq_true_2.
Qed.

End Payments.

(** The scenario of the specification: the second completion keeps the
    date of the first. *)
Example complete_twice_keeps_date :
  let st1 :=
    (update_payment_status Sample.bind Sample.store "2" 1
       {[ "status" := JStr "completed" ]} 99).2 in
  let st2 :=
    (update_payment_status Sample.bind st1 "2" 1
       {[ "status" := JStr "completed" ]} 120).2 in
  payment_date <$> payments Sample.store !! 1 = Some None
  ∧ payment_date <$> payments st1 !! 1 = Some (Some 99)
  ∧ payment_date <$> payments st2 !! 1 = Some (Some 99)
  ∧ pay_updated_at <$> payments st2 !! 1 = Some 120.
Proof. vm_compute. done. Qed.

(** ** What the other handlers leave alone *)

Section Frames.

Variable bind : sqltype → json → option json.
Variable fromisoformat : string → option datetime.
Variable repr_list : list scalar → string.

Lemma toggle_vendor_status_payments st identity vendor_id now :
  payments (toggle_vendor_status st identity vendor_id now).2 = payments st.
Proof. unfold toggle_vendor_status. by repeat (case_match; simpl). Qed.

Lemma create_event_payments st identity data now :
  payments (create_event bind fromisoformat repr_list st identity data now).2
  = payments st.
Proof. unfold create_event. by repeat (case_match; simpl). Qed.

Lemma update_event_payments st identity id data now :
  payments (update_event bind fromisoformat repr_list st identity id data now).2
  = payments st.
Proof. unfold update_event. by repeat (case_match; simpl). Qed.

Lemma delete_event_payments st identity id :
  payments (delete_event st identity id).2 = payments st.
Proof. unfold delete_event. by repeat (case_match; simpl). Qed.

(** A review may add a row, under a fresh key; the rows that exist stay. *)
Lemma review_application_payment st identity id data now pid p :
  payments st !! pid = Some p →
  payments (review_application bind st identity id data now).2 !! pid = Some p.
Proof.
  intros Hp.
  destruct (review_application_payments bind st identity id data now)
    as [->|(_ & _ & a & e & _ & _ & ->)]; [done|].
  rewrite lookup_insert_ne; [done|].
  intros Heq. pose proof (next_id_fresh (payments st)) as Hfresh.
  rewrite Heq in Hfresh. congruence.
Qed.

(** A request keeps every payment, with its amount, its application and
    a date of payment that is set. *)
Lemma handle_payment_amount st r pid p :
  payments st !! pid = Some p →
  ∃ p', payments (handle bind fromisoformat repr_list st r).2 !! pid = Some p'
        ∧ amount p' = amount p
        ∧ application_id p' = application_id p
        ∧ ∀ d, payment_date p = Some d → payment_date p' = Some d.
Proof.
  intros Hp. destruct r as [identity call now]. unfold handle. simpl.
  destruct call as [vid|aid data|data|eid data|eid|pid' data].
  - rewrite toggle_vendor_status_payments. eauto.
  - rewrite (review_application_payment _ _ _ _ _ _ _ Hp). eauto.
  - rewrite create_event_payments. eauto.
  - rewrite update_event_payments. eauto.
  - rewrite delete_event_payments. eauto.
  - destruct (decide (pid = pid')) as [<-|Hne].
    + destruct (update_payment_status_row bind st identity pid p data now Hp)
        as [[_ ->]|(s & method & transaction & notes' & _ & _ & ->)];
        [eauto|].
      eexists. split_and!; [done..|]. intros d Hd. simpl. by rewrite Hd.
    + rewrite update_payment_status_other by done. eauto.
Qed.

Lemma run_payment_amount st rs pid p :
  payments st !! pid = Some p →
  ∃ p', payments (run bind fromisoformat repr_list st rs) !! pid = Some p'
        ∧ amount p' = amount p
        ∧ application_id p' = application_id p
        ∧ ∀ d, payment_date p = Some d → payment_date p' = Some d.
Proof.
  revert st p. induction rs as [|r rs IH]; intros st p Hp; [eauto|].
  destruct (handle_payment_amount st r pid p Hp) as (p1 & Hp1 & Ha & Hi & Hd).
  destruct (IH _ _ Hp1) as (p2 & Hp2 & Ha2 & Hi2 & Hd2).
  exists p2. split; [exact Hp2|]. split_and!; [congruence|congruence|].
  intros d Hpd. by apply Hd2, Hd.
Qed.

End Frames.

(** C6.  Whatever the call and its outcome, a [payment_date] that is set
    is kept.  When it is not set, a call that answers 200 with status
    completed sets it to the current time, and a call with another status
    leaves it unset; a call that does not answer 200 leaves the payment
    as it is.  The admin at the end of the chain payment, application,
    event gets 200 for a body that carries the status completed alone.
    After any sequence of admin requests a date that was set is still the
    date of the payment. *)
Theorem payment_date_set_once (bind : sqltype → json → option json)
    (fromisoformat : string → option datetime)
    (repr_list : list scalar → string)
    (st : db) (identity : string) (pid : Z)
    (p : Payment) (data : gmap string json) (now : datetime) :
  payments st !! pid = Some p →
  (∃ p',
     payments (update_payment_status bind st identity pid data now).2 !! pid
     = Some p'
     ∧ (∀ d, payment_date p = Some d → payment_date p' = Some d)
     ∧ (payment_date p = None →
        status_code (update_payment_status bind st identity pid data now).1
        = 200%nat →
        data !! "status" = Some (JStr "completed") →
        payment_date p' = Some now)
     ∧ (payment_date p = None →
        data !! "status" ≠ Some (JStr "completed") →
        payment_date p' = None)
     ∧ (status_code (update_payment_status bind st identity pid data now).1
        ≠ 200%nat →
        p' = p))
  ∧ (∀ admin_id,
       is_admin st identity admin_id →
       payment_owner st p = Some admin_id →
       data !! "status" = Some (JStr "completed") →
       data !! "payment_method" = None →
       data !! "transaction_id" = None →
       data !! "notes" = None →
       status_code (update_payment_status bind st identity pid data now).1
       = 200%nat)
  ∧ (∀ d rs,
       payment_date p = Some d →
       ∃ p', payments (run bind fromisoformat repr_list st rs) !! pid = Some p'
             ∧ payment_date p' = Some d).
Proof.
  intros Hp. split_and!.
  - destruct (update_payment_status_row bind st identity pid p data now Hp)
      as [[Hno Hsame]|(s & method & transaction & notes' & Hok & Hs & Hnew)].
    + exists p. split_and!; done.
    + exists (payment_updated p s method transaction notes' now).
      split_and!; [done| | | |done].
      * intros d Hd. simpl. by rewrite Hd.
      * intros Hnone _ Hstatus. rewrite Hs in Hstatus.
        injection Hstatus as ->. simpl. by rewrite Hnone.
      * intros Hnone Hstatus. simpl. rewrite Hnone.
        destruct (String.eqb_spec s "completed") as [->|]; [|done].
        by rewrite Hs in Hstatus.
  - intros admin_id Hadmin Howner Hstatus Hm Ht Hn.
    rewrite (update_payment_status_owner bind _ _ _ _ _ _ "completed" now
               Hadmin Hp Howner Hstatus); [|set_solver].
    by rewrite stored_payment_status_alone.
  - intros d rs Hd.
    destruct (run_payment_amount bind fromisoformat repr_list st rs pid p Hp)
      as (p' & Hp' & _ & _ & Hkept).
    exists p'. split; [done|]. by apply Hkept.
Qed.

Lemma payment_date_set_once_witness :
  payments Sample.store !! 1 = Some Sample.payment
  ∧ is_admin Sample.store "2" 2
  ∧ status_code
      (update_payment_status Sample.bind Sample.store "2" 1
         {[ "status" := JStr "completed" ]} 99).1 = 200%nat
  ∧ ∃ p',
      payments
        (update_payment_status Sample.bind Sample.store "2" 1
           {[ "status" := JStr "completed" ]} 99).2 !! 1 = Some p'
      ∧ (∀ d, payment_date Sample.payment = Some d → payment_date p' = Some d)
      ∧ (payment_date Sample.payment = None →
         status_code
           (update_payment_status Sample.bind Sample.store "2" 1
              {[ "status" := JStr "completed" ]} 99).1 = 200%nat →
         ({[ "status" := JStr "completed" ]} : gmap string json) !! "status"
         = Some (JStr "completed") →
         payment_date p' = Some 99)
      ∧ (payment_date Sample.payment = None →
         ({[ "status" := JStr "completed" ]} : gmap string json) !! "status"
         ≠ Some (JStr "completed") →
         payment_date p' = None)
      ∧ (status_code
           (update_payment_status Sample.bind Sample.store "2" 1
              {[ "status" := JStr "completed" ]} 99).1 ≠ 200%nat →
         p' = Sample.payment).
Proof.
  assert (Hadmin : is_admin Sample.store "2" 2).
  { split; [reflexivity|]. eexists. split; reflexivity. }
  pose proof (payment_date_set_once Sample.bind Sample.fromisoformat
                Sample.repr_list Sample.store "2" 1 Sample.payment
                {[ "status" := JStr "completed" ]} 99 eq_refl)
    as (Hrow & Hok & _).
  split_and!; [reflexivity|exact Hadmin| |exact Hrow].
  apply (Hok 2 Hadmin); vm_compute; reflexivity.
Defined.

(** ** At most one payment per application, along any run *)

Section OnePayment.

Variable bind : sqltype → json → option json.
Variable fromisoformat : string → option datetime.
Variable repr_list : list scalar → string.

Lemma rows_where_replace_length {A} (P : A → bool) (m : gmap Z A) k v v' :
  m !! k = Some v → P v' = P v →
  List.length (rows_where P (<[k := v']> m))
  = List.length (rows_where P m).
Proof.
  intros Hk HP.
  rewrite <- (insert_delete_id m k v Hk) at 2.
  rewrite <- (insert_delete_eq m k v').
  rewrite !rows_where_insert_length by apply lookup_delete_eq.
  by rewrite HP.
Qed.

Lemma handle_at_most_one_payment st r id :
  (List.length (payments_of st id) ≤ 1)%nat →
  (List.length (payments_of (handle bind fromisoformat repr_list st r).2 id)
   ≤ 1)%nat.
Proof.
  intros Hone. destruct r as [identity call now]. unfold handle. simpl.
  destruct call as [vid|aid data|data|eid data|eid|pid data].
  - rewrite (payments_of_ext st); [done|apply toggle_vendor_status_payments].
  - by apply review_at_most_one_payment.
  - rewrite (payments_of_ext st); [done|apply create_event_payments].
  - rewrite (payments_of_ext st); [done|apply update_event_payments].
  - rewrite (payments_of_ext st); [done|apply delete_event_payments].
  - destruct (decide (status_code
        (update_payment_status bind st identity pid data now).1 = 200%nat))
      as [Hok|Hno].
    + destruct (update_payment_status_accepted_inv _ _ _ _ _ _ Hok)
        as (_ & p & s & ? & ? & ? & _ & Hp & _ & _ & _ & _ & ->).
      unfold payments_of in *. simpl.
      by rewrite (rows_where_replace_length _ _ _ p).
    + by rewrite update_payment_status_refused.
Qed.

(** Whatever the admins do, in whatever order, an application never gets
    a second payment. *)
Lemma run_at_most_one_payment st rs id :
  (List.length (payments_of st id) ≤ 1)%nat →
  (List.length (payments_of (run bind fromisoformat repr_list st rs) id)
   ≤ 1)%nat.
Proof.
  revert st. induction rs as [|r rs IH]; intros st Hone; [done|].
  simpl. apply IH. by apply handle_at_most_one_payment.
Qed.

End OnePayment.

(** C7.  The amount of a payment is fixed.  [update_payment_status] keeps
    the row's amount (and its application, vendor, currency, payee and
    creation time), the other payments and the other tables;
    [update_event] does not touch the payments table, whatever it does to
    the fee; and after any sequence of admin requests (toggle, review,
    create, update and delete event, update payment) the payment is still
    there with the amount it had. *)
Theorem payment_amount_is_fixed (bind : sqltype → json → option json)
    (fromisoformat : string → option datetime)
    (repr_list : list scalar → string) (st : db) (pid : Z) (p : Payment) :
  payments st !! pid = Some p →
  (∀ identity data now,
     (∃ p', payments (update_payment_status bind st identity pid data now).2 !! pid
            = Some p'
            ∧ amount p' = amount p
            ∧ application_id p' = application_id p
            ∧ pay_vendor_id p' = pay_vendor_id p
            ∧ currency p' = currency p
            ∧ pay_to p' = pay_to p
            ∧ pay_created_at p' = pay_created_at p)
     ∧ (∀ k, k ≠ pid →
          payments (update_payment_status bind st identity pid data now).2 !! k
          = payments st !! k)
     ∧ users (update_payment_status bind st identity pid data now).2 = users st
     ∧ events (update_payment_status bind st identity pid data now).2 = events st
     ∧ vendor_applications (update_payment_status bind st identity pid data now).2
       = vendor_applications st)
  ∧ (∀ identity event_id data now,
       payments
         (update_event bind fromisoformat repr_list st identity event_id data now).2
       = payments st)
  ∧ (∀ rs, ∃ p',
       payments (run bind fromisoformat repr_list st rs) !! pid = Some p'
       ∧ amount p' = amount p).
Proof.
  intros Hp. split_and!.
  - intros identity data now. split_and!.
    + destruct (update_payment_status_row bind st identity pid p data now Hp)
        as [[_ ->]|(s & ? & ? & ? & _ & _ & ->)]; eexists; split_and!; done.
    + intros k Hk. by apply update_payment_status_other.
    + apply update_payment_status_tables.
    + apply update_payment_status_tables.
    + apply update_payment_status_tables.
  - intros. apply update_event_payments.
  - intros rs.
    destruct (run_payment_amount bind fromisoformat repr_list st rs pid p Hp)
      as (p' & ? & ? & _). eauto.
Qed.

Lemma payment_amount_is_fixed_witness :
  payments Sample.store !! 1 = Some Sample.payment
  ∧ (∃ p',
       payments
         (run Sample.bind Sample.fromisoformat Sample.repr_list Sample.store
            [mkRequest "2" (UpdateEvent 2 {[ "vendor_fee" := JVal (SInt 900) ]}) 30;
             mkRequest "2"
               (UpdatePaymentStatus 1 {[ "status" := JStr "completed" ]}) 40])
         !! 1 = Some p'
       ∧ amount p' = amount Sample.payment).
Proof.
  split; [reflexivity|].
  apply (payment_amount_is_fixed Sample.bind Sample.fromisoformat Sample.repr_list
           Sample.store 1 Sample.payment eq_refl).
Defined.

Example fee_change_keeps_amount :
  let st' :=
    run Sample.bind Sample.fromisoformat Sample.repr_list Sample.store
      [mkRequest "2" (UpdateEvent 2 {[ "vendor_fee" := JVal (SInt 900) ]}) 30;
       mkRequest "2"
         (UpdatePaymentStatus 1 {[ "status" := JStr "completed" ]}) 40] in
  vendor_fee <$> events st' !! 2 = Some (JVal (SInt 900))
  ∧ amount <$> payments st' !! 1 = Some (JVal (SInt 750))
  ∧ pay_status <$> payments st' !! 1 = Some "completed".
Proof. vm_compute. done. Qed.

(** ** Events *)

Section Events.

Variable bind : sqltype → json → option json.
Variable fromisoformat : string → option datetime.
Variable repr_list : list scalar → string.

Lemma allowed_currencies_nonempty o c : c ∈ allowed_currencies o → c ≠ "".
Proof. unfold allowed_currencies. by intros [? _]%list_elem_of_filter. Qed.

Lemma allowed_currencies_empty : allowed_currencies "" = [].
Proof. reflexivity. Qed.

(** The row an INSERT that does not raise has stored. *)
Lemma inserted_event_Some data v d admin_id dc co now e :
  inserted_event bind data v d admin_id dc co now = Some e →
  not_null (column bind (SqlString 200) v) = Some (name e)
  ∧ column_or bind SqlFloat (JVal (SInt 0)) (data !! "vendor_fee")
    = Some (vendor_fee e)
  ∧ column_or bind (SqlString 20) (JStr "upcoming") (data !! "status")
    = Some (event_status e)
  ∧ event_date e = d
  ∧ created_by_admin_id e = admin_id
  ∧ default_currency e = Some dc
  ∧ currency_options e = Some co
  ∧ event_created_at e = now
  ∧ event_updated_at e = now.
Proof.
  unfold inserted_event.
  destruct (not_null (column bind (SqlString 200) v)) as [x1|];
    cbn [mbind option_bind]; [|done].
  destruct (column bind SqlText (default JNone (data !! "description")))
    as [x2|]; cbn [mbind option_bind]; [|done].
  destruct (column bind (SqlString 200) (default JNone (data !! "location")))
    as [x3|]; cbn [mbind option_bind]; [|done].
  destruct (column bind (SqlString 200) (default JNone (data !! "venue")))
    as [x4|]; cbn [mbind option_bind]; [|done].
  destruct (column bind SqlInteger
              (default JNone (data !! "expected_attendees")))
    as [x5|]; cbn [mbind option_bind]; [|done].
  destruct (column_or bind SqlFloat (JVal (SInt 0)) (data !! "vendor_fee"))
    as [x6|]; cbn [mbind option_bind]; [|done].
  destruct (column_or bind (SqlString 20) (JStr "upcoming") (data !! "status"))
    as [x7|]; cbn [mbind option_bind]; [|done].
  destruct (column bind (SqlString 40) (default JNone (data !! "mpesa_number")))
    as [x8|]; cbn [mbind option_bind]; [|done].
  destruct (column bind (SqlString 120)
              (default JNone (data !! "paypal_account")))
    as [x9|]; cbn [mbind option_bind]; [|done].
  destruct (column bind (SqlString 120)
              (default JNone (data !! "zelle_account")))
    as [x10|]; cbn [mbind option_bind]; [|done].
  destruct (column bind (SqlString 255)
              (default JNone (data !! "card_instructions")))
    as [x11|]; cbn [mbind option_bind]; [|done].
  by intros [= <-].
Qed.

(** The row an UPDATE that does not raise has stored: every copied
    column holds the value of the body as the database stores it, or its
    old value when the key is absent; a [name] that is written is not
    NULL. *)
Lemma merged_Some e data d dc co now e' :
  merged bind e data d dc co now = Some e' →
  Forall (λ c, updated_column bind c.1.2 data c.1.1 (c.2 e) = Some (c.2 e'))
    patch_columns
  ∧ (is_Some (data !! "name") → name e' ≠ JNone)
  ∧ event_date e' = d
  ∧ created_by_admin_id e' = created_by_admin_id e
  ∧ default_currency e' = dc
  ∧ currency_options e' = co
  ∧ event_created_at e' = event_created_at e
  ∧ event_updated_at e' = now.
Proof.
  unfold merged.
  destruct (match data !! "name" with
            | Some v => not_null (column bind (SqlString 200) v)
            | None => Some (name e)
            end) as [x1|] eqn:H1; simpl; [|done].
  destruct (updated_column bind SqlText _ _ _) as [x2|] eqn:H2;
    simpl; [|done].
  destruct (updated_column bind (SqlString 200) data "location" _)
    as [x3|] eqn:H3; simpl; [|done].
  destruct (updated_column bind (SqlString 200) data "venue" _)
    as [x4|] eqn:H4; simpl; [|done].
  destruct (updated_column bind SqlInteger _ _ _) as [x5|] eqn:H5;
    simpl; [|done].
  destruct (updated_column bind SqlFloat _ _ _) as [x6|] eqn:H6;
    simpl; [|done].
  destruct (updated_column bind (SqlString 20) _ _ _) as [x7|] eqn:H7;
    simpl; [|done].
  destruct (updated_column bind (SqlString 40) _ _ _) as [x8|] eqn:H8;
    simpl; [|done].
  destruct (updated_column bind (SqlString 120) data "paypal_account" _)
    as [x9|] eqn:H9; simpl; [|done].
  destruct (updated_column bind (SqlString 120) data "zelle_account" _)
    as [x10|] eqn:H10; simpl; [|done].
  destruct (updated_column bind (SqlString 255) _ _ _) as [x11|] eqn:H11;
    simpl; [|done].
  intros [= <-]. simpl.
  assert (Hname : updated_column bind (SqlString 200) data "name" (name e)
                  = Some x1
                  ∧ (is_Some (data !! "name") → x1 ≠ JNone)).
  { unfold updated_column. destruct (data !! "name") as [v|].
    - destruct (column bind (SqlString 200) v) as [[[| | |]|]|];
        simpl in H1; try done; by injection H1 as <-.
    - split; [done|]. by intros [? ?]. }
  destruct Hname as [Hname Hnot].
  split_and!; try done.
  unfold patch_columns. repeat constructor; done.
Qed.

Lemma create_event_refused st identity data now :
  status_code (create_event bind fromisoformat repr_list st identity data now).1
  ≠ 201%nat →
  (create_event bind fromisoformat repr_list st identity data now).2 = st.
Proof.
  unfold create_event. repeat (case_match; simpl; try done).
  all: unfold parse_event_date in *; repeat (case_match; simplify_eq; try done).
Qed.

Lemma create_event_created st identity data now :
  status_code (create_event bind fromisoformat repr_list st identity data now).1
  = 201%nat →
  ∃ admin_id v raw d e co,
    get_current_admin_id st identity = Some admin_id
    ∧ data !! "name" = Some v
    ∧ data !! "event_date" = Some raw
    ∧ parse_event_date fromisoformat raw
        "Invalid event_date format. Use ISO format" = inr d
    ∧ created_currency_options data = Some co
    ∧ created_default_currency repr_list data ∈ allowed_currencies co
    ∧ inserted_event bind data v d admin_id
        (created_default_currency repr_list data) co now = Some e
    ∧ (create_event bind fromisoformat repr_list st identity data now).2
      = set_events st (<[next_id (events st) := e]> (events st)).
Proof.
  unfold create_event.
  destruct (check_admin st identity); simpl; [|done].
  destruct (get_current_admin_id st identity) as [admin_id|]; [|done].
  destruct (data !! "name") as [v|]; [|done].
  destruct (data !! "event_date") as [raw|]; [|done].
  destruct (parse_event_date fromisoformat raw _) as [rejected|d] eqn:Hdate.
  { unfold parse_event_date in Hdate.
    repeat (case_match; simplify_eq; try done). }
  destruct (created_currency_options data) as [co|]; [|done].
  case_bool_decide as Hin; [|done].
  destruct (inserted_event bind data v d admin_id _ co now) as [e|] eqn:Hins;
    [|done].
  intros _. exists admin_id, v, raw, d, e, co. split_and!; done.
Qed.

Lemma update_event_refused st identity id data now :
  status_code (update_event bind fromisoformat repr_list st identity id data now).1
  ≠ 200%nat →
  (update_event bind fromisoformat repr_list st identity id data now).2 = st.
Proof.
  unfold update_event. repeat (case_match; simpl; try done).
Qed.

Lemma update_event_updated st identity id data now :
  status_code (update_event bind fromisoformat repr_list st identity id data now).1
  = 200%nat →
  ∃ e d co e',
    events st !! id = Some e
    ∧ is_admin st identity (created_by_admin_id e)
    ∧ updated_event_date fromisoformat e data = inr d
    ∧ updated_currency_options e data = Some co
    ∧ PyStr.upper (default "" (updated_default_currency repr_list e data))
      ∈ allowed_currencies (default "" co)
    ∧ merged bind e data d (updated_default_currency repr_list e data) co now
      = Some e'
    ∧ (update_event bind fromisoformat repr_list st identity id data now).2
      = set_events st (<[id := e']> (events st)).
Proof.
  unfold update_event.
  destruct (check_admin st identity) eqn:Hcheck; simpl; [|done].
  destruct (check_admin_is_admin _ _ Hcheck) as [admin_id Hadmin].
  destruct (is_admin_check _ _ _ Hadmin) as [_ Hid]. rewrite Hid.
  destruct (events st !! id) as [e|]; [|done]. simpl.
  destruct (Z.eqb_spec (created_by_admin_id e) admin_id) as [<-|]; [|done].
  simpl.
  destruct (updated_event_date fromisoformat e data) as [rejected|d] eqn:Hdate.
  { unfold updated_event_date, parse_event_date in Hdate.
    repeat (case_match; simplify_eq; try done). }
  destruct (updated_currency_options e data) as [co|] eqn:Hco; [|done].
  case_bool_decide; [done|].
  case_bool_decide as Hin; simpl; [|done].
  destruct (merged bind e data d _ co now) as [e'|] eqn:Hmerged; [|done].
  intros _. exists e, d, co, e'. split_and!; done.
Qed.

Lemma create_event_rejected st identity admin_id data now name raw d co :
  is_admin st identity admin_id →
  data !! "name" = Some name →
  data !! "event_date" = Some raw →
  parse_event_date fromisoformat raw
    "Invalid event_date format. Use ISO format" = inr d →
  created_currency_options data = Some co →
  created_default_currency repr_list data ∉ allowed_currencies co →
  create_event bind fromisoformat repr_list st identity data now
  = (error 400 "default_currency must be included in currency_options", st).
Proof.
  intros [Hcheck Hid]%is_admin_check Hname Hraw Hdate Hco Hnot.
  unfold create_event. rewrite Hcheck, Hid, Hname, Hraw, Hdate, Hco. simpl.
  by rewrite bool_decide_eq_false_2.
Qed.

Lemma updated_default_upper e data :
  upper_case_default e →
  PyStr.upper (default "" (updated_default_currency repr_list e data))
  = default "" (updated_default_currency repr_list e data).
Proof.
  intros Hup. unfold updated_default_currency.
  destruct (data !! "default_currency") as [v|]; simpl.
  - apply PyStrFacts.upper_idem.
  - destruct (default_currency e) as [d|] eqn:E; simpl; [by apply Hup|done].
Qed.

Lemma update_event_rejected st identity admin_id id e data now d co :
  is_admin st identity admin_id →
  events st !! id = Some e →
  created_by_admin_id e = admin_id →
  upper_case_default e →
  updated_event_date fromisoformat e data = inr d →
  updated_currency_options e data = Some co →
  default "" (updated_default_currency repr_list e data)
  ∉ allowed_currencies (default "" co) →
  ∃ msg,
    update_event bind fromisoformat repr_list st identity id data now
    = (error 400 msg, st).
Proof.
  intros [Hcheck Hid]%is_admin_check He Howner Hup Hdate Hco Hnot.
  unfold update_event. rewrite Hcheck, He, Hid, Hdate, Hco. simpl.
  rewrite (proj2 (Z.eqb_eq _ _) Howner). simpl.
  case_bool_decide; [eauto|].
  rewrite updated_default_upper by done.
  rewrite bool_decide_eq_false_2 by done. simpl. eauto.
Qed.

(** What is stored by a successful update is consistent, provided the
    default that was stored before is in upper case. *)
Lemma update_event_currency_ok st identity id data now e :
  events st !! id = Some e →
  upper_case_default e →
  status_code (update_event bind fromisoformat repr_list st identity id data now).1
  = 200%nat →
  ∃ e', events (update_event bind fromisoformat repr_list st identity id data now).2
          !! id = Some e'
        ∧ currency_ok e'
        ∧ ∀ k, k ≠ id →
            events (update_event bind fromisoformat repr_list st identity id data now).2
              !! k = events st !! k.
Proof.
  intros He Hup Hok.
  destruct (update_event_updated _ _ _ _ _ Hok)
    as (e0 & d0 & co & e' & He0 & _ & _ & _ & Hin & Hmerged & ->).
  rewrite He in He0. injection He0 as <-.
  apply merged_Some in Hmerged as (_ & _ & _ & _ & Hd & Hc & _).
  exists e'. simpl. split_and!; [apply lookup_insert_eq| |].
  - rewrite updated_default_upper in Hin by done.
    pose proof (allowed_currencies_nonempty _ _ Hin) as Hne.
    destruct (updated_default_currency repr_list e data) as [d|] eqn:Ed;
      [|done].
    destruct co as [o|]; [|by apply elem_of_nil in Hin].
    exists d, o. split_and!; [done|done| |done].
    pose proof (updated_default_upper e data Hup) as Hupper.
    by rewrite Ed in Hupper.
  - intros k Hk. by apply lookup_insert_ne.
Qed.

Lemma create_event_currency_ok st identity data now :
  status_code (create_event bind fromisoformat repr_list st identity data now).1
  = 201%nat →
  ∃ e, (create_event bind fromisoformat repr_list st identity data now).2
       = set_events st (<[next_id (events st) := e]> (events st))
       ∧ events st !! next_id (events st) = None
       ∧ currency_ok e.
Proof.
  intros Hok.
  destruct (create_event_created _ _ _ _ Hok)
    as (admin_id & v & raw & d & e & co & _ & _ & _ & _ & _ & Hin & Hins & ->).
  apply inserted_event_Some in Hins as (_ & _ & _ & _ & _ & Hd & Hc & _).
  exists e. split_and!; [done|apply next_id_fresh|].
  exists (created_default_currency repr_list data), co.
  split_and!; [done|done| |done].
  apply PyStrFacts.upper_idem.
Qed.

Lemma currency_ok_upper e : currency_ok e → upper_case_default e.
Proof. intros (d & o & Hd & _ & Hup & _) d' Hd'. congruence. Qed.

Lemma handle_currency_ok st r :
  all_currency_ok st → all_currency_ok (handle bind fromisoformat repr_list st r).2.
Proof.
  intros Hall. destruct r as [identity call now]. unfold handle. simpl.
  destruct call as [vid|aid data|data|eid data|eid|pid data].
  - unfold toggle_vendor_status. by repeat (case_match; simpl).
  - intros id e'.
    destruct (review_application_tables bind st identity aid data now)
      as [_ ->]. apply Hall.
  - destruct (decide (status_code
        (create_event bind fromisoformat repr_list st identity data now).1
        = 201%nat)) as [Hok|Hno].
    + destruct (create_event_currency_ok _ _ _ _ Hok) as (e & -> & _ & He).
      intros id e'. simpl.
      destruct (decide (next_id (events st) = id)) as [->|Hne].
      * rewrite lookup_insert_eq. by intros [= <-].
      * rewrite lookup_insert_ne by done. apply Hall.
    + by rewrite create_event_refused.
  - destruct (decide (status_code
        (update_event bind fromisoformat repr_list st identity eid data now).1
        = 200%nat)) as [Hok|Hno].
    + destruct (update_event_updated _ _ _ _ _ Hok) as (e & _ & _ & _ & He & _).
      destruct (update_event_currency_ok _ _ _ _ _ e He
                  (currency_ok_upper _ (Hall _ _ He)) Hok)
        as (e' & He' & Hok' & Hother).
      intros id e''. destruct (decide (id = eid)) as [->|Hne].
      * rewrite He'. by intros [= <-].
      * rewrite Hother by done. apply Hall.
    + by rewrite update_event_refused.
  - unfold delete_event. repeat (case_match; simpl; try done).
    intros id e'. simpl. intros [_ ?]%lookup_delete_Some. eauto.
  - intros id e'.
    destruct (update_payment_status_tables bind st identity pid data now)
      as (_ & -> & _). apply Hall.
Qed.

Lemma run_currency_ok st rs :
  all_currency_ok st → all_currency_ok (run bind fromisoformat repr_list st rs).
Proof.
  revert st. induction rs as [|r rs IH]; intros st Hall; [done|].
  simpl. apply IH. by apply handle_currency_ok.
Qed.

End Events.

(** C5.  [create_event]: when it answers 201 the event it stores (under a
    fresh key) has its default currency among its parsed options; when it
    does not, the store is unchanged, and a request of an admin whose
    default is not among the options is answered 400.
    [update_event], on an event whose stored default is in upper case (as
    every default written by the two handlers is): when it answers 200 the
    stored event has its default among its parsed options, whichever of the
    two fields the request carries; when it does not, the store is
    unchanged, and a request of the owner whose merged default is not among
    the merged options is answered 400.
    Hence the property holds of every event after any sequence of admin
    requests, if it held before. *)
Theorem default_currency_in_currency_options
    (bind : sqltype → json → option json)
    (fromisoformat : string → option datetime)
    (repr_list : list scalar → string)
    (st : db) (identity : string) (data : gmap string json) (now : datetime) :
  ((status_code (create_event bind fromisoformat repr_list st identity data now).1
    = 201%nat →
    ∃ e, (create_event bind fromisoformat repr_list st identity data now).2
         = set_events st (<[next_id (events st) := e]> (events st))
         ∧ events st !! next_id (events st) = None
         ∧ currency_ok e)
   ∧ (status_code (create_event bind fromisoformat repr_list st identity data now).1
      ≠ 201%nat →
      (create_event bind fromisoformat repr_list st identity data now).2 = st)
   ∧ (∀ admin_id name raw d co,
        is_admin st identity admin_id →
        data !! "name" = Some name →
        data !! "event_date" = Some raw →
        parse_event_date fromisoformat raw
          "Invalid event_date format. Use ISO format" = inr d →
        created_currency_options data = Some co →
        created_default_currency repr_list data ∉ allowed_currencies co →
        create_event bind fromisoformat repr_list st identity data now
        = (error 400 "default_currency must be included in currency_options",
           st)))
  ∧ (∀ id e,
       events st !! id = Some e →
       upper_case_default e →
       (status_code
          (update_event bind fromisoformat repr_list st identity id data now).1
        = 200%nat →
        ∃ e', events
                (update_event bind fromisoformat repr_list st identity id data now).2
                !! id = Some e'
              ∧ currency_ok e')
       ∧ (status_code
            (update_event bind fromisoformat repr_list st identity id data now).1
          ≠ 200%nat →
          (update_event bind fromisoformat repr_list st identity id data now).2 = st)
       ∧ (∀ admin_id d co,
            is_admin st identity admin_id →
            created_by_admin_id e = admin_id →
            updated_event_date fromisoformat e data = inr d →
            updated_currency_options e data = Some co →
            default "" (updated_default_currency repr_list e data)
            ∉ allowed_currencies (default "" co) →
            ∃ msg,
              update_event bind fromisoformat repr_list st identity id data now
              = (error 400 msg, st)))
  ∧ (∀ rs, all_currency_ok st →
           all_currency_ok (run bind fromisoformat repr_list st rs)).
Proof.
  split_and!.
  - apply create_event_currency_ok.
  - apply create_event_refused.
  - intros. by eapply create_event_rejected.
  - intros id e He Hup. split_and!.
    + intros Hok.
      destruct (update_event_currency_ok bind fromisoformat repr_list st
                  identity id data now e He Hup Hok)
        as (e' & ? & ? & _). eauto.
    + apply update_event_refused.
    + intros. by eapply update_event_rejected.
  - intros rs. apply run_currency_ok.
Qed.

Lemma default_currency_in_currency_options_witness :
  status_code
    (create_event Sample.bind Sample.fromisoformat Sample.repr_list Sample.store "1"
       {[ "name" := JStr "Expo";
          "event_date" := JStr "2026-04-15T10:00:00Z";
          "currency_options" := JList [SStr "Euros"; SStr " usd "];
          "default_currency" := JStr "eur" ]} 7).1 = 201%nat
  ∧ ∃ e,
      (create_event Sample.bind Sample.fromisoformat Sample.repr_list Sample.store "1"
         {[ "name" := JStr "Expo";
            "event_date" := JStr "2026-04-15T10:00:00Z";
            "currency_options" := JList [SStr "Euros"; SStr " usd "];
            "default_currency" := JStr "eur" ]} 7).2
      = set_events Sample.store
          (<[next_id (events Sample.store) := e]> (events Sample.store))
      ∧ events Sample.store !! next_id (events Sample.store) = None
      ∧ currency_ok e.
Proof.
  split; [reflexivity|].
  apply (proj1 (proj1 (default_currency_in_currency_options
                         Sample.bind Sample.fromisoformat Sample.repr_list Sample.store "1"
                         {[ "name" := JStr "Expo";
                            "event_date" := JStr "2026-04-15T10:00:00Z";
                            "currency_options" :=
                              JList [SStr "Euros"; SStr " usd "];
                            "default_currency" := JStr "eur" ]} 7))).
  reflexivity.
Defined.

(** Partial updates of event 1 (default USD, options USD,EUR). *)
Example update_event_partial :
  (* only the options, without the stored default: refused *)
  (update_event Sample.bind Sample.fromisoformat Sample.repr_list Sample.store "1" 1
     {[ "currency_options" := JStr "kes, eur" ]} 7)
  = (error 400 "default_currency must be included in currency_options",
     Sample.store)
  (* only the default, outside the stored options: refused *)
  ∧ (update_event Sample.bind Sample.fromisoformat Sample.repr_list Sample.store "1" 1
       {[ "default_currency" := JStr "kes" ]} 7)
    = (error 400 "default_currency must be included in currency_options",
       Sample.store)
  (* only the default, inside the stored options: accepted *)
  ∧ default_currency <$>
      events
        (update_event Sample.bind Sample.fromisoformat Sample.repr_list Sample.store "1" 1
           {[ "default_currency" := JStr "eur" ]} 7).2 !! 1
    = Some (Some "EUR").
Proof. vm_compute. done. Qed.

(** ** Login *)

Section Login.

Variable check_password_hash : string → string → bool.
Variable create_access_token : string → string.
Variable repr_list : list scalar → string.

Lemma user_by_email_unknown st e :
  (∀ id u, users st !! id = Some u → email u ≠ e) →
  user_by_email st (JStr e) = None.
Proof.
  intros Hnone. unfold user_by_email.
  rewrite (proj2 (rows_where_nil _ _)); [done|].
  intros k u Hu. apply bool_decide_eq_false_2.
  intros [= Heq]. by apply (Hnone k u).
Qed.

Lemma user_by_email_found st e id u :
  user_by_email st (JStr e) = Some (id, u) →
  users st !! id = Some u ∧ email u = e.
Proof.
  unfold user_by_email. intros Hhead.
  apply head_Some_elem_of, elem_of_rows_where in Hhead as [Hu Heq].
  split; [done|]. apply bool_decide_eq_true in Heq. by injection Heq.
Qed.

Lemma login_with_credentials st data e pw :
  data !! "email" = Some (JStr e) → e ≠ "" →
  data !! "password" = Some (JStr pw) → pw ≠ "" →
  login check_password_hash create_access_token repr_list st data
  = match user_by_email st (JStr e) with
    | None => error 401 "Invalid email or password"
    | Some (id, user) =>
        if negb (check_password_hash (password_hash user) pw)
        then error 401 "Invalid email or password"
        else if negb (is_active user)
        then error 403 "Account is deactivated"
        else if truthy (default JNone (data !! "role"))
                && negb (bool_decide
                           (JStr (role user) = default JNone (data !! "role")))
        then error 401
               ("Invalid credentials for "
                +:+ py_str_json repr_list (default JNone (data !! "role"))
                +:+ " login")
        else mkResponse 200
               (LoggedIn "Login successful" (id, user)
                  (create_access_token (py_str (SInt id))))
    end.
Proof.
  intros He Hne Hpw Hpne. unfold login. rewrite He, Hpw. simpl.
  destruct (String.eqb_spec e "") as [|_]; [done|].
  destruct (String.eqb_spec pw "") as [|_]; [done|]. simpl.
  destruct (user_by_email st (JStr e)) as [[id user]|]; done.
Qed.

End Login.

(** C9 (as amended).  For a login with a non-empty email and password:
    an unknown email, a wrong password, and a role hint that differs from
    the stored role of an active account are answered 401; a deactivated
    account with the right password is answered 403 (Forbidden), not 401;
    otherwise the answer is 200 with the access token created for the
    identity [str(user.id)]. *)
Theorem login_outcomes (check_password_hash : string → string → bool)
    (create_access_token : string → string)
    (repr_list : list scalar → string)
    (st : db) (data : gmap string json) (e pw : string) :
  data !! "email" = Some (JStr e) → e ≠ "" →
  data !! "password" = Some (JStr pw) → pw ≠ "" →
  let answer := login check_password_hash create_access_token repr_list st data in
  let role_hint := default JNone (data !! "role") in
  ((∀ id u, users st !! id = Some u → email u ≠ e) →
   status_code answer = 401%nat)
  ∧ (∀ id u,
       user_by_email st (JStr e) = Some (id, u) →
       users st !! id = Some u ∧ email u = e
       ∧ (check_password_hash (password_hash u) pw = false →
          status_code answer = 401%nat)
       ∧ (check_password_hash (password_hash u) pw = true →
          is_active u = false →
          status_code answer = 403%nat)
       ∧ (check_password_hash (password_hash u) pw = true →
          is_active u = true →
          truthy role_hint = true → role_hint ≠ JStr (role u) →
          status_code answer = 401%nat)
       ∧ (check_password_hash (password_hash u) pw = true →
          is_active u = true →
          truthy role_hint = false ∨ role_hint = JStr (role u) →
          answer
          = mkResponse 200
              (LoggedIn "Login successful" (id, u)
                 (create_access_token (py_str (SInt id)))))).
Proof.
  intros He Hne Hpw Hpne answer role_hint. subst answer.
  rewrite (login_with_credentials _ _ _ _ _ _ _ He Hne Hpw Hpne).
  split.
  - intros Hnone. by rewrite user_by_email_unknown.
  - intros id u Hfound. rewrite Hfound.
    destruct (user_by_email_found _ _ _ _ Hfound) as [Hu Hemail].
    split_and!; [done|done|..].
    + by intros ->.
    + by intros -> ->.
    + intros -> -> Htruthy Hdiff. simpl. fold role_hint. rewrite Htruthy.
      rewrite bool_decide_eq_false_2 by congruence. done.
    + intros -> -> Hhint. simpl. fold role_hint.
      destruct Hhint as [->| ->]; [done|].
      rewrite bool_decide_eq_true_2 by done. by rewrite andb_false_r.
Qed.

Lemma login_outcomes_witness :
  user_by_email Sample.store (JStr "v@example.org")
  = Some (3, Sample.user "v@example.org" "vendor" true)
  ∧ login Sample.check_password_hash Sample.create_access_token
      Sample.repr_list Sample.store
      {[ "email" := JStr "v@example.org";
         "password" := JStr "v@example.org";
         "role" := JStr "vendor" ]}
    = mkResponse 200
        (LoggedIn "Login successful"
           (3, Sample.user "v@example.org" "vendor" true)
           (Sample.create_access_token (py_str (SInt 3)))).
Proof.
  split; [reflexivity|].
  apply (login_outcomes Sample.check_password_hash Sample.create_access_token
           Sample.repr_list Sample.store
           {[ "email" := JStr "v@example.org";
              "password" := JStr "v@example.org";
              "role" := JStr "vendor" ]}
           "v@example.org" "v@example.org");
    first [discriminate | vm_compute; reflexivity | by right].
Defined.

(** C9 fails as stated: user 4 is deactivated; with the right password the
    answer is 403, not 401. *)
Lemma login_deactivated_is_forbidden :
  is_active <$> users Sample.store !! 4 = Some false
  ∧ login Sample.check_password_hash Sample.create_access_token
      Sample.repr_list Sample.store
      {[ "email" := JStr "w@example.org"; "password" := JStr "w@example.org" ]}
    = error 403 "Account is deactivated"
  ∧ status_code
      (login Sample.check_password_hash Sample.create_access_token
         Sample.repr_list Sample.store
         {[ "email" := JStr "w@example.org";
            "password" := JStr "w@example.org" ]})
    ≠ 401%nat.
Proof. vm_compute. split_and!; [done|done|discriminate]. Qed.

(** ** Listing applications *)

Section Listing.

Variable filter_by :
  string → scalar → option (VendorApplication → Event → bool).

Lemma elem_of_order_by_desc {A} (key : A → Z) (l : list A) x :
  x ∈ order_by_desc key l ↔ x ∈ l.
Proof. unfold order_by_desc. by rewrite merge_sort_Permutation. Qed.

Lemma elem_of_owned_applications st admin_id id a :
  (id, a) ∈ owned_applications st admin_id ↔
  vendor_applications st !! id = Some a
  ∧ ∃ e, events st !! event_id a = Some e
         ∧ created_by_admin_id e = admin_id.
Proof.
  unfold owned_applications. rewrite elem_of_rows_where.
  destruct (events st !! event_id a) as [e|]; split.
  - intros [? ?%Z.eqb_eq]. eauto.
  - intros [? (e' & [= <-] & ?)]. split; [done|]. by apply Z.eqb_eq.
  - by intros [? ?].
  - by intros [? (e' & ? & ?)].
Qed.

(** The query after the optional [filter_by] for [key]. *)
Lemma filtered_query st key (f : option scalar) query :
  (∀ v, f = Some v → is_Some (filter_by key v)) →
  ∃ query',
    match f with
    | Some v => apply_filter_by filter_by st key v query
    | None => Some query
    end = Some query'
    ∧ ∀ id a, (id, a) ∈ query' ↔
              (id, a) ∈ query ∧ passes filter_by st key f a.
Proof.
  intros Hf. destruct f as [v|].
  - destruct (Hf v eq_refl) as [c Hc]. simpl. unfold apply_filter_by.
    rewrite Hc. simpl. eexists. split; [reflexivity|].
    intros id a. rewrite list_elem_of_filter. simpl. split.
    + intros [Hpass Hin]. split; [done|]. intros v' [= <-].
      destruct (events st !! event_id a) as [e|]; [|done]. eauto.
    + intros [Hin Hpass]. split; [|done].
      destruct (Hpass v eq_refl) as (c' & e & Hc' & -> & Hce). congruence.
  - exists query. split; [done|]. intros id a. split; [|by intros [? _]].
    intros Hin. split; [done|]. by intros v.
Qed.

Lemma get_all_applications_stages st identity admin_id args :
  is_admin st identity admin_id →
  get_all_applications filter_by st identity args
  = match
      query ← match SStr <$> status_filter args with
              | Some v =>
                  apply_filter_by filter_by st "status" v
                    (owned_applications st admin_id)
              | None => Some (owned_applications st admin_id)
              end;
      match SInt <$> event_filter args with
      | Some v => apply_filter_by filter_by st "event_id" v query
      | None => Some query
      end
    with
    | None => server_error
    | Some applications =>
        mkResponse 200
          (ApplicationList (order_by_desc (λ r, applied_at r.2) applications))
    end.
Proof.
  intros [Hcheck Hid]%is_admin_check.
  unfold get_all_applications, status_filter, event_filter.
  rewrite Hcheck, Hid. simpl.
  destruct (args !! "status") as [s|]; simpl;
    [destruct (String.eqb s ""); simpl|];
    (destruct (args !! "event_id" ≫= py_int) as [n|]; simpl;
     [destruct (n =? 0); simpl|]);
    try reflexivity;
    try (destruct (apply_filter_by filter_by st "status" (SStr s)
                     (owned_applications st admin_id)); reflexivity).
Qed.

(** The listing, whatever criteria [filter_by] builds: the owned
    applications that pass the criteria of the filters acted on. *)
Lemma get_all_applications_filtered st identity admin_id args :
  is_admin st identity admin_id →
  (∀ s, status_filter args = Some s → is_Some (filter_by "status" (SStr s))) →
  (∀ n, event_filter args = Some n → is_Some (filter_by "event_id" (SInt n))) →
  ∃ l,
    get_all_applications filter_by st identity args
    = mkResponse 200 (ApplicationList l)
    ∧ ∀ id a,
        (id, a) ∈ l ↔
        vendor_applications st !! id = Some a
        ∧ (∃ e, events st !! event_id a = Some e
                ∧ created_by_admin_id e = admin_id)
        ∧ passes filter_by st "status" (SStr <$> status_filter args) a
        ∧ passes filter_by st "event_id" (SInt <$> event_filter args) a.
Proof.
  intros Hadmin Hstatus Hevent.
  rewrite (get_all_applications_stages _ _ _ _ Hadmin).
  destruct (filtered_query st "status" (SStr <$> status_filter args)
              (owned_applications st admin_id)) as (q1 & -> & H1).
  { intros v Hv. destruct (status_filter args) as [s|]; [|done].
    injection Hv as <-. by apply Hstatus. }
  cbn beta iota delta [mbind option_bind].
  destruct (filtered_query st "event_id" (SInt <$> event_filter args)
              q1) as (q2 & -> & H2).
  { intros v Hv. destruct (event_filter args) as [n|]; [|done].
    injection Hv as <-. by apply Hevent. }
  eexists. split; [reflexivity|].
  intros id a.
  rewrite elem_of_order_by_desc, H2, H1, elem_of_owned_applications. tauto.
Qed.

(** A filter that raises is answered 500. *)
Lemma get_all_applications_raises st identity admin_id args s :
  is_admin st identity admin_id →
  status_filter args = Some s →
  filter_by "status" (SStr s) = None →
  get_all_applications filter_by st identity args = server_error.
Proof.
  intros Hadmin Hs Hnone.
  rewrite (get_all_applications_stages _ _ _ _ Hadmin), Hs. simpl.
  unfold apply_filter_by. by rewrite Hnone.
Qed.

(** So is every request with an event id, when the keyword [event_id]
    has no column to resolve to. *)
Lemma get_all_applications_event_id_raises st identity admin_id args n :
  is_admin st identity admin_id →
  event_filter args = Some n →
  filter_by "event_id" (SInt n) = None →
  get_all_applications filter_by st identity args = server_error.
Proof.
  intros Hadmin Hn Hnone.
  rewrite (get_all_applications_stages _ _ _ _ Hadmin), Hn. simpl.
  destruct (match SStr <$> status_filter args with
            | Some v =>
                apply_filter_by filter_by st "status" v
                  (owned_applications st admin_id)
            | None => Some (owned_applications st admin_id)
            end) as [query|]; simpl; [|done].
  unfold apply_filter_by. by rewrite Hnone.
Qed.

(** A status filter selects by the criterion the ORM builds: when that is
    the status of the joined event, the listing holds the admin's
    applications to the events with that status. *)
Lemma get_all_applications_status_of_event st identity admin_id args s :
  is_admin st identity admin_id →
  status_filter args = Some s →
  event_filter args = None →
  (∃ c, filter_by "status" (SStr s) = Some c
        ∧ ∀ a e, c a e = true ↔ event_status e = JStr s) →
  ∃ l,
    get_all_applications filter_by st identity args
    = mkResponse 200 (ApplicationList l)
    ∧ ∀ id a,
        (id, a) ∈ l ↔
        vendor_applications st !! id = Some a
        ∧ ∃ e, events st !! event_id a = Some e
               ∧ created_by_admin_id e = admin_id
               ∧ event_status e = JStr s.
Proof.
  intros Hadmin Hs Hn (c & Hc & Hiff).
  destruct (get_all_applications_filtered st identity admin_id args Hadmin)
    as (l & Hl & Hin).
  { intros s' Hs'. rewrite Hs in Hs'. injection Hs' as <-. by rewrite Hc. }
  { intros n Hn'. by rewrite Hn in Hn'. }
  exists l. split; [exact Hl|]. intros id a. rewrite Hin, Hs, Hn. simpl.
  split.
  - intros (Ha & (e & He & Howner) & Hps & _). split; [done|].
    destruct (Hps (SStr s) eq_refl) as (c' & e' & Hc' & He' & Hce).
    rewrite Hc in Hc'. injection Hc' as <-.
    rewrite He in He'. injection He' as <-.
    exists e. split_and!; [done|done|]. by apply (Hiff a e).
  - intros (Ha & e & He & Howner & Hst). split_and!; [done|eauto| |done].
    intros v [= <-]. exists c, e. split_and!; [done|done|]. by apply Hiff.
Qed.

End Listing.

(** C4 at its failing inputs.  Admin 1 owns event 1, whose status is
    upcoming, and application 1 on it is pending.  With [status=pending]
    the listing is empty, and with [status=upcoming] it holds the pending
    application: [filter_by(status=...)] on the query joined with [Event]
    constrains the status of the event.  With [event_id=1] the answer is
    500, because [Event] has no [event_id].  The claim wants application
    1 for [status=pending] and for [event_id=1], and nothing for
    [status=upcoming]. *)
Theorem get_all_applications_filters_on_event :
  is_admin Sample.store "1" 1
  ∧ get_all_applications Sample.filter_by Sample.store "1" ∅
    = mkResponse 200
        (ApplicationList [(1, Sample.application 3 1 "pending" None None)])
  ∧ event_status <$> events Sample.store !! 1 = Some (JStr "upcoming")
  ∧ get_all_applications Sample.filter_by Sample.store "1"
      {[ "status" := "pending" ]}
    = mkResponse 200 (ApplicationList [])
  ∧ get_all_applications Sample.filter_by Sample.store "1"
      {[ "status" := "upcoming" ]}
    = mkResponse 200
        (ApplicationList [(1, Sample.application 3 1 "pending" None None)])
  ∧ get_all_applications Sample.filter_by Sample.store "1"
      {[ "event_id" := "1" ]}
    = server_error.
Proof.
  split; [split; [reflexivity|eexists; split; reflexivity]|].
  vm_compute. split_and!; reflexivity.
Qed.

(** The two guards are on the truth of the value: with [event_id=0] and
    with an empty [status] no filter is added, and the answer is every
    application of the admin's events. *)
Example get_all_applications_ignores_falsy_filters :
  py_int "0" = Some 0
  ∧ get_all_applications Sample.filter_by Sample.store "1"
      {[ "event_id" := "0" ]}
    = mkResponse 200
        (ApplicationList [(1, Sample.application 3 1 "pending" None None)])
  ∧ event_id (Sample.application 3 1 "pending" None None) ≠ 0
  ∧ get_all_applications Sample.filter_by Sample.store "1"
      {[ "status" := "" ]}
    = mkResponse 200
        (ApplicationList [(1, Sample.application 3 1 "pending" None None)])
  ∧ app_status (Sample.application 3 1 "pending" None None) ≠ "".
Proof. vm_compute. split_and!; done. Qed.

(** ** Isolation between admins *)

Section Isolation.

Variable bind : sqltype → json → option json.
Variable fromisoformat : string → option datetime.
Variable repr_list : list scalar → string.

(** Listings: only rows whose chain ends at the acting admin. *)
Lemma get_all_payments_owned st identity admin_id :
  is_admin st identity admin_id →
  ∃ l, get_all_payments st identity = mkResponse 200 (PaymentList l)
       ∧ ∀ id p, (id, p) ∈ l ↔
                 payments st !! id = Some p
                 ∧ payment_owner st p = Some admin_id.
Proof.
  intros [Hcheck Hid]%is_admin_check. unfold get_all_payments.
  rewrite Hcheck, Hid. simpl. eexists. split; [reflexivity|].
  intros id p. rewrite elem_of_order_by_desc, elem_of_rows_where.
  by rewrite bool_decide_eq_true.
Qed.

Lemma get_all_events_owned st identity admin_id :
  is_admin st identity admin_id →
  ∃ l, get_all_events st identity = mkResponse 200 (EventList l)
       ∧ ∀ id e n m, (id, e, n, m) ∈ l →
                     events st !! id = Some e
                     ∧ created_by_admin_id e = admin_id.
Proof.
  intros [Hcheck Hid]%is_admin_check. unfold get_all_events.
  rewrite Hcheck, Hid. simpl. eexists. split; [reflexivity|].
  intros id e n m ([id' e'] & [= <- <- _ _] & Hin)%list_elem_of_fmap.
  apply elem_of_order_by_desc, elem_of_rows_where in Hin as [? ?%Z.eqb_eq].
  done.
Qed.

(** Mutations: a request on a row of another admin is answered 403 and
    changes nothing. *)
Lemma review_application_foreign st identity admin_id id a e data now :
  is_admin st identity admin_id →
  vendor_applications st !! id = Some a →
  events st !! event_id a = Some e →
  created_by_admin_id e ≠ admin_id →
  review_application bind st identity id data now
  = (error 403 "Access denied for this event", st).
Proof.
  intros Hadmin Ha He Hne.
  destruct (is_admin_check _ _ _ Hadmin) as [Hcheck _].
  destruct Hadmin as [Hid _].
  unfold review_application. rewrite Hcheck, Hid, Ha, He. simpl.
  by rewrite (proj2 (Z.eqb_neq _ _) Hne).
Qed.

Lemma update_event_foreign st identity admin_id id e data now :
  is_admin st identity admin_id →
  events st !! id = Some e →
  created_by_admin_id e ≠ admin_id →
  update_event bind fromisoformat repr_list st identity id data now
  = (error 403 "Access denied for this event", st).
Proof.
  intros [Hcheck Hid]%is_admin_check He Hne.
  unfold update_event. rewrite Hcheck, He, Hid. simpl.
  by rewrite (proj2 (Z.eqb_neq _ _) Hne).
Qed.

Lemma delete_event_foreign st identity admin_id id e :
  is_admin st identity admin_id →
  events st !! id = Some e →
  created_by_admin_id e ≠ admin_id →
  delete_event st identity id = (error 403 "Access denied for this event", st).
Proof.
  intros [Hcheck Hid]%is_admin_check He Hne.
  unfold delete_event. rewrite Hcheck, He, Hid. simpl.
  by rewrite (proj2 (Z.eqb_neq _ _) Hne).
Qed.

Lemma update_payment_status_foreign st identity admin_id id p data now :
  is_admin st identity admin_id →
  payments st !! id = Some p →
  payment_owner st p ≠ Some admin_id →
  update_payment_status bind st identity id data now
  = (error 403 "Access denied for this event", st).
Proof.
  intros [Hcheck Hid]%is_admin_check Hp Hne.
  unfold update_payment_status. rewrite Hcheck, Hp, Hid. simpl.
  by rewrite bool_decide_eq_false_2.
Qed.

End Isolation.

(** C1 at its failing input.  Admin 1 asks for the details of vendor 3.
    The answer is 200 and carries application 2 and payment 1, although
    the event of application 2 belongs to admin 2 and the chain of
    payment 1 ends at admin 2: [get_vendor_details] selects by
    [vendor_id] alone, without the join on the event's owner that
    [get_all_applications] and [get_all_payments] make. *)
Theorem get_vendor_details_crosses_admins :
  is_admin Sample.store "1" 1
  ∧ (∃ vendor applications payments,
       get_vendor_details Sample.store "1" 3
       = mkResponse 200 (VendorDetails vendor applications payments)
       ∧ (2, Sample.application 3 2 "approved" (Some 10) (Some 2))
         ∈ applications
       ∧ (1, Sample.payment) ∈ payments)
  ∧ created_by_admin_id <$> events Sample.store !! 2 = Some 2
  ∧ payment_owner Sample.store Sample.payment = Some 2
  ∧ get_all_applications Sample.filter_by Sample.store "1" ∅
    = mkResponse 200
        (ApplicationList [(1, Sample.application 3 1 "pending" None None)])
  ∧ get_all_payments Sample.store "1" = mkResponse 200 (PaymentList []).
Proof.
  split; [split; [reflexivity|eexists; split; reflexivity]|].
  split.
  - do 3 eexists. split; [vm_compute; reflexivity|].
    split; first [by left | by right; left].
  - vm_compute. split_and!; reflexivity.
Qed.

(** * Further properties of the handlers *)

(** ** What a handler did, read off its answer *)

Section Inversion.

Variable bind : sqltype → json → option json.
Variable fromisoformat : string → option datetime.
Variable repr_list : list scalar → string.

Lemma toggle_vendor_status_inv st identity vendor_id now :
  (status_code (toggle_vendor_status st identity vendor_id now).1 ≠ 200%nat
   ∧ (toggle_vendor_status st identity vendor_id now).2 = st)
  ∨ ∃ vendor,
      check_admin st identity = true
      ∧ users st !! vendor_id = Some vendor
      ∧ role vendor = "vendor"
      ∧ status_code (toggle_vendor_status st identity vendor_id now).1 = 200%nat
      ∧ (toggle_vendor_status st identity vendor_id now).2
        = set_users st (<[vendor_id := toggled vendor now]> (users st)).
Proof.
  unfold toggle_vendor_status.
  destruct (check_admin st identity); simpl; [|by left].
  destruct (users st !! vendor_id) as [vendor|]; simpl; [|by left].
  destruct (String.eqb_spec (role vendor) "vendor"); simpl; [|by left].
  right. by exists vendor.
Qed.

Lemma delete_event_inv st identity id :
  (status_code (delete_event st identity id).1 ≠ 200%nat
   ∧ (delete_event st identity id).2 = st)
  ∨ ∃ admin_id e,
      is_admin st identity admin_id
      ∧ events st !! id = Some e
      ∧ created_by_admin_id e = admin_id
      ∧ count_applications st id = 0%nat
      ∧ status_code (delete_event st identity id).1 = 200%nat
      ∧ (delete_event st identity id).2
        = set_events st (delete id (events st)).
Proof.
  unfold delete_event.
  destruct (check_admin st identity) eqn:Hcheck; simpl; [|by left].
  destruct (check_admin_is_admin _ _ Hcheck) as [admin_id Hadmin].
  destruct (is_admin_check _ _ _ Hadmin) as [_ Hid]. rewrite Hid.
  destruct (events st !! id) as [e|] eqn:He; [|by left].
  destruct (Z.eqb_spec (created_by_admin_id e) admin_id) as [Howner|];
    simpl; [|by left].
  destruct (count_applications st id) as [|n] eqn:Hn; simpl; [|by left].
  right. exists admin_id, e. split_and!; done.
Qed.

(** Whatever the request, an answer other than 200 and 201 means that
    nothing was written. *)
Lemma handle_refused st r :
  status_code (handle bind fromisoformat repr_list st r).1 ≠ 200%nat →
  status_code (handle bind fromisoformat repr_list st r).1 ≠ 201%nat →
  (handle bind fromisoformat repr_list st r).2 = st.
Proof.
  destruct r as [identity call now]. unfold handle. simpl.
  destruct call as [vid|aid data|data|eid data|eid|pid data]; intros H200 H201.
  - by destruct (toggle_vendor_status_inv st identity vid now)
      as [[_ ?]|(? & _ & _ & _ & ? & _)].
  - by apply review_application_refused.
  - by apply create_event_refused.
  - by apply update_event_refused.
  - by destruct (delete_event_inv st identity eid)
      as [[_ ?]|(? & ? & _ & _ & _ & _ & ? & _)].
  - by apply update_payment_status_refused.
Qed.

(** The accepted toggle, as an equation. *)
Lemma toggle_vendor_status_any_admin_helper st identity admin_id vendor_id
    vendor now :
  is_admin st identity admin_id →
  users st !! vendor_id = Some vendor →
  role vendor = "vendor" →
  ∃ msg,
    toggle_vendor_status st identity vendor_id now
    = (mkResponse 200 (VendorToggled msg (vendor_id, toggled vendor now)),
       set_users st (<[vendor_id := toggled vendor now]> (users st))).
Proof.
  intros [Hcheck _]%is_admin_check Hvendor Hrole.
  unfold toggle_vendor_status. rewrite Hcheck, Hvendor, Hrole. simpl. eauto.
Qed.

End Inversion.

(** X1.  Every mutating admin request is all or nothing: when the answer
    is neither 200 nor 201 the store after the request is the store
    before it. *)
Theorem refused_request_writes_nothing
    (bind : sqltype → json → option json)
    (fromisoformat : string → option datetime)
    (repr_list : list scalar → string) (st : db) (r : request) :
  status_code (handle bind fromisoformat repr_list st r).1 ≠ 200%nat →
  status_code (handle bind fromisoformat repr_list st r).1 ≠ 201%nat →
  (handle bind fromisoformat repr_list st r).2 = st.
Proof. apply handle_refused. Qed.

Lemma refused_request_writes_nothing_witness :
  status_code
    (handle Sample.bind Sample.fromisoformat Sample.repr_list Sample.store
       (mkRequest "1" (UpdateEvent 1 {[ "event_date" := JStr "tomorrow";
                                        "name" := JStr "Renamed" ]}) 9)).1
  = 400%nat
  ∧ (handle Sample.bind Sample.fromisoformat Sample.repr_list Sample.store
       (mkRequest "1" (UpdateEvent 1 {[ "event_date" := JStr "tomorrow";
                                        "name" := JStr "Renamed" ]}) 9)).2
    = Sample.store.
Proof.
  split; [reflexivity|].
  apply (refused_request_writes_nothing Sample.bind Sample.fromisoformat Sample.repr_list
           Sample.store
           (mkRequest "1" (UpdateEvent 1 {[ "event_date" := JStr "tomorrow";
                                            "name" := JStr "Renamed" ]}) 9));
    vm_compute; discriminate.
Defined.

(** X2.  A caller whose token does not belong to a user with role admin
    (a vendor, a deleted user, an identity that is no number) gets 403
    "Access denied" from every admin handler, and nothing is written.
    The identity, when it is a number, is taken to fit the INTEGER column
    of the primary key: [User.query.get] raises on a larger one. *)
Theorem non_admin_is_refused
    (bind : sqltype → json → option json)
    (fromisoformat : string → option datetime)
    (repr_list : list scalar → string)
    (filter_by : string → scalar → option (VendorApplication → Event → bool))
    (st : db) (identity : string) :
  match _current_user_id identity with
  | Some n => fits_integer n
  | None => True
  end →
  check_admin st identity = false →
  (∀ call now,
     handle bind fromisoformat repr_list st (mkRequest identity call now)
     = (error 403 "Access denied", st))
  ∧ (∀ vendor_id,
       get_vendor_details st identity vendor_id = error 403 "Access denied")
  ∧ (∀ args,
       get_all_applications filter_by st identity args
       = error 403 "Access denied")
  ∧ get_all_events st identity = error 403 "Access denied"
  ∧ get_all_payments st identity = error 403 "Access denied".
Proof.
  intros _ Hno. split_and!.
  - intros call now. unfold handle. simpl.
    destruct call; simpl;
      [unfold toggle_vendor_status|unfold review_application
      |unfold create_event|unfold update_event|unfold delete_event
      |unfold update_payment_status]; by rewrite Hno.
  - intros. unfold get_vendor_details. by rewrite Hno.
  - intros. unfold get_all_applications. by rewrite Hno.
  - unfold get_all_events. by rewrite Hno.
  - unfold get_all_payments. by rewrite Hno.
Qed.

Lemma non_admin_is_refused_witness :
  role <$> users Sample.store !! 3 = Some "vendor"
  ∧ _current_user_id "3" = Some 3
  ∧ fits_integer 3
  ∧ _current_user_id "nobody" = None
  ∧ handle Sample.bind Sample.fromisoformat Sample.repr_list Sample.store
      (mkRequest "3" (ReviewApplication 1 {[ "status" := JStr "approved" ]}) 9)
    = (error 403 "Access denied", Sample.store)
  ∧ handle Sample.bind Sample.fromisoformat Sample.repr_list Sample.store
      (mkRequest "nobody" (ToggleVendorStatus 3) 9)
    = (error 403 "Access denied", Sample.store).
Proof.
  assert (Hfits : fits_integer 3) by (unfold fits_integer; lia).
  split_and!; [reflexivity|reflexivity|exact Hfits|reflexivity|..].
  - apply (proj1 (non_admin_is_refused Sample.bind Sample.fromisoformat
                    Sample.repr_list Sample.filter_by Sample.store "3"
                    Hfits eq_refl)).
  - apply (proj1 (non_admin_is_refused Sample.bind Sample.fromisoformat
                    Sample.repr_list Sample.filter_by Sample.store "nobody"
                    I eq_refl)).
Defined.

(** ** Accounts *)

Section Accounts.

Variable bind : sqltype → json → option json.
Variable fromisoformat : string → option datetime.
Variable repr_list : list scalar → string.

Lemma same_account_refl u : same_account u u.
Proof. by repeat split. Qed.

Lemma same_account_trans u1 u2 u3 :
  same_account u1 u2 → same_account u2 u3 → same_account u1 u3.
Proof. unfold same_account. intros. split_and!; destruct_and!; congruence. Qed.

Lemma same_account_toggled u now : same_account u (toggled u now).
Proof. by repeat split. Qed.

(** The users table after one request: the same keys, and each row is
    the old one or, for a vendor, the old one toggled. *)
Lemma handle_users st r k :
  match users st !! k with
  | None => users (handle bind fromisoformat repr_list st r).2 !! k = None
  | Some u =>
      users (handle bind fromisoformat repr_list st r).2 !! k = Some u
      ∨ role u = "vendor"
        ∧ users (handle bind fromisoformat repr_list st r).2 !! k
          = Some (toggled u (req_time r))
  end.
Proof.
  assert (Hsame : users (handle bind fromisoformat repr_list st r).2 = users st →
    match users st !! k with
    | None => users (handle bind fromisoformat repr_list st r).2 !! k = None
    | Some u =>
        users (handle bind fromisoformat repr_list st r).2 !! k = Some u
        ∨ role u = "vendor"
          ∧ users (handle bind fromisoformat repr_list st r).2 !! k
            = Some (toggled u (req_time r))
    end).
  { intros ->. destruct (users st !! k); auto. }
  destruct r as [identity call now]. unfold handle in *. simpl in *.
  destruct call as [vid|aid data|data|eid data|eid|pid data].
  - destruct (toggle_vendor_status_inv st identity vid now)
      as [[_ Hst]|(vendor & _ & Hv & Hrole & _ & Hst)].
    + apply Hsame. by rewrite Hst.
    + rewrite Hst. simpl. destruct (decide (vid = k)) as [->|Hne].
      * rewrite Hv, lookup_insert_eq. by right.
      * rewrite lookup_insert_ne by done. destruct (users st !! k); auto.
  - apply Hsame.
    apply (review_application_tables bind st identity aid data now).
  - apply Hsame.
    destruct (decide (status_code
        (create_event bind fromisoformat repr_list st identity data now).1
        = 201%nat)) as [Hok|Hno].
    + by destruct (create_event_created _ _ _ _ _ _ _ Hok)
        as (? & ? & ? & ? & ? & ? & _ & _ & _ & _ & _ & _ & _ & ->).
    + by rewrite create_event_refused.
  - apply Hsame.
    destruct (decide (status_code
        (update_event bind fromisoformat repr_list st identity eid data now).1
        = 200%nat)) as [Hok|Hno].
    + by destruct (update_event_updated _ _ _ _ _ _ _ _ Hok)
        as (? & ? & ? & ? & _ & _ & _ & _ & _ & _ & ->).
    + by rewrite update_event_refused.
  - apply Hsame.
    by destruct (delete_event_inv st identity eid)
      as [[_ ->]|(? & ? & _ & _ & _ & _ & _ & ->)].
  - apply Hsame. apply update_payment_status_tables.
Qed.

Lemma run_users st rs k :
  match users st !! k with
  | None => users (run bind fromisoformat repr_list st rs) !! k = None
  | Some u =>
      ∃ u', users (run bind fromisoformat repr_list st rs) !! k = Some u'
            ∧ same_account u u'
            ∧ (role u ≠ "vendor" → u' = u)
  end.
Proof.
  revert st. induction rs as [|r rs IH]; intros st.
  - simpl. destruct (users st !! k) as [u|]; [|done].
    exists u. split_and!; [done|apply same_account_refl|done].
  - simpl. pose proof (handle_users st r k) as Hstep.
    specialize (IH (handle bind fromisoformat repr_list st r).2).
    destruct (users st !! k) as [u|].
    + destruct Hstep as [Hk|[Hrole Hk]]; rewrite Hk in IH.
      * done.
      * destruct IH as (u' & Hu' & Hsame & _). exists u'.
        split_and!; [done| |congruence].
        eapply same_account_trans; [apply same_account_toggled|done].
    + by rewrite Hstep in IH.
Qed.

Lemma is_admin_after st r identity admin_id :
  is_admin st identity admin_id →
  is_admin (handle bind fromisoformat repr_list st r).2 identity admin_id.
Proof.
  intros [Hid (u & Hu & Hrole)]. split; [done|].
  pose proof (handle_users st r admin_id) as Hstep. rewrite Hu in Hstep.
  destruct Hstep as [?|[Hvendor _]]; [eauto|]. congruence.
Qed.

End Accounts.

(** X3.  Toggling a vendor twice gives back the activation flag it had;
    both calls answer 200, the rest of the vendor's row (but the update
    time) and every other row of the store are as before. *)
Theorem toggle_vendor_status_twice (st : db) (identity : string)
    (admin_id vendor_id : Z) (vendor : User) (now1 now2 : datetime) :
  is_admin st identity admin_id →
  users st !! vendor_id = Some vendor →
  role vendor = "vendor" →
  let once := toggle_vendor_status st identity vendor_id now1 in
  let twice := toggle_vendor_status once.2 identity vendor_id now2 in
  status_code once.1 = 200%nat
  ∧ status_code twice.1 = 200%nat
  ∧ (∃ vendor', users twice.2 !! vendor_id = Some vendor'
                ∧ is_active vendor' = is_active vendor
                ∧ user_updated_at vendor' = now2
                ∧ same_account vendor vendor')
  ∧ (∀ k, k ≠ vendor_id → users twice.2 !! k = users st !! k)
  ∧ events twice.2 = events st
  ∧ vendor_applications twice.2 = vendor_applications st
  ∧ payments twice.2 = payments st.
Proof.
  intros Hadmin Hvendor Hrole once twice.
  destruct (toggle_vendor_status_any_admin_helper st identity admin_id
              vendor_id vendor now1 Hadmin Hvendor Hrole) as [msg1 H1].
  assert (Hadmin1 : is_admin once.2 identity admin_id).
  { subst once. rewrite H1. simpl. destruct Hadmin as [Hid (u & Hu & Hr)].
    split; [done|]. exists u. split; [|done]. simpl.
    rewrite lookup_insert_ne; [done|]. intros ->. congruence. }
  assert (Hv1 : users once.2 !! vendor_id = Some (toggled vendor now1)).
  { subst once. rewrite H1. simpl. apply lookup_insert_eq. }
  destruct (toggle_vendor_status_any_admin_helper once.2 identity admin_id
              vendor_id (toggled vendor now1) now2 Hadmin1 Hv1 Hrole)
    as [msg2 H2].
  subst twice. rewrite H2. subst once. rewrite H1. simpl.
  split_and!; try done.
  - eexists. split; [apply lookup_insert_eq|]. simpl.
    split_and!; [by destruct (is_active vendor)|done|by repeat split].
  - intros k Hk. by rewrite !lookup_insert_ne.
Qed.

Lemma toggle_vendor_status_twice_witness :
  is_admin Sample.store "2" 2
  ∧ status_code (toggle_vendor_status Sample.store "2" 3 50).1 = 200%nat
  ∧ status_code
      (toggle_vendor_status (toggle_vendor_status Sample.store "2" 3 50).2
         "2" 3 60).1 = 200%nat
  ∧ (∃ vendor',
       users
         (toggle_vendor_status (toggle_vendor_status Sample.store "2" 3 50).2
            "2" 3 60).2 !! 3 = Some vendor'
       ∧ is_active vendor'
         = is_active (Sample.user "v@example.org" "vendor" true)
       ∧ user_updated_at vendor' = 60
       ∧ same_account (Sample.user "v@example.org" "vendor" true) vendor').
Proof.
  assert (Hadmin : is_admin Sample.store "2" 2).
  { split; [reflexivity|]. eexists. split; reflexivity. }
  split; [exact Hadmin|].
  pose proof (toggle_vendor_status_twice Sample.store "2" 2 3
                (Sample.user "v@example.org" "vendor" true) 50 60
                Hadmin eq_refl eq_refl) as H.
  simpl in H. destruct H as (H1 & H2 & H3 & _). split_and!; assumption.
Defined.

(** X4.  No admin request creates, deletes or rewrites an account: after
    any sequence of requests every user is still there with the same
    email, password hash, name, role, contact fields and creation time, a
    user who is not a vendor (an admin) is unchanged altogether, and no
    user has appeared. *)
Theorem accounts_are_kept
    (bind : sqltype → json → option json)
    (fromisoformat : string → option datetime)
    (repr_list : list scalar → string)
    (st : db) (rs : list request) (k : Z) :
  match users st !! k with
  | None => users (run bind fromisoformat repr_list st rs) !! k = None
  | Some u =>
      ∃ u', users (run bind fromisoformat repr_list st rs) !! k = Some u'
            ∧ same_account u u'
            ∧ (role u ≠ "vendor" → u' = u)
  end.
Proof. apply run_users. Qed.

(** ** The writes of a request *)

Section Written.

Variable bind : sqltype → json → option json.
Variable fromisoformat : string → option datetime.
Variable repr_list : list scalar → string.

Lemma handle_written st r : written st (handle bind fromisoformat repr_list st r).2.
Proof.
  destruct r as [identity call now]. unfold handle. simpl.
  destruct call as [vid|aid data|data|eid data|eid|pid data].
  - destruct (toggle_vendor_status_inv st identity vid now)
      as [[_ ->]|(vendor & _ & Hv & Hrole & _ & ->)];
      [constructor|by constructor].
  - destruct (review_application_inv bind st identity aid data now)
      as [[_ ->]|(admin_id & a & e & s & a' & payments' & _ & Ha & He & <- & _
                  & Hs & (n & _ & -> & Hcase)%reviewed_rows_Some & _ & ->)];
      [constructor|].
    destruct Hcase as [(-> & Hnil & _ & ->)|[Hor ->]].
    + by apply written_first_approval.
    + apply written_review; try done.
      destruct Hor as [Hne|?]; [left|by right].
      apply elem_of_cons in Hs as [?|Hs]; [done|].
      by apply list_elem_of_singleton in Hs.
  - destruct (decide (status_code
        (create_event bind fromisoformat repr_list st identity data now).1
        = 201%nat)) as [Hok|Hno].
    + destruct (create_event_created _ _ _ _ _ _ _ Hok)
        as (? & ? & ? & ? & e & ? & _ & _ & _ & _ & _ & _ & _ & ->).
      constructor.
    + rewrite create_event_refused by done. constructor.
  - destruct (decide (status_code
        (update_event bind fromisoformat repr_list st identity eid data now).1
        = 200%nat)) as [Hok|Hno].
    + destruct (update_event_updated _ _ _ _ _ _ _ _ Hok)
        as (e & ? & ? & e' & He & _ & _ & _ & _
            & (_ & _ & _ & Howner & _)%merged_Some & ->).
      by econstructor.
    + rewrite update_event_refused by done. constructor.
  - destruct (delete_event_inv st identity eid)
      as [[_ ->]|(? & e & _ & He & _ & Hcount & _ & ->)];
      [constructor|by econstructor].
  - destruct (decide (status_code
        (update_payment_status bind st identity pid data now).1 = 200%nat))
      as [Hok|Hno].
    + destruct (update_payment_status_accepted_inv _ _ _ _ _ _ Hok)
        as (_ & p & s & ? & ? & ? & _ & Hp & _ & _ & _ & _ & ->).
      by constructor.
    + rewrite update_payment_status_refused by done. constructor.
Qed.

(** An invariant of every kind of write is an invariant of every run. *)
Lemma run_invariant (P : db → Prop) :
  (∀ st st', written st st' → P st → P st') →
  ∀ st rs, P st → P (run bind fromisoformat repr_list st rs).
Proof.
  intros Hstep st rs. revert st.
  induction rs as [|r rs IH]; intros st HP; [done|].
  simpl. apply IH. eapply Hstep; [apply handle_written|done].
Qed.

End Written.

(** ** Invariants of the store *)

Section Invariants.

Lemma count_applications_zero st id k a :
  count_applications st id = 0%nat →
  vendor_applications st !! k = Some a → event_id a ≠ id.
Proof.
  unfold count_applications. intros Hzero Ha Heq.
  apply length_zero_iff_nil in Hzero.
  pose proof (proj1 (rows_where_nil _ _) Hzero k a Ha) as Hfalse.
  simpl in Hfalse. by apply Z.eqb_neq in Hfalse.
Qed.

Lemma written_references_ok st st' :
  written st st' → references_ok st → references_ok st'.
Proof.
  intros Hw [Happs Hpays].
  destruct Hw as [|vid vendor now Hv Hrole|id a e s notes now Ha He Hs Hp
                 |id a e notes now Ha He Hnil|e|id e e' He Howner
                 |id e He Hcount|id p s method transaction notes' now Hp]; simpl.
  - done.
  - done.
  - split; simpl.
    + intros k a'. destruct (decide (id = k)) as [<-|Hne].
      * rewrite lookup_insert_eq. intros [= <-]. simpl. eauto.
      * rewrite lookup_insert_ne by done. apply Happs.
    + intros k p' Hk. destruct (Hpays k p' Hk) as (a' & Ha' & Hvendor).
      destruct (decide (id = application_id p')) as [Heq|Hne].
      * rewrite <- Heq, lookup_insert_eq. eexists. split; [done|].
        simpl. rewrite <- Heq in Ha'. congruence.
      * rewrite lookup_insert_ne by done. eauto.
  - split; simpl.
    + intros k a'. destruct (decide (id = k)) as [<-|Hne].
      * rewrite lookup_insert_eq. intros [= <-]. simpl. eauto.
      * rewrite lookup_insert_ne by done. apply Happs.
    + intros k p'. destruct (decide (next_id (payments st) = k)) as [<-|Hne].
      * rewrite lookup_insert_eq. intros [= <-]. simpl.
        rewrite lookup_insert_eq. eauto.
      * rewrite lookup_insert_ne by done. intros Hk.
        destruct (Hpays k p' Hk) as (a' & Ha' & Hvendor).
        destruct (decide (id = application_id p')) as [Heq|Hne'].
        -- rewrite <- Heq, lookup_insert_eq. eexists. split; [done|].
           simpl. rewrite <- Heq in Ha'. congruence.
        -- rewrite lookup_insert_ne by done. eauto.
  - split; simpl; [|done].
    intros k a Ha. destruct (Happs k a Ha) as [e' He'].
    destruct (decide (next_id (events st) = event_id a)) as [->|Hne].
    + rewrite lookup_insert_eq. eauto.
    + rewrite lookup_insert_ne by done. eauto.
  - split; simpl; [|done].
    intros k a Ha. destruct (Happs k a Ha) as [e'' He''].
    destruct (decide (id = event_id a)) as [->|Hne].
    + rewrite lookup_insert_eq. eauto.
    + rewrite lookup_insert_ne by done. eauto.
  - split; simpl; [|done].
    intros k a Ha.
    rewrite lookup_delete_ne; [by eapply Happs|].
    intros Heq. by eapply (count_applications_zero st id k a).
  - split; simpl; [done|].
    intros k p'. destruct (decide (id = k)) as [<-|Hne].
    + rewrite lookup_insert_eq. intros [= <-]. simpl. by eapply Hpays.
    + rewrite lookup_insert_ne by done. apply Hpays.
Qed.

Lemma payments_of_nonempty_length st id :
  payments_of st id ≠ [] ↔ List.length (payments_of st id) ≠ 0%nat.
Proof. by rewrite length_zero_iff_nil. Qed.

Lemma written_payments_ok st st' :
  written st st' → payments_ok st → payments_ok st'.
Proof.
  intros Hw Hok.
  destruct Hw as [|vid vendor now Hv Hrole|id a e s notes now Ha He Hs Hp
                 |id a e notes now Ha He Hnil|e|id e e' He Howner
                 |id e He Hcount|id p s method transaction notes' now Hp].
  - done.
  - done.
  - intros k a'. simpl. unfold payments_of. simpl.
    destruct (decide (id = k)) as [<-|Hne].
    + rewrite lookup_insert_eq. intros [= <-]. simpl.
      split; [by eapply Hok|]. intros ->. by destruct Hp.
    + rewrite lookup_insert_ne by done. apply Hok.
  - intros k a'. rewrite payments_of_nonempty_length.
    unfold payments_of. simpl.
    rewrite rows_where_insert_length by apply next_id_fresh. simpl.
    destruct (decide (id = k)) as [<-|Hne].
    + rewrite lookup_insert_eq. intros _.
      rewrite Z.eqb_refl. unfold payments_of in Hnil. rewrite Hnil. simpl.
      split; [lia|done].
    + rewrite lookup_insert_ne by done. intros Ha'.
      rewrite (proj2 (Z.eqb_neq _ _) Hne). simpl.
      destruct (Hok k a' Ha') as [Hle Happ]. split; [done|].
      intros Hs. by apply payments_of_nonempty_length, Happ.
  - done.
  - done.
  - done.
  - intros k a' Ha'. simpl in Ha'.
    rewrite payments_of_nonempty_length. unfold payments_of. simpl.
    rewrite (rows_where_replace_length _ _ _ p) by done.
    destruct (Hok k a' Ha') as [Hle Happ]. split; [done|].
    intros Hs. by apply payments_of_nonempty_length, Happ.
Qed.

End Invariants.

(** Case analysis on a row of a table that is given in full. *)
Ltac rows_cases H :=
  apply elem_of_map_to_list in H; vm_compute in H;
  repeat (apply elem_of_cons in H as [H|H]; [injection H as -> ->|]);
  try (by apply elem_of_nil in H).

Lemma sample_references_ok : references_ok Sample.store.
Proof.
  split.
  - intros id a H. rows_cases H; vm_compute; eauto.
  - intros id p H. rows_cases H. eexists. split; reflexivity.
Qed.

Lemma sample_payments_ok : payments_ok Sample.store.
Proof.
  intros id a H. rows_cases H.
  - split; [vm_compute; lia|]. intros _. vm_compute. discriminate.
  - split; [vm_compute; lia|]. vm_compute. discriminate.
Qed.

(** X5.  References stay valid.  If every application's event exists and
    every payment's application exists and has the payment's vendor, the
    same holds after any sequence of admin requests: [delete_event] never
    removes an event that has applications, and a payment is created with
    the vendor of its application. *)
Theorem references_are_kept
    (bind : sqltype → json → option json)
    (fromisoformat : string → option datetime)
    (repr_list : list scalar → string) (st : db) (rs : list request) :
  references_ok st → references_ok (run bind fromisoformat repr_list st rs).
Proof.
  apply (run_invariant bind fromisoformat repr_list references_ok).
  apply written_references_ok.
Qed.

Lemma references_are_kept_witness :
  references_ok Sample.store
  ∧ references_ok
      (run Sample.bind Sample.fromisoformat Sample.repr_list Sample.store
         [mkRequest "1" (ReviewApplication 1 {[ "status" := JStr "approved" ]}) 30;
          mkRequest "1" (DeleteEvent 1) 40]).
Proof.
  split; [exact sample_references_ok|].
  apply (references_are_kept Sample.bind Sample.fromisoformat
           Sample.repr_list Sample.store).
  exact sample_references_ok.
Defined.

(** X6.  Under any interleaving of admin requests an application never
    gets a second payment, and an approved application keeps having one:
    if every application has at most one payment and every approved one
    has a payment, the same holds after any sequence of requests. *)
Theorem payments_follow_approvals
    (bind : sqltype → json → option json)
    (fromisoformat : string → option datetime)
    (repr_list : list scalar → string) (st : db) (rs : list request) :
  payments_ok st → payments_ok (run bind fromisoformat repr_list st rs).
Proof.
  apply (run_invariant bind fromisoformat repr_list payments_ok).
  apply written_payments_ok.
Qed.

Lemma payments_follow_approvals_witness :
  payments_ok Sample.store
  ∧ payments_ok
      (run Sample.bind Sample.fromisoformat Sample.repr_list Sample.store
         [mkRequest "1" (ReviewApplication 1 {[ "status" := JStr "approved" ]}) 30;
          mkRequest "2" (UpdatePaymentStatus 1 {[ "status" := JStr "failed" ]}) 35;
          mkRequest "1" (ReviewApplication 1 {[ "status" := JStr "approved" ]}) 40]).
Proof.
  split; [exact sample_payments_ok|].
  apply (payments_follow_approvals Sample.bind Sample.fromisoformat
           Sample.repr_list Sample.store).
  exact sample_payments_ok.
Defined.

Example delete_event_with_applications_is_refused :
  (delete_event Sample.store "1" 1).1
  = error 400 "Cannot delete event with 1 applications. Cancel event instead."
  ∧ (delete_event Sample.store "1" 1).2 = Sample.store.
Proof. vm_compute. done. Qed.

(** ** Events: what is written *)

Section EventWrites.

Variable bind : sqltype → json → option json.

(** A column of a row that was updated without raising. *)
Lemma updated_column_Some ty data key old stored :
  updated_column bind ty data key old = Some stored →
  match data !! key with
  | None => stored = old
  | Some v => column bind ty v = Some stored
  end.
Proof.
  unfold updated_column. destruct (data !! key); [done|]. by intros [= <-].
Qed.

(** A column with a default, in a row that was inserted without
    raising. *)
Lemma column_or_Some ty dflt v stored :
  column_or bind ty dflt v = Some stored →
  match v with
  | None | Some (JVal SNull) => stored = dflt
  | Some v => bind ty v = Some stored
  end.
Proof.
  unfold column_or. destruct v as [[[| | |]|]|]; try done; by intros [= <-].
Qed.

(** The row of a body that carries the name and the date alone. *)
Lemma inserted_event_minimal data v d admin_id dc co now stored :
  (∀ k, k ≠ "name" → k ≠ "event_date" → data !! k = None) →
  column bind (SqlString 200) v = Some stored →
  stored ≠ JNone →
  inserted_event bind data v d admin_id dc co now
  = Some (mkEvent stored JNone d JNone JNone JNone (JVal (SInt 0))
            (JStr "upcoming") admin_id (Some dc) (Some co)
            JNone JNone JNone JNone now now).
Proof.
  intros Hother Hname Hnot. unfold inserted_event.
  rewrite Hname, !Hother by done. simpl.
  by destruct stored as [[| | |]|].
Qed.

End EventWrites.

(** X7.  [update_event] is a partial update.  When it answers 200, each
    of the copied columns of the stored event has its old value if the
    key is absent from the body, and holds what the database makes of the
    value of the body if the key is there; a [name] that was written is
    not NULL; the date and the two currency columns are kept when their
    keys are absent; the owner and the creation time are never changed,
    [updated_at] is the time of the request, and no other row of the
    store is touched. *)
Theorem update_event_is_partial
    (bind : sqltype → json → option json)
    (fromisoformat : string → option datetime)
    (repr_list : list scalar → string)
    (st : db) (identity : string) (id : Z) (e : Event)
    (data : gmap string json) (now : datetime) :
  events st !! id = Some e →
  status_code
    (update_event bind fromisoformat repr_list st identity id data now).1
  = 200%nat →
  ∃ e',
    events (update_event bind fromisoformat repr_list st identity id data now).2
      !! id = Some e'
    ∧ created_by_admin_id e' = created_by_admin_id e
    ∧ event_created_at e' = event_created_at e
    ∧ event_updated_at e' = now
    ∧ Forall (λ c, match data !! c.1.1 with
                   | None => c.2 e' = c.2 e
                   | Some v => column bind c.1.2 v = Some (c.2 e')
                   end) patch_columns
    ∧ (is_Some (data !! "name") → name e' ≠ JNone)
    ∧ (data !! "event_date" = None → event_date e' = event_date e)
    ∧ (data !! "default_currency" = None →
       default_currency e' = default_currency e)
    ∧ (data !! "currency_options" = None →
       currency_options e' = currency_options e)
    ∧ (∀ k, k ≠ id →
         events
           (update_event bind fromisoformat repr_list st identity id data now).2
           !! k = events st !! k)
    ∧ users (update_event bind fromisoformat repr_list st identity id data now).2
      = users st
    ∧ vendor_applications
        (update_event bind fromisoformat repr_list st identity id data now).2
      = vendor_applications st
    ∧ payments
        (update_event bind fromisoformat repr_list st identity id data now).2
      = payments st.
Proof.
  intros He Hok.
  destruct (update_event_updated _ _ _ _ _ _ _ _ Hok)
    as (e0 & d & co & e' & He0 & _ & Hd & Hco & _ & Hmerged & ->).
  rewrite He in He0. injection He0 as <-.
  apply merged_Some in Hmerged
    as (Hcols & Hname & Hdate & Howner & Hdc & Hopts & Hcreated & Hupdated).
  exists e'. simpl. split; [apply lookup_insert_eq|].
  split_and!; try done.
  - eapply Forall_impl; [exact Hcols|].
    intros c Hc. by apply updated_column_Some in Hc.
  - intros Hnone. unfold updated_event_date in Hd. rewrite Hnone in Hd.
    injection Hd as <-. done.
  - intros Hnone. rewrite Hdc. unfold updated_default_currency.
    by rewrite Hnone.
  - intros Hnone. unfold updated_currency_options in Hco.
    rewrite Hnone in Hco. injection Hco as <-. done.
  - intros k Hk. by apply lookup_insert_ne.
Qed.

Lemma update_event_is_partial_witness :
  events Sample.store !! 1 = Some (Sample.event 1 500)
  ∧ status_code
      (update_event Sample.bind Sample.fromisoformat Sample.repr_list
         Sample.store "1" 1 {[ "venue" := JStr "Hall A" ]} 77).1 = 200%nat
  ∧ ∃ e',
      events
        (update_event Sample.bind Sample.fromisoformat Sample.repr_list
           Sample.store "1" 1 {[ "venue" := JStr "Hall A" ]} 77).2 !! 1
      = Some e'
      ∧ created_by_admin_id e' = created_by_admin_id (Sample.event 1 500)
      ∧ event_created_at e' = event_created_at (Sample.event 1 500)
      ∧ event_updated_at e' = 77
      ∧ Forall (λ c, match ({[ "venue" := JStr "Hall A" ]} : gmap string json)
                           !! c.1.1 with
                     | None => c.2 e' = c.2 (Sample.event 1 500)
                     | Some v => column Sample.bind c.1.2 v = Some (c.2 e')
                     end) patch_columns.
Proof.
  split; [reflexivity|].
  assert (H200 : status_code
            (update_event Sample.bind Sample.fromisoformat Sample.repr_list
               Sample.store "1" 1 {[ "venue" := JStr "Hall A" ]} 77).1
            = 200%nat)
    by (vm_compute; reflexivity).
  split; [exact H200|].
  pose proof (update_event_is_partial Sample.bind Sample.fromisoformat
                Sample.repr_list Sample.store "1" 1 (Sample.event 1 500)
                {[ "venue" := JStr "Hall A" ]} 77 eq_refl H200) as H.
  destruct H as (e' & H1 & H2 & H3 & H4 & H5 & _).
  exists e'. split; [exact H1|]. split; [exact H2|]. split; [exact H3|].
  split; [exact H4|exact H5].
Defined.

(** A value the database does not store, and a NULL name, are answered
    500 and leave the event as it was. *)
Example update_event_flush_raises :
  update_event Sample.bind Sample.fromisoformat Sample.repr_list
    Sample.store "1" 1 {[ "venue" := JList [SStr "Hall A"] ]} 77
  = (server_error, Sample.store)
  ∧ update_event Sample.bind Sample.fromisoformat Sample.repr_list
      Sample.store "1" 1 {[ "name" := JNone ]} 77
    = (server_error, Sample.store).
Proof. vm_compute. done. Qed.

(** X8.  [delete_event] by the owner: with no application on the event
    it answers 200 and removes that event and nothing else; with at least
    one application it answers 400 and removes nothing.  An id that fits
    the INTEGER column and has no event is answered 404. *)
Theorem delete_event_outcome (st : db) (identity : string) (admin_id id : Z) :
  is_admin st identity admin_id →
  (fits_integer id → events st !! id = None →
   delete_event st identity id = (error 404 "Event not found", st))
  ∧ (∀ e, events st !! id = Some e →
          created_by_admin_id e = admin_id →
          (count_applications st id = 0%nat →
           status_code (delete_event st identity id).1 = 200%nat
           ∧ (delete_event st identity id).2
             = set_events st (delete id (events st))
           ∧ events (delete_event st identity id).2 !! id = None
           ∧ ∀ k, k ≠ id →
                  events (delete_event st identity id).2 !! k = events st !! k)
          ∧ (count_applications st id ≠ 0%nat →
             status_code (delete_event st identity id).1 = 400%nat
             ∧ (delete_event st identity id).2 = st)).
Proof.
  intros [Hcheck Hid]%is_admin_check. split.
  - intros _ Hnone. unfold delete_event. by rewrite Hcheck, Hnone.
  - intros e He Howner. unfold delete_event.
    rewrite Hcheck, He, Hid. simpl.
    rewrite (proj2 (Z.eqb_eq _ _) Howner). simpl.
    destruct (count_applications st id) as [|n]; simpl.
    + split; [|done]. intros _. split_and!; [done|done| |].
      * apply lookup_delete_eq.
      * intros k Hk. by apply lookup_delete_ne.
    + split; [done|]. intros _. done.
Qed.

Lemma delete_event_outcome_witness :
  is_admin Sample.store "1" 1
  ∧ count_applications Sample.store 1 ≠ 0%nat
  ∧ status_code (delete_event Sample.store "1" 1).1 = 400%nat
  ∧ (delete_event Sample.store "1" 1).2 = Sample.store
  ∧ fits_integer 7
  ∧ events Sample.store !! 7 = None
  ∧ delete_event Sample.store "1" 7
    = (error 404 "Event not found", Sample.store).
Proof.
  assert (Hadmin : is_admin Sample.store "1" 1).
  { split; [reflexivity|]. eexists. split; reflexivity. }
  assert (Hfits : fits_integer 7) by (unfold fits_integer; lia).
  split; [exact Hadmin|]. split; [vm_compute; discriminate|].
  split_and!; [| |exact Hfits|reflexivity|].
  - apply (proj2 (proj2 (delete_event_outcome Sample.store "1" 1 1 Hadmin)
                    (Sample.event 1 500) eq_refl eq_refl)).
    vm_compute. discriminate.
  - apply (proj2 (proj2 (delete_event_outcome Sample.store "1" 1 1 Hadmin)
                    (Sample.event 1 500) eq_refl eq_refl)).
    vm_compute. discriminate.
  - exact (proj1 (delete_event_outcome Sample.store "1" 1 7 Hadmin)
             Hfits eq_refl).
Defined.

Example delete_created_event :
  let st1 :=
    (create_event Sample.bind Sample.fromisoformat Sample.repr_list
       Sample.store "1"
       {[ "name" := JStr "Expo";
          "event_date" := JStr "2026-04-15T10:00:00Z" ]} 7).2 in
  is_Some (events st1 !! 3)
  ∧ (delete_event st1 "1" 3).1
    = mkResponse 200 (EventDeleted "Event deleted successfully")
  ∧ events (delete_event st1 "1" 3).2 = events Sample.store.
Proof. vm_compute. split_and!; [eauto|done|done]. Qed.

(** X9.  [create_event] by an admin.  A body without [name], or with
    [name] and without [event_date], is answered 400 with the name of the
    missing field.  A body that carries a name the database stores as a
    value other than NULL and a date that parses, and nothing else, is
    answered 201; a name that is NULL is never answered 201.  Whenever the
    answer is 201 the new event is stored under a key that no event had,
    is owned by the acting admin and created at the time of the request;
    its name is what the database makes of the name of the body, and is
    not NULL; its fee is 0 and its status upcoming when the key is absent
    or null, and what the database makes of the value otherwise; without
    currency keys its currency columns are USD and USD; every other row
    of the store is as before. *)
Theorem create_event_outcome
    (bind : sqltype → json → option json)
    (fromisoformat : string → option datetime)
    (repr_list : list scalar → string)
    (st : db) (identity : string) (admin_id : Z)
    (data : gmap string json) (now : datetime) :
  is_admin st identity admin_id →
  (data !! "name" = None →
   create_event bind fromisoformat repr_list st identity data now
   = (error 400 "Missing required field: name", st))
  ∧ (is_Some (data !! "name") → data !! "event_date" = None →
     create_event bind fromisoformat repr_list st identity data now
     = (error 400 "Missing required field: event_date", st))
  ∧ (∀ v raw d stored,
       data !! "name" = Some v →
       data !! "event_date" = Some (JStr raw) →
       (∀ k, k ≠ "name" → k ≠ "event_date" → data !! k = None) →
       fromisoformat (PyStr.replace_Z raw) = Some d →
       column bind (SqlString 200) v = Some stored →
       stored ≠ JNone →
       status_code
         (create_event bind fromisoformat repr_list st identity data now).1
       = 201%nat)
  ∧ (data !! "name" = Some JNone →
     status_code
       (create_event bind fromisoformat repr_list st identity data now).1
     ≠ 201%nat)
  ∧ (status_code
       (create_event bind fromisoformat repr_list st identity data now).1
     = 201%nat →
     ∃ e,
       events st !! next_id (events st) = None
       ∧ events
           (create_event bind fromisoformat repr_list st identity data now).2
           !! next_id (events st) = Some e
       ∧ created_by_admin_id e = admin_id
       ∧ (∃ v, data !! "name" = Some v
               ∧ column bind (SqlString 200) v = Some (name e))
       ∧ name e ≠ JNone
       ∧ match data !! "vendor_fee" with
         | None | Some (JVal SNull) => vendor_fee e = JVal (SInt 0)
         | Some v => bind SqlFloat v = Some (vendor_fee e)
         end
       ∧ match data !! "status" with
         | None | Some (JVal SNull) => event_status e = JStr "upcoming"
         | Some v => bind (SqlString 20) v = Some (event_status e)
         end
       ∧ event_created_at e = now
       ∧ (data !! "default_currency" = None →
          data !! "currency_options" = None →
          default_currency e = Some "USD" ∧ currency_options e = Some "USD")
       ∧ (∀ k, k ≠ next_id (events st) →
            events
              (create_event bind fromisoformat repr_list st identity data now).2
              !! k = events st !! k)
       ∧ users (create_event bind fromisoformat repr_list st identity data now).2
         = users st
       ∧ vendor_applications
           (create_event bind fromisoformat repr_list st identity data now).2
         = vendor_applications st
       ∧ payments
           (create_event bind fromisoformat repr_list st identity data now).2
         = payments st).
Proof.
  intros Hadmin. pose proof (is_admin_check _ _ _ Hadmin) as [Hcheck Hid].
  assert (Hcreated : status_code
       (create_event bind fromisoformat repr_list st identity data now).1
     = 201%nat →
     ∃ v e co,
       data !! "name" = Some v
       ∧ created_currency_options data = Some co
       ∧ not_null (column bind (SqlString 200) v) = Some (name e)
       ∧ column_or bind SqlFloat (JVal (SInt 0)) (data !! "vendor_fee")
         = Some (vendor_fee e)
       ∧ column_or bind (SqlString 20) (JStr "upcoming") (data !! "status")
         = Some (event_status e)
       ∧ created_by_admin_id e = admin_id
       ∧ default_currency e = Some (created_default_currency repr_list data)
       ∧ currency_options e = Some co
       ∧ event_created_at e = now
       ∧ (create_event bind fromisoformat repr_list st identity data now).2
         = set_events st (<[next_id (events st) := e]> (events st))).
  { intros Hok.
    destruct (create_event_created _ _ _ _ _ _ _ Hok)
      as (admin' & v & raw & d & e & co & Hid' & Hname & _ & _ & Hco & _
          & Hins & Hst).
    rewrite Hid in Hid'. injection Hid' as <-.
    apply inserted_event_Some in Hins
      as (Hn & Hfee & Hstatus & _ & Howner & Hdc & Hopts & Hat & _).
    exists v, e, co. split_and!; done. }
  split_and!.
  - intros Hnone. unfold create_event. by rewrite Hcheck, Hid, Hnone.
  - intros [v Hname] Hnone. unfold create_event.
    by rewrite Hcheck, Hid, Hname, Hnone.
  - intros v raw d stored Hname Hraw Hother Hd Hstored Hnot.
    unfold create_event.
    rewrite Hcheck, Hid, Hname, Hraw. simpl. rewrite Hd.
    unfold created_currency_options, created_default_currency.
    rewrite !Hother by done. simpl.
    by erewrite (inserted_event_minimal bind data v d admin_id _ _ now
                   stored Hother Hstored Hnot).
  - intros Hname Hok.
    destruct (Hcreated Hok) as (v & e & co & Hv & _ & Hn & _).
    rewrite Hname in Hv. injection Hv as <-. done.
  - intros Hok.
    destruct (Hcreated Hok)
      as (v & e & co & Hv & Hco & Hn & Hfee & Hstatus & Howner & Hdc & Hopts
          & Hat & ->).
    exists e. simpl. split; [apply next_id_fresh|].
    split; [apply lookup_insert_eq|].
    assert (Hname : column bind (SqlString 200) v = Some (name e)
                    ∧ name e ≠ JNone).
    { destruct (column bind (SqlString 200) v) as [[[| | |]|]|];
        simpl in Hn; try done; by injection Hn as <-. }
    destruct Hname as [Hname Hnot].
    split_and!; try done.
    + eauto.
    + by apply column_or_Some in Hfee.
    + by apply column_or_Some in Hstatus.
    + intros Hnone1 Hnone2. rewrite Hdc, Hopts.
      unfold created_default_currency.
      unfold created_currency_options in Hco. rewrite Hnone1, Hnone2 in *.
      simpl in *. by injection Hco as <-.
    + intros k Hk. by apply lookup_insert_ne.
Qed.

Lemma create_event_outcome_witness :
  is_admin Sample.store "2" 2
  ∧ status_code
      (create_event Sample.bind Sample.fromisoformat Sample.repr_list
         Sample.store "2"
         {[ "name" := JStr "Expo";
            "event_date" := JStr "2026-04-15T10:00:00Z" ]} 7).1 = 201%nat
  ∧ create_event Sample.bind Sample.fromisoformat Sample.repr_list
      Sample.store "2"
      {[ "event_date" := JStr "2026-04-15T10:00:00Z" ]} 7
    = (error 400 "Missing required field: name", Sample.store).
Proof.
  assert (Hadmin : is_admin Sample.store "2" 2).
  { split; [reflexivity|]. eexists. split; reflexivity. }
  split; [exact Hadmin|]. split.
  - apply (proj1 (proj2 (proj2
      (create_event_outcome Sample.bind Sample.fromisoformat Sample.repr_list
         Sample.store "2" 2
         {[ "name" := JStr "Expo";
            "event_date" := JStr "2026-04-15T10:00:00Z" ]} 7 Hadmin)))
      (JStr "Expo") "2026-04-15T10:00:00Z" 1776247200 (JStr "Expo"));
      try (vm_compute; reflexivity); try discriminate.
    intros k Hname Hdate.
    rewrite lookup_insert_ne by done. by rewrite lookup_singleton_ne.
  - apply (proj1
      (create_event_outcome Sample.bind Sample.fromisoformat Sample.repr_list
         Sample.store "2" 2
         {[ "event_date" := JStr "2026-04-15T10:00:00Z" ]} 7 Hadmin)).
    vm_compute. reflexivity.
Defined.

(** The column defaults, and a name that is null. *)
Example create_event_defaults :
  (∃ e, events
          (create_event Sample.bind Sample.fromisoformat Sample.repr_list
             Sample.store "2"
             {[ "name" := JStr "Expo";
                "event_date" := JStr "2026-04-15T10:00:00Z";
                "vendor_fee" := JNone; "status" := JNone ]} 7).2 !! 3
        = Some e
        ∧ vendor_fee e = JVal (SInt 0)
        ∧ event_status e = JStr "upcoming")
  ∧ create_event Sample.bind Sample.fromisoformat Sample.repr_list
      Sample.store "2"
      {[ "name" := JNone; "event_date" := JStr "2026-04-15T10:00:00Z" ]} 7
    = (server_error, Sample.store).
Proof. vm_compute. split; [eexists; split_and!; reflexivity|done]. Qed.

(** ** Listings *)

Section Listings.

Lemma order_by_desc_sorted {A} (key : A → Z) (l : list A) :
  Sorted (λ x y, key y ≤ key x) (order_by_desc key l).
Proof.
  unfold order_by_desc.
  assert (Total (λ x y : A, key y ≤ key x)) by (intros x y; lia).
  by apply Sorted_merge_sort.
Qed.

Lemma order_by_desc_perm {A} (key : A → Z) (l : list A) :
  order_by_desc key l ≡ₚ l.
Proof. unfold order_by_desc. apply merge_sort_Permutation. Qed.

Lemma rows_where_NoDup {A} (P : A → bool) (m : gmap Z A) :
  NoDup (rows_where P m).
Proof. unfold rows_where. apply NoDup_filter, NoDup_map_to_list. Qed.

Lemma count_approved_le st id :
  (count_approved st id ≤ count_applications st id)%nat.
Proof.
  unfold count_approved, count_applications, rows_where.
  induction (map_to_list (vendor_applications st)) as [|r l IH]; [done|].
  rewrite !filter_cons. simpl.
  destruct (Z.eqb_spec (event_id r.2) id); simpl;
    repeat case_decide; simpl in *; try done; try lia.
Qed.

Lemma counted_rows {A} (f g : Z * A → nat) (l : list (Z * A)) :
  fst <$> (fst <$> map (λ r, (r.1, r.2, f r, g r)) l) = l.
Proof.
  induction l as [|[k x] l IH]; [done|]. simpl in *. by f_equal.
Qed.

End Listings.

(** X10.  For an admin, [get_all_payments] answers 200 with exactly the
    payments whose chain payment, application, event ends at an event of
    that admin, each once, newest first by creation time. *)
Theorem get_all_payments_exact (st : db) (identity : string) (admin_id : Z) :
  is_admin st identity admin_id →
  ∃ l,
    get_all_payments st identity = mkResponse 200 (PaymentList l)
    ∧ (∀ id p, (id, p) ∈ l ↔
               payments st !! id = Some p
               ∧ ∃ a e, vendor_applications st !! application_id p = Some a
                        ∧ events st !! event_id a = Some e
                        ∧ created_by_admin_id e = admin_id)
    ∧ NoDup l
    ∧ Sorted (λ x y, pay_created_at y.2 ≤ pay_created_at x.2) l.
Proof.
  intros [Hcheck Hid]%is_admin_check. unfold get_all_payments.
  rewrite Hcheck, Hid. simpl. eexists. split; [reflexivity|]. split_and!.
  - intros id p. rewrite elem_of_order_by_desc, elem_of_rows_where.
    rewrite bool_decide_eq_true. unfold payment_owner.
    split; intros [Hp Hchain]; (split; [done|]).
    + destruct (vendor_applications st !! application_id p) as [a|]; [|done].
      simpl in Hchain.
      destruct (events st !! event_id a) as [e|] eqn:He; [|done].
      simpl in Hchain. injection Hchain as <-. eauto.
    + destruct Hchain as (a & e & -> & He & <-). simpl. by rewrite He.
  - rewrite order_by_desc_perm. apply rows_where_NoDup.
  - apply (order_by_desc_sorted (λ r : Z * Payment, pay_created_at r.2)).
Qed.

Lemma get_all_payments_exact_witness :
  is_admin Sample.store "2" 2
  ∧ ∃ l,
      get_all_payments Sample.store "2" = mkResponse 200 (PaymentList l)
      ∧ (∀ id p, (id, p) ∈ l ↔
                 payments Sample.store !! id = Some p
                 ∧ ∃ a e,
                     vendor_applications Sample.store !! application_id p
                     = Some a
                     ∧ events Sample.store !! event_id a = Some e
                     ∧ created_by_admin_id e = 2)
      ∧ NoDup l
      ∧ Sorted (λ x y, pay_created_at y.2 ≤ pay_created_at x.2) l.
Proof.
  assert (Hadmin : is_admin Sample.store "2" 2).
  { split; [reflexivity|]. eexists. split; reflexivity. }
  split; [exact Hadmin|].
  exact (get_all_payments_exact Sample.store "2" 2 Hadmin).
Defined.

(** X11.  For an admin, [get_all_events] answers 200 with exactly the
    events that admin created, latest date first, each with the number of
    applications on it and the number of approved ones, which is never
    the larger. *)
Theorem get_all_events_exact (st : db) (identity : string) (admin_id : Z) :
  is_admin st identity admin_id →
  ∃ l,
    get_all_events st identity = mkResponse 200 (EventList l)
    ∧ (∀ id e n m, (id, e, n, m) ∈ l ↔
                   events st !! id = Some e
                   ∧ created_by_admin_id e = admin_id
                   ∧ n = count_applications st id
                   ∧ m = count_approved st id)
    ∧ (∀ id e n m, (id, e, n, m) ∈ l → (m ≤ n)%nat)
    ∧ Sorted (λ x y, event_date y.2 ≤ event_date x.2) (fst <$> (fst <$> l)).
Proof.
  intros [Hcheck Hid]%is_admin_check. unfold get_all_events.
  rewrite Hcheck, Hid. simpl. eexists. split; [reflexivity|].
  assert (Hin : ∀ id e n m,
    (id, e, n, m)
    ∈ map (λ r : Z * Event,
             (r.1, r.2, count_applications st r.1, count_approved st r.1))
        (order_by_desc (λ r : Z * Event, event_date r.2)
           (rows_where (λ e, created_by_admin_id e =? admin_id) (events st)))
    ↔ events st !! id = Some e
      ∧ created_by_admin_id e = admin_id
      ∧ n = count_applications st id
      ∧ m = count_approved st id).
  { intros id e n m. rewrite list_elem_of_fmap. split.
    - intros ([id' e'] & Heq & Hin). simplify_eq/=.
      apply elem_of_order_by_desc, elem_of_rows_where in Hin
        as [? ?%Z.eqb_eq]. done.
    - intros (He & Howner & -> & ->). exists (id, e). split; [done|].
      apply elem_of_order_by_desc, elem_of_rows_where.
      split; [done|]. by apply Z.eqb_eq. }
  split_and!.
  - exact Hin.
  - intros id e n m (_ & _ & -> & ->)%Hin. apply count_approved_le.
  - rewrite counted_rows.
    apply (order_by_desc_sorted (λ r : Z * Event, event_date r.2)).
Qed.

Lemma get_all_events_exact_witness :
  is_admin Sample.store "1" 1
  ∧ ∃ l,
      get_all_events Sample.store "1" = mkResponse 200 (EventList l)
      ∧ (∀ id e n m, (id, e, n, m) ∈ l ↔
                     events Sample.store !! id = Some e
                     ∧ created_by_admin_id e = 1
                     ∧ n = count_applications Sample.store id
                     ∧ m = count_approved Sample.store id)
      ∧ (∀ id e n m, (id, e, n, m) ∈ l → (m ≤ n)%nat)
      ∧ Sorted (λ x y, event_date y.2 ≤ event_date x.2) (fst <$> (fst <$> l)).
Proof.
  assert (Hadmin : is_admin Sample.store "1" 1).
  { split; [reflexivity|]. eexists. split; reflexivity. }
  split; [exact Hadmin|].
  exact (get_all_events_exact Sample.store "1" 1 Hadmin).
Defined.

(** X12.  Approval and listing compose.  When the first approval of an
    application by the owner of its event is answered 200, the payment
    that was created is in that admin's [get_all_payments], and no
    payment of the application is in the listing of any other admin. *)
Theorem first_approval_is_listed (bind : sqltype → json → option json)
    (st : db) (identity : string)
    (admin_id id : Z) (a : VendorApplication) (e : Event)
    (data : gmap string json) (now : datetime) :
  is_admin st identity admin_id →
  vendor_applications st !! id = Some a →
  events st !! event_id a = Some e →
  created_by_admin_id e = admin_id →
  data !! "status" = Some (JStr "approved") →
  payments_of st id = [] →
  status_code (review_application bind st identity id data now).1 = 200%nat →
  (∃ l, get_all_payments
          (review_application bind st identity id data now).2 identity
        = mkResponse 200 (PaymentList l)
        ∧ (next_id (payments st),
           new_payment id (app_vendor_id a) (vendor_fee e) now) ∈ l)
  ∧ (∀ identity' admin_id',
       is_admin st identity' admin_id' → admin_id' ≠ admin_id →
       ∃ l, get_all_payments
              (review_application bind st identity id data now).2 identity'
            = mkResponse 200 (PaymentList l)
            ∧ ∀ pid p, (pid, p) ∈ l → application_id p ≠ id).
Proof.
  intros Hadmin Ha He Howner Hstatus Hnil.
  assert (Hs : "approved" ∈ ["approved"; "rejected"]) by (by left).
  rewrite (review_application_owner bind _ _ _ _ _ _ _ "approved" now
             Hadmin Ha He Howner Hstatus Hs).
  destruct (reviewed_rows bind st id a e "approved" data admin_id now)
    as [[a' payments']|] eqn:Hrows; [|done].
  intros _.
  apply reviewed_rows_Some in Hrows as (n & _ & -> & Hcase).
  destruct Hcase as [(_ & _ & _ & ->)|[[?|?] _]]; [|done..].
  simpl.
  set (st' := mkDb _ _ _ _).
  assert (Hkeep : ∀ i k, is_admin st i k → is_admin st' i k).
  { intros i k [Hi Hu]. by split. }
  assert (Hchain : ∀ p, application_id p = id →
                        payment_owner st' p = Some admin_id).
  { intros p Hp. unfold payment_owner. rewrite Hp. subst st'. simpl.
    rewrite lookup_insert_eq. simpl. rewrite He. simpl. by rewrite Howner. }
  split.
  - destruct (get_all_payments_owned st' identity admin_id (Hkeep _ _ Hadmin))
      as (l & -> & Hl).
    exists l. split; [done|]. apply Hl. split.
    + subst st'. simpl. apply lookup_insert_eq.
    + by apply Hchain.
  - intros identity' admin_id' Hadmin' Hne.
    destruct (get_all_payments_owned st' identity' admin_id'
                (Hkeep _ _ Hadmin')) as (l & -> & Hl).
    exists l. split; [done|]. intros pid p [_ Howned]%Hl Hp.
    rewrite (Hchain p Hp) in Howned. congruence.
Qed.

Lemma first_approval_is_listed_witness :
  is_admin Sample.store "1" 1
  ∧ payments_of Sample.store 1 = []
  ∧ status_code
      (review_application Sample.bind Sample.store "1" 1
         {[ "status" := JStr "approved" ]} 50).1 = 200%nat
  ∧ ∃ l,
      get_all_payments
        (review_application Sample.bind Sample.store "1" 1
           {[ "status" := JStr "approved" ]} 50).2 "1"
      = mkResponse 200 (PaymentList l)
      ∧ (next_id (payments Sample.store),
         new_payment 1
           (app_vendor_id (Sample.application 3 1 "pending" None None))
           (vendor_fee (Sample.event 1 500)) 50) ∈ l.
Proof.
  assert (Hadmin : is_admin Sample.store "1" 1).
  { split; [reflexivity|]. eexists. split; reflexivity. }
  assert (H200 : status_code
                   (review_application Sample.bind Sample.store "1" 1
                      {[ "status" := JStr "approved" ]} 50).1 = 200%nat)
    by (vm_compute; reflexivity).
  split; [exact Hadmin|]. split; [reflexivity|]. split; [exact H200|].
  apply (first_approval_is_listed Sample.bind Sample.store "1" 1 1
           (Sample.application 3 1 "pending" None None) (Sample.event 1 500)
           {[ "status" := JStr "approved" ]} 50 Hadmin);
    first [exact H200 | reflexivity | vm_compute; reflexivity].
Defined.

(** ** The stored options and their parser *)

Section StoredOptions.
Import PyStr PyStrFacts.

Lemma is_code_strip c : is_code c → strip c = c ∧ upper c = c.
Proof.
  intros (_ & _ & Hc). unfold canonical in Hc.
  case_bool_decide as Halias.
  - subst c. exfalso. revert Halias. vm_compute.
    intros [H|[H|H]%elem_of_cons]%elem_of_cons;
      [discriminate|discriminate|by apply elem_of_nil in H].
  - split.
    + rewrite <- Hc at 1. by rewrite strip_upper, strip_idem.
    + rewrite <- Hc at 1. by rewrite upper_idem.
Qed.

Lemma is_code_not_alias c : is_code c → c ∉ ["EURO"; "EUROS"].
Proof.
  intros Hcode Hin. pose proof (is_code_strip c Hcode) as [Hs Hu].
  destruct Hcode as (_ & _ & Hc). unfold canonical in Hc.
  rewrite Hs, Hu in Hc. rewrite bool_decide_eq_true_2 in Hc by done.
  subst c. revert Hin. vm_compute.
  intros [H|[H|H]%elem_of_cons]%elem_of_cons;
    [discriminate|discriminate|by apply elem_of_nil in H].
Qed.

Lemma allowed_currencies_join cs :
  cs ≠ [] → Forall is_code cs → allowed_currencies (join cs) = cs.
Proof.
  intros Hne Hall. unfold allowed_currencies.
  rewrite split_join; [|done|].
  - induction Hall as [|c cs Hc Hcs IH]; [done|].
    simpl. rewrite (proj1 (is_code_strip c Hc)).
    rewrite filter_cons_True by (by destruct Hc).
    f_equal. destruct cs; [done|]. by apply IH.
  - eapply Forall_impl; [exact Hall|]. by intros c (_ & ? & _).
Qed.

Lemma option_values_codes raw :
  Forall (λ v, has_comma v = false) (option_values raw) →
  Forall is_code (currency_codes (option_values raw))
  ∧ NoDup (currency_codes (option_values raw)).
Proof. intros. apply fold_clean_step_inv; [done|constructor|constructor]. Qed.

Lemma normalize_with_codes raw d :
  truthy raw = true →
  currency_codes (option_values raw) ≠ [] →
  normalize_currency_options raw d
  = Some (join (currency_codes (option_values raw))).
Proof.
  intros Ht Hne. unfold normalize_currency_options. rewrite Ht. simpl.
  fold (option_values raw).
  by destruct (currency_codes (option_values raw)).
Qed.

Lemma normalize_fallback raw d :
  truthy raw = false ∨ currency_codes (option_values raw) = [] →
  normalize_currency_options raw d = py_upper d.
Proof.
  intros Hcase. unfold normalize_currency_options.
  destruct (truthy raw); simpl; [|done].
  destruct Hcase as [?|Hnil]; [done|].
  fold (option_values raw). rewrite Hnil.
  by destruct (py_upper d).
Qed.

End StoredOptions.

(** X13.  What is stored parses back.  When the options (a string, or a
    list whose elements hold no comma) yield at least one code,
    [normalize_currency_options] does not raise, and splitting its result
    the way [create_event] and [update_event] do gives back exactly the
    codes: none empty, all trimmed and in upper case, none of them EURO or
    EUROS, none twice. *)
Theorem stored_options_parse_back (raw d : json) :
  truthy raw = true →
  (∀ l, raw = JList l → Forall (λ v, PyStr.has_comma (py_str v) = false) l) →
  currency_codes (option_values raw) ≠ [] →
  ∃ o,
    normalize_currency_options raw d = Some o
    ∧ allowed_currencies o = currency_codes (option_values raw)
    ∧ NoDup (allowed_currencies o)
    ∧ Forall (λ c, c ≠ "" ∧ PyStr.strip c = c ∧ PyStr.upper c = c
                   ∧ c ∉ ["EURO"; "EUROS"])
        (allowed_currencies o).
Proof.
  intros Ht Hlist Hne.
  assert (Hcomma : Forall (λ v, PyStr.has_comma v = false) (option_values raw)).
  { destruct raw as [v|l]; simpl.
    - apply PyStrFacts.split_has_comma.
    - apply Forall_fmap. by apply Hlist. }
  destruct (option_values_codes raw Hcomma) as [Hall Hnd].
  exists (PyStr.join (currency_codes (option_values raw))).
  rewrite allowed_currencies_join by done.
  split_and!; [by apply normalize_with_codes|done|done|].
  eapply Forall_impl; [exact Hall|]. intros c Hc.
  pose proof (is_code_strip c Hc) as [? ?].
  pose proof (is_code_not_alias c Hc). by destruct Hc.
Qed.

Lemma stored_options_parse_back_witness :
  truthy (JList [SStr "Euros"; SStr " usd "; SStr "EUR"]) = true
  ∧ ∃ o,
      normalize_currency_options
        (JList [SStr "Euros"; SStr " usd "; SStr "EUR"]) (JStr "eur") = Some o
      ∧ allowed_currencies o
        = currency_codes
            (option_values (JList [SStr "Euros"; SStr " usd "; SStr "EUR"]))
      ∧ NoDup (allowed_currencies o)
      ∧ Forall (λ c, c ≠ "" ∧ PyStr.strip c = c ∧ PyStr.upper c = c
                     ∧ c ∉ ["EURO"; "EUROS"])
          (allowed_currencies o).
Proof.
  split; [reflexivity|].
  apply (stored_options_parse_back
           (JList [SStr "Euros"; SStr " usd "; SStr "EUR"]) (JStr "eur")).
  - reflexivity.
  - intros l [= <-]. repeat constructor.
  - vm_compute. discriminate.
Defined.

(** An element with a comma is kept as one code, so the stored string
    can hold a code twice. *)
Example normalize_list_with_comma :
  normalize_currency_options (JList [SStr "usd,eur"; SStr "USD"]) (JStr "usd")
  = Some "USD,EUR,USD".
Proof. vm_compute. reflexivity. Qed.

(** X14.  [normalize_currency_options] raises exactly when it has to fall
    back on a default that is not a string: the options are false (absent,
    empty) or yield no code, and [default_currency] has no [upper].  With
    a string default it always returns, and the result is the upper-cased
    default in the fallback case. *)
Theorem normalize_raises_iff (raw d : json) :
  (normalize_currency_options raw d = None ↔
   (truthy raw = false ∨ currency_codes (option_values raw) = [])
   ∧ ∀ s, d ≠ JStr s)
  ∧ (∀ s, d = JStr s →
          truthy raw = false ∨ currency_codes (option_values raw) = [] →
          normalize_currency_options raw d = Some (PyStr.upper s)).
Proof.
  split.
  - destruct (truthy raw) eqn:Ht.
    + destruct (currency_codes (option_values raw)) as [|c cs] eqn:Hc.
      * rewrite normalize_fallback by (right; done).
        split.
        -- intros Hnone. split; [by right|]. intros s ->. done.
        -- intros [_ Hd]. destruct d as [[| | |s]|]; try done.
           by destruct (Hd s).
      * rewrite normalize_with_codes by (by rewrite ?Hc). rewrite Hc.
        split; [done|]. intros [[?|?] _]; done.
    + rewrite normalize_fallback by (by left).
      split.
      * intros Hnone. split; [by left|]. intros s ->. done.
      * intros [_ Hd]. destruct d as [[| | |s]|]; try done.
        by destruct (Hd s).
  - intros s -> Hcase. by rewrite normalize_fallback.
Qed.

(** X15.  [update_payment_status] by the admin at the end of the payment's
    chain.  A body without [status] is answered 400 "Status is required",
    a status outside pending, completed, failed, refunded is answered 400
    "Invalid status", and nothing is written.  For any of the four
    statuses, whatever the current status is (there is no transition
    guard), the answer is 200 exactly when the database stores the values
    of [payment_method], [transaction_id] and [notes] that the body
    carries and a [transaction_id] that is written is held by no other
    payment; the call then stores the new status, the time of the update,
    and in the three columns what the database makes of the body's value,
    or the old value when the key is absent.  Otherwise the answer is 500
    and nothing is written. *)
Theorem update_payment_status_outcome (bind : sqltype → json → option json)
    (st : db) (identity : string)
    (admin_id pid : Z) (p : Payment) (data : gmap string json)
    (now : datetime) :
  is_admin st identity admin_id →
  payments st !! pid = Some p →
  payment_owner st p = Some admin_id →
  (data !! "status" = None →
   update_payment_status bind st identity pid data now
   = (error 400 "Status is required", st))
  ∧ (∀ v, data !! "status" = Some v →
          (∀ s, v = JStr s →
                s ∉ ["pending"; "completed"; "failed"; "refunded"]) →
          update_payment_status bind st identity pid data now
          = (error 400 "Invalid status", st))
  ∧ (∀ s, data !! "status" = Some (JStr s) →
          s ∈ ["pending"; "completed"; "failed"; "refunded"] →
          (status_code (update_payment_status bind st identity pid data now).1
           = 200%nat ↔
           ∃ method transaction notes',
             updated_column bind (SqlString 50) data "payment_method"
               (payment_method p) = Some method
             ∧ updated_column bind (SqlString 100) data "transaction_id"
                 (transaction_id p) = Some transaction
             ∧ updated_column bind SqlText data "notes" (notes p)
               = Some notes'
             ∧ (data !! "transaction_id" = None
                ∨ transaction_id_free (payments st) pid transaction = true))
          ∧ (∀ method transaction notes',
               status_code
                 (update_payment_status bind st identity pid data now).1
               = 200%nat →
               updated_column bind (SqlString 50) data "payment_method"
                 (payment_method p) = Some method →
               updated_column bind (SqlString 100) data "transaction_id"
                 (transaction_id p) = Some transaction →
               updated_column bind SqlText data "notes" (notes p)
               = Some notes' →
               ∃ p',
                 payments
                   (update_payment_status bind st identity pid data now).2
                   !! pid = Some p'
                 ∧ pay_status p' = s
                 ∧ pay_updated_at p' = now
                 ∧ payment_method p' = method
                 ∧ transaction_id p' = transaction
                 ∧ notes p' = notes')
          ∧ (status_code
               (update_payment_status bind st identity pid data now).1
             ≠ 200%nat →
             update_payment_status bind st identity pid data now
             = (server_error, st))).
Proof.
  intros Hadmin Hp Howner.
  pose proof (is_admin_check _ _ _ Hadmin) as [Hcheck Hid].
  split_and!.
  - intros Hnone. unfold update_payment_status.
    rewrite Hcheck, Hp, Hid, Howner, Hnone. simpl.
    by rewrite bool_decide_eq_true_2.
  - intros v Hv Hbad. unfold update_payment_status.
    rewrite Hcheck, Hp, Hid, Howner, Hv. simpl.
    rewrite bool_decide_eq_true_2 by done. simpl.
    destruct v as [[| | |s]|]; try done.
    rewrite bool_decide_eq_false_2; [done|]. by apply Hbad.
  - intros s Hs Hin.
    rewrite (update_payment_status_owner bind _ _ _ _ _ _ s now
               Hadmin Hp Howner Hs Hin).
    destruct (stored_payment bind (payments st) pid p s data now)
      as [p'|] eqn:Hstored; simpl.
    + apply stored_payment_Some in Hstored
        as (method & transaction & notes' & Hm & Ht & Hn & Hfree & ->).
      split_and!.
      * split; [|done]. intros _. exists method, transaction, notes'. done.
      * intros m t n _ Hm' Ht' Hn'.
        rewrite Hm in Hm'. rewrite Ht in Ht'. rewrite Hn in Hn'.
        injection Hm' as <-. injection Ht' as <-. injection Hn' as <-.
        eexists. split; [apply lookup_insert_eq|]. done.
      * done.
    + split_and!; [|done|done].
      split; [done|]. intros (method & transaction & notes' & Hm & Ht & Hn & Hfree).
      assert (is_Some (stored_payment bind (payments st) pid p s data now))
        as [? Hsome]; [|congruence].
      eexists. apply stored_payment_Some.
      exists method, transaction, notes'. done.
Qed.

Lemma update_payment_status_outcome_witness :
  is_admin Sample.store "2" 2
  ∧ pay_status <$> payments Sample.store !! 1 = Some "pending"
  ∧ status_code
      (update_payment_status Sample.bind Sample.store "2" 1
         {[ "status" := JStr "refunded"; "notes" := JStr "returned" ]} 80).1
    = 200%nat
  ∧ ∃ p',
      payments
        (update_payment_status Sample.bind Sample.store "2" 1
           {[ "status" := JStr "refunded"; "notes" := JStr "returned" ]} 80).2
        !! 1 = Some p'
      ∧ pay_status p' = "refunded"
      ∧ pay_updated_at p' = 80
      ∧ payment_method p' = payment_method Sample.payment
      ∧ transaction_id p' = transaction_id Sample.payment
      ∧ notes p' = JStr "returned".
Proof.
  assert (Hadmin : is_admin Sample.store "2" 2).
  { split; [reflexivity|]. eexists. split; reflexivity. }
  assert (H200 : status_code
      (update_payment_status Sample.bind Sample.store "2" 1
         {[ "status" := JStr "refunded"; "notes" := JStr "returned" ]} 80).1
    = 200%nat) by (vm_compute; reflexivity).
  assert (Hs : ({[ "status" := JStr "refunded"; "notes" := JStr "returned" ]}
                : gmap string json) !! "status" = Some (JStr "refunded"))
    by (vm_compute; reflexivity).
  assert (Hin : "refunded" ∈ ["pending"; "completed"; "failed"; "refunded"])
    by (right; right; right; left).
  split; [exact Hadmin|]. split; [reflexivity|]. split; [exact H200|].
  apply (proj1 (proj2 (proj2 (proj2
    (update_payment_status_outcome Sample.bind Sample.store "2" 2 1
       Sample.payment
       {[ "status" := JStr "refunded"; "notes" := JStr "returned" ]} 80
       Hadmin eq_refl eq_refl)) "refunded" Hs Hin)));
    first [exact H200 | vm_compute; reflexivity].
Defined.

(** A list cannot be stored in a column, and a transaction id that
    another payment holds cannot be used again: both are answered 500. *)
Example update_payment_status_flush_raises :
  update_payment_status Sample.bind Sample.store "2" 1
    {[ "status" := JStr "completed"; "notes" := JList [SStr "paid"] ]} 80
  = (server_error, Sample.store)
  ∧ (let st1 :=
       (update_payment_status Sample.bind
          (set_payments Sample.store
             (<[2 := Sample.payment]> (payments Sample.store))) "2" 2
          {[ "status" := JStr "completed";
             "transaction_id" := JStr "TXN1" ]} 80).2 in
     transaction_id <$> payments st1 !! 2 = Some (JStr "TXN1")
     ∧ update_payment_status Sample.bind st1 "2" 1
         {[ "status" := JStr "completed";
            "transaction_id" := JStr "TXN1" ]} 90
       = (server_error, st1)).
Proof. vm_compute. done. Qed.

(** ** The identity of a token *)

Section Identity.
Import PyStr.

Lemma is_int_space_is_space c : is_int_space c = true → is_space c = true.
Proof. destruct c as [[] [] [] [] [] [] [] []]; vm_compute; done. Qed.

Lemma int_strip_no_space s : no_space s = true → int_strip s = s.
Proof.
  assert (Hc : ∀ c, negb (is_space c) = true → is_int_space c = false).
  { intros c Hc. destruct (is_int_space c) eqn:E; [|done].
    apply is_int_space_is_space in E. by rewrite E in Hc. }
  intros Hs. unfold int_strip.
  assert (Hl : int_lstrip s = s).
  { destruct s as [|c s]; [done|]. simpl in *.
    apply andb_true_iff in Hs as [Hs _]. by rewrite (Hc _ Hs). }
  rewrite Hl. induction s as [|c s IH]; [done|].
  simpl in *. apply andb_true_iff in Hs as [Hs Hs'].
  rewrite IH; [|done|].
  - destruct s; [|done]. by rewrite (Hc _ Hs).
  - destruct s as [|c' s]; [done|]. simpl in *.
    apply andb_true_iff in Hs' as [Hs' _]. by rewrite (Hc _ Hs').
Qed.

Lemma is_digits_no_space s : is_digits s = true → no_space s = true.
Proof.
  induction s as [|c s IH]; [done|]. simpl.
  intros [Hc Hs]%andb_true_iff. rewrite IH by done.
  rewrite andb_true_r. apply bool_decide_eq_true in Hc.
  revert Hc. destruct c as [[] [] [] [] [] [] [] []]; vm_compute;
    first [done | by intros [? ?]].
Qed.

Lemma digit_of_pretty_N_char d :
  (d < 10)%N → digit_of (pretty_N_char d) = Some (Z.of_N d).
Proof.
  intros Hd.
  assert (d = 0 ∨ d = 1 ∨ d = 2 ∨ d = 3 ∨ d = 4 ∨ d = 5 ∨ d = 6 ∨ d = 7
          ∨ d = 8 ∨ d = 9)%N as Hcases by lia.
  repeat (destruct Hcases as [->|Hcases]; [reflexivity|]). by subst.
Qed.

Lemma pretty_N_go_digits x s :
  is_digits s = true → is_digits (pretty_N_go x s) = true.
Proof.
  revert s. induction (N.lt_wf_0 x) as [x _ IH]. intros s Hs.
  destruct (decide (x = 0)%N) as [->|Hx]; [by rewrite pretty_N_go_0|].
  rewrite pretty_N_go_step by lia. apply IH.
  - apply N.div_lt; lia.
  - simpl. rewrite Hs, andb_true_r. apply bool_decide_eq_true.
    rewrite digit_of_pretty_N_char; [eauto|]. by apply N.mod_lt.
Qed.

Lemma pretty_N_go_not_empty x s : s ≠ "" → pretty_N_go x s ≠ "".
Proof.
  revert s. induction (N.lt_wf_0 x) as [x _ IH]. intros s Hs.
  destruct (decide (x = 0)%N) as [->|Hx]; [by rewrite pretty_N_go_0|].
  rewrite pretty_N_go_step by lia. apply IH; [apply N.div_lt; lia|done].
Qed.

(** Reading the digits of [x] from the accumulator 0 gives [x]. *)
Lemma py_digits_pretty_N_go x s b :
  py_digits 0 b (pretty_N_go x s)
  = py_digits (Z.of_N x) (b || bool_decide (x ≠ 0%N)) s.
Proof.
  revert s b. induction (N.lt_wf_0 x) as [x _ IH]. intros s b.
  destruct (decide (x = 0)%N) as [->|Hx].
  - rewrite pretty_N_go_0. simpl. by rewrite orb_false_r.
  - rewrite pretty_N_go_step by lia.
    rewrite IH by (apply N.div_lt; lia). simpl.
    rewrite digit_of_pretty_N_char by (by apply N.mod_lt).
    rewrite (bool_decide_eq_true_2 (x ≠ 0%N)) by done.
    rewrite orb_true_r. f_equal.
    rewrite (N.div_mod x 10) at 3 by done. lia.
Qed.

Lemma py_int_digits c r :
  is_digits (String c r) = true →
  py_int (String c r) = py_digits 0 false (String c r).
Proof.
  intros Hd. unfold py_int.
  rewrite int_strip_no_space by (by apply is_digits_no_space).
  simpl in Hd. apply andb_true_iff in Hd as [Hc _].
  apply bool_decide_eq_true in Hc. revert Hc.
  destruct c as [[] [] [] [] [] [] [] []]; vm_compute;
    first [by intros [? ?] | reflexivity].
Qed.

Lemma py_int_minus r :
  no_space r = true →
  py_int (String "-" r) = Z.opp <$> py_digits 0 false r.
Proof.
  intros Hr. unfold py_int. by rewrite int_strip_no_space.
Qed.

Lemma py_int_pretty_N x :
  py_int (pretty x) = Some (Z.of_N x).
Proof.
  unfold pretty, pretty_N. case_decide as Hx; [by subst|].
  assert (Hd : is_digits (pretty_N_go x "") = true)
    by (by apply pretty_N_go_digits).
  destruct (pretty_N_go x "") as [|c r] eqn:E.
  { pose proof (pretty_N_go_step x "" ltac:(lia)) as Hstep.
    rewrite E in Hstep. symmetry in Hstep.
    by apply pretty_N_go_not_empty in Hstep. }
  rewrite py_int_digits by done. rewrite <- E.
  rewrite py_digits_pretty_N_go. simpl.
  by rewrite bool_decide_eq_true_2.
Qed.

Lemma py_int_pretty_Z (n : Z) : py_int (pretty n) = Some n.
Proof.
  destruct n as [|x|x]; [reflexivity|..].
  - change (pretty (Z.pos x)) with (pretty (N.pos x)).
    by rewrite py_int_pretty_N.
  - change (pretty (Z.neg x)) with ("-" +:+ pretty (N.pos x)).
    unfold pretty, pretty_N. rewrite decide_False by done.
    assert (Hd : is_digits (pretty_N_go (N.pos x) "") = true)
      by (by apply pretty_N_go_digits).
    change ("-" +:+ pretty_N_go (N.pos x) "")
      with (String "-" (pretty_N_go (N.pos x) "")).
    rewrite py_int_minus by (by apply is_digits_no_space).
    rewrite py_digits_pretty_N_go. simpl. done.
Qed.

End Identity.

(** X16.  The identity a token is created with, [str(user.id)], is read
    back by [_current_user_id] as that id: [int(str(n)) == n]. *)
Theorem identity_round_trip (n : Z) :
  _current_user_id (py_str (SInt n)) = Some n.
Proof. apply py_int_pretty_Z. Qed.

(** X17.  Login and the authenticated calls compose.  When [login]
    answers 200 it does so for a stored, active user, with the token
    created for the identity [str(user.id)]; with that identity
    [get_current_user] answers 200 with the same user, and the admin
    handlers take the caller for an admin exactly when the user's role is
    admin. *)
Theorem login_identity_resolves
    (check_password_hash : string → string → bool)
    (create_access_token : string → string)
    (repr_list : list scalar → string)
    (st : db) (data : gmap string json) :
  status_code (login check_password_hash create_access_token repr_list st data)
  = 200%nat →
  ∃ id u,
    users st !! id = Some u
    ∧ is_active u = true
    ∧ login check_password_hash create_access_token repr_list st data
      = mkResponse 200
          (LoggedIn "Login successful" (id, u)
             (create_access_token (py_str (SInt id))))
    ∧ get_current_user st (py_str (SInt id)) = Returned 200 (id, u)
    ∧ check_admin st (py_str (SInt id)) = String.eqb (role u) "admin"
    ∧ (role u = "admin" → is_admin st (py_str (SInt id)) id).
Proof.
  unfold login.
  destruct (_ || _); [done|].
  destruct (user_by_email st (default JNone (data !! "email")))
    as [[id u]|] eqn:Hfound; [|done].
  assert (Hu : users st !! id = Some u).
  { unfold user_by_email in Hfound.
    by apply head_Some_elem_of, elem_of_rows_where in Hfound as [? _]. }
  destruct (default JNone (data !! "password")) as [[| | |pw]|]; try done.
  destruct (check_password_hash (password_hash u) pw); [|done]. cbn [negb].
  destruct (is_active u) eqn:Hactive; [|done]. cbn [negb].
  destruct (_ && _); [done|]. intros _.
  exists id, u.
  assert (Hid : _current_user_id (py_str (SInt id)) = Some id)
    by apply py_int_pretty_Z.
  split_and!; try done.
  - unfold get_current_user. by rewrite Hid, Hu.
  - unfold check_admin. by rewrite Hid, Hu.
  - intros Hrole. split; [done|]. eauto.
Qed.

Lemma login_identity_resolves_witness :
  status_code
    (login Sample.check_password_hash Sample.create_access_token
       Sample.repr_list Sample.store
       {[ "email" := JStr "a@example.org";
          "password" := JStr "a@example.org" ]}) = 200%nat
  ∧ ∃ id u,
      users Sample.store !! id = Some u
      ∧ is_active u = true
      ∧ login Sample.check_password_hash Sample.create_access_token
          Sample.repr_list Sample.store
          {[ "email" := JStr "a@example.org";
             "password" := JStr "a@example.org" ]}
        = mkResponse 200
            (LoggedIn "Login successful" (id, u)
               (Sample.create_access_token (py_str (SInt id))))
      ∧ get_current_user Sample.store (py_str (SInt id)) = Returned 200 (id, u)
      ∧ check_admin Sample.store (py_str (SInt id))
        = String.eqb (role u) "admin"
      ∧ (role u = "admin" → is_admin Sample.store (py_str (SInt id)) id).
Proof.
  assert (H200 : status_code
            (login Sample.check_password_hash Sample.create_access_token
               Sample.repr_list Sample.store
               {[ "email" := JStr "a@example.org";
                  "password" := JStr "a@example.org" ]}) = 200%nat)
    by (vm_compute; reflexivity).
  split; [exact H200|].
  exact (login_identity_resolves Sample.check_password_hash
           Sample.create_access_token Sample.repr_list Sample.store
           {[ "email" := JStr "a@example.org";
              "password" := JStr "a@example.org" ]} H200).
Defined.

(** X18.  [get_all_vendors] is not scoped by ownership: any admin gets
    every user with role vendor, each once, newest account first, and no
    user with another role. *)
Theorem get_all_vendors_exact (st : db) (identity : string) (admin_id : Z) :
  is_admin st identity admin_id →
  ∃ l,
    get_all_vendors st identity = Returned 200 l
    ∧ (∀ id u, (id, u) ∈ l ↔ users st !! id = Some u ∧ role u = "vendor")
    ∧ NoDup l
    ∧ Sorted (λ x y, user_created_at y.2 ≤ user_created_at x.2) l.
Proof.
  intros [Hcheck _]%is_admin_check. unfold get_all_vendors.
  rewrite Hcheck. simpl. eexists. split; [reflexivity|]. split_and!.
  - intros id u. rewrite elem_of_order_by_desc, elem_of_rows_where.
    by rewrite String.eqb_eq.
  - rewrite order_by_desc_perm. apply rows_where_NoDup.
  - apply (order_by_desc_sorted (λ r : Z * User, user_created_at r.2)).
Qed.

Lemma get_all_vendors_exact_witness :
  is_admin Sample.store "1" 1
  ∧ ∃ l,
      get_all_vendors Sample.store "1" = Returned 200 l
      ∧ (∀ id u, (id, u) ∈ l ↔
                 users Sample.store !! id = Some u ∧ role u = "vendor")
      ∧ NoDup l
      ∧ Sorted (λ x y, user_created_at y.2 ≤ user_created_at x.2) l.
Proof.
  assert (Hadmin : is_admin Sample.store "1" 1).
  { split; [reflexivity|]. eexists. split; reflexivity. }
  split; [exact Hadmin|].
  exact (get_all_vendors_exact Sample.store "1" 1 Hadmin).
Defined.

Section PublicEvents.

Lemma order_by_asc_sorted {A} (key : A → Z) (l : list A) :
  Sorted (λ x y, key x ≤ key y) (order_by_asc key l).
Proof.
  unfold order_by_asc.
  assert (Total (λ x y : A, key x ≤ key y)) by (intros x y; lia).
  by apply Sorted_merge_sort.
Qed.

Lemma order_by_asc_perm {A} (key : A → Z) (l : list A) :
  order_by_asc key l ≡ₚ l.
Proof. unfold order_by_asc. apply merge_sort_Permutation. Qed.

End PublicEvents.

(** X19.  [public_events] needs no token and is not scoped by owner: it
    answers 200 with exactly the events whose status is upcoming or
    ongoing, of every admin, each once, earliest date first. *)
Theorem public_events_exact (st : db) :
  ∃ l,
    public_events st = Returned 200 l
    ∧ (∀ id e, (id, e) ∈ l ↔
               events st !! id = Some e
               ∧ (event_status e = JStr "upcoming"
                  ∨ event_status e = JStr "ongoing"))
    ∧ NoDup l
    ∧ Sorted (λ x y, event_date x.2 ≤ event_date y.2) l.
Proof.
  unfold public_events. eexists. split; [reflexivity|]. split_and!.
  - intros id e. rewrite order_by_asc_perm, elem_of_rows_where.
    rewrite bool_decide_eq_true, elem_of_cons, list_elem_of_singleton. done.
  - rewrite order_by_asc_perm. apply rows_where_NoDup.
  - apply (order_by_asc_sorted (λ r : Z * Event, event_date r.2)).
Qed.

Section Reports.

Lemma sum_list_indicator_absent (x : string) (ks : list string) :
  x ∉ ks →
  sum_list (map (λ s, if decide (x = s) then 1%nat else 0%nat) ks) = 0%nat.
Proof.
  induction ks as [|k ks IH]; [done|].
  intros [Hne Hnot]%not_elem_of_cons. simpl.
  rewrite decide_False by done. by rewrite IH.
Qed.

Lemma sum_list_indicator (x : string) (ks : list string) :
  NoDup ks → x ∈ ks →
  sum_list (map (λ s, if decide (x = s) then 1%nat else 0%nat) ks) = 1%nat.
Proof.
  induction 1 as [|k ks Hk Hnd IH]; [by intros ?%elem_of_nil|].
  intros Hin. simpl. destruct (decide (x = k)) as [->|Hne].
  - by rewrite sum_list_indicator_absent.
  - apply elem_of_cons in Hin as [?|Hin]; [done|]. by rewrite IH.
Qed.

Lemma group_sizes {A} (key : A → string) (ks : list string) (l : list A) :
  NoDup ks → (∀ r, r ∈ l → key r ∈ ks) →
  sum_list (map (λ s, List.length (filter (λ r, key r = s) l)) ks)
  = List.length l.
Proof.
  intros Hnd. induction l as [|r l IH]; intros Hall.
  - clear. induction ks as [|k ks IH]; [done|]. simpl in *. done.
  - assert (Hstep :
      sum_list (map (λ s, List.length (filter (λ r, key r = s) (r :: l))) ks)
      = (sum_list (map (λ s, if decide (key r = s) then 1%nat else 0%nat) ks)
         + sum_list (map (λ s, List.length (filter (λ r, key r = s) l)) ks))%nat).
    { clear. induction ks as [|k ks IH]; [done|]. simpl.
      rewrite IH, filter_cons. destruct (decide (key r = k)); simpl; lia. }
    rewrite Hstep, sum_list_indicator, IH; simpl; [done| |done|].
    + intros r' Hr'. apply Hall. by right.
    + apply Hall. by left.
Qed.

Lemma elem_of_keys {A} (key : A → string) (s : string) (l : list A) :
  s ∈ map key l ↔ (0 < List.length (filter (λ r, key r = s) l))%nat.
Proof.
  split.
  - intros (r & -> & Hr)%list_elem_of_fmap.
    assert (Hin : r ∈ filter (λ r', key r' = key r) l)
      by (by apply list_elem_of_filter).
    destruct (filter _ l); [by apply elem_of_nil in Hin|simpl; lia].
  - intros Hlen.
    destruct (filter (λ r, key r = s) l) as [|r l'] eqn:E; [simpl in Hlen; lia|].
    assert (Hin : r ∈ filter (λ r, key r = s) l) by (rewrite E; left).
    apply list_elem_of_filter in Hin as [<- Hin].
    apply list_elem_of_fmap. eauto.
Qed.

Lemma group_by_status_keys rows :
  (group_by_status rows).*1 = remove_dups (map (λ r, app_status r.2) rows).
Proof.
  unfold group_by_status.
  induction (remove_dups _) as [|k ks IH]; [done|]. simpl in *. by f_equal.
Qed.

Lemma group_by_status_counts rows :
  (group_by_status rows).*2
  = map (λ s, List.length (filter (λ r, app_status r.2 = s) rows))
      (remove_dups (map (λ r, app_status r.2) rows)).
Proof.
  unfold group_by_status.
  induction (remove_dups _) as [|k ks IH]; [done|]. simpl in *. by f_equal.
Qed.

Lemma elem_of_group_by_status rows s n :
  (s, n) ∈ group_by_status rows ↔
  (0 < n)%nat
  ∧ n = List.length (filter (λ r, app_status r.2 = s) rows).
Proof.
  unfold group_by_status. rewrite list_elem_of_fmap. split.
  - intros (s' & [= -> ->] & Hin).
    rewrite elem_of_remove_dups in Hin.
    by apply (elem_of_keys (λ r : Z * VendorApplication, app_status r.2)) in Hin.
  - intros [Hpos ->]. exists s. split; [done|].
    rewrite elem_of_remove_dups.
    by apply (elem_of_keys (λ r : Z * VendorApplication, app_status r.2)).
Qed.

End Reports.

(** X20.  [get_applications_by_status] counts the applications to the
    caller's own events only: each status that occurs among them is
    reported once, with the number of those applications, no status is
    reported with count zero, and the counts add up to the number of
    applications the admin owns. *)
Theorem applications_by_status_exact
    (st : db) (identity : string) (admin_id : Z) :
  is_admin st identity admin_id →
  ∃ l,
    get_applications_by_status st identity = Returned 200 l
    ∧ NoDup (l.*1)
    ∧ (∀ s n, (s, n) ∈ l ↔
              (0 < n)%nat
              ∧ n = List.length
                      (filter (λ r, app_status r.2 = s)
                         (owned_applications st admin_id)))
    ∧ sum_list (l.*2) = List.length (owned_applications st admin_id).
Proof.
  intros [Hcheck Hid]%is_admin_check. unfold get_applications_by_status.
  rewrite Hcheck, Hid. simpl. eexists. split; [reflexivity|]. split_and!.
  - rewrite group_by_status_keys. apply NoDup_remove_dups.
  - apply elem_of_group_by_status.
  - rewrite group_by_status_counts.
    apply (group_sizes (λ r : Z * VendorApplication, app_status r.2)).
    + apply NoDup_remove_dups.
    + intros r Hr. rewrite elem_of_remove_dups. apply list_elem_of_fmap. eauto.
Qed.

Lemma applications_by_status_exact_witness :
  is_admin Sample.store "2" 2
  ∧ ∃ l,
      get_applications_by_status Sample.store "2" = Returned 200 l
      ∧ NoDup (l.*1)
      ∧ (∀ s n, (s, n) ∈ l ↔
                (0 < n)%nat
                ∧ n = List.length
                        (filter (λ r, app_status r.2 = s)
                           (owned_applications Sample.store 2)))
      ∧ sum_list (l.*2) = List.length (owned_applications Sample.store 2).
Proof.
  assert (Hadmin : is_admin Sample.store "2" 2).
  { split; [reflexivity|]. eexists. split; reflexivity. }
  split; [exact Hadmin|].
  exact (applications_by_status_exact Sample.store "2" 2 Hadmin).
Defined.

Section DashboardFacts.

Lemma length_filter_disjoint {A} (P Q : A → Prop)
    `{!∀ x, Decision (P x)} `{!∀ x, Decision (Q x)} (l : list A) :
  (∀ x, P x → Q x → False) →
  (List.length (filter P l) + List.length (filter Q l) ≤ List.length l)%nat.
Proof.
  intros Hdisj. induction l as [|x l IH]; [done|].
  rewrite !filter_cons.
  destruct (decide (P x)), (decide (Q x)); simpl; try lia.
  by destruct (Hdisj x).
Qed.

Lemma length_filter_disjoint3 {A} (P Q R : A → Prop)
    `{!∀ x, Decision (P x)} `{!∀ x, Decision (Q x)}
    `{!∀ x, Decision (R x)} (l : list A) :
  (∀ x, P x → Q x → False) → (∀ x, P x → R x → False) →
  (∀ x, Q x → R x → False) →
  (List.length (filter P l) + List.length (filter Q l)
   + List.length (filter R l) ≤ List.length l)%nat.
Proof.
  intros HPQ HPR HQR. induction l as [|x l IH]; [done|].
  rewrite !filter_cons.
  destruct (decide (P x)), (decide (Q x)), (decide (R x)); simpl; try lia.
  - by destruct (HPQ x).
  - by destruct (HPQ x).
  - by destruct (HPR x).
  - by destruct (HQR x).
Qed.

Lemma rows_with_length_mono {A} (P Q : Z → A → bool) (m : gmap Z A) :
  (∀ k x, P k x = true → Q k x = true) →
  (List.length (rows_with P m) ≤ List.length (rows_with Q m))%nat.
Proof.
  intros Himp. unfold rows_with.
  induction (map_to_list m) as [|r l IH]; [done|].
  rewrite !filter_cons.
  destruct (decide (P r.1 r.2 = true)) as [HP|HP].
  - rewrite decide_True by by apply Himp. simpl. lia.
  - destruct (decide (Q r.1 r.2 = true)); simpl; lia.
Qed.

(** The applications selected by [event_id IN owned_event_ids] are the
    applications selected by the join with the admin's events. *)
Lemma owned_by_event_ids st admin_id :
  rows_where
    (λ a, bool_decide
            (event_id a
             ∈ map fst (rows_where (λ e, created_by_admin_id e =? admin_id)
                          (events st))))
    (vendor_applications st)
  = owned_applications st admin_id.
Proof.
  unfold owned_applications, rows_where at 1 3.
  apply list_filter_iff. intros [k a]. simpl.
  rewrite bool_decide_eq_true, list_elem_of_fmap. split.
  - intros ([k' e] & -> & [He Hown]%elem_of_rows_where).
    simpl. by rewrite He.
  - destruct (events st !! event_id a) as [e|] eqn:He; [|done].
    intros Hown. exists (event_id a, e). split; [done|].
    by apply elem_of_rows_where.
Qed.

Lemma owned_applications_without_events st admin_id :
  rows_where (λ e, created_by_admin_id e =? admin_id) (events st) = [] →
  owned_applications st admin_id = [].
Proof.
  intros Hnone. rewrite <- owned_by_event_ids, Hnone. simpl.
  by apply rows_where_nil.
Qed.

End DashboardFacts.

(** X21.  The dashboard of an admin agrees with the admin's listings.
    When [get_admin_dashboard_stats] answers 200, the number of
    applications is the number of applications to the admin's events, the
    number of events is the length of the list [get_all_events] returns to
    the same admin, the counts by status and by week never exceed their
    totals, and the number of inactive vendors is not negative. *)
Theorem dashboard_agrees_with_listings
    (timedelta_days : Z → Z) (st : db) (identity : string) (admin_id : Z)
    (now : datetime) (d : dashboard) :
  is_admin st identity admin_id →
  get_admin_dashboard_stats timedelta_days st identity now = Returned 200 d →
  applications_total d = List.length (owned_applications st admin_id)
  ∧ (∃ l, get_all_events st identity = mkResponse 200 (EventList l)
          ∧ events_total d = List.length l)
  ∧ (applications_pending d + applications_approved d
     + applications_rejected d ≤ applications_total d)%nat
  ∧ (applications_new_this_week d ≤ applications_total d)%nat
  ∧ (events_upcoming d + events_ongoing d ≤ events_total d)%nat
  ∧ (vendors_active d ≤ vendors_total d)%nat
  ∧ (vendors_new_this_week d ≤ vendors_total d)%nat
  ∧ 0 ≤ vendors_inactive d.
Proof.
  intros [Hcheck Hid]%is_admin_check. unfold get_admin_dashboard_stats.
  rewrite Hcheck, Hid. cbn [negb].
  set (owned_events :=
         rows_where (λ e, created_by_admin_id e =? admin_id) (events st)).
  set (owned_apps :=
         match map fst owned_events with
         | [] => []
         | _ :: _ =>
             rows_where
               (λ a, bool_decide (event_id a ∈ map fst owned_events))
               (vendor_applications st)
         end).
  assert (Happs : owned_apps = owned_applications st admin_id).
  { unfold owned_apps. destruct (map fst owned_events) eqn:E.
    - symmetry. apply owned_applications_without_events.
      fold owned_events. by destruct owned_events.
    - rewrite <- E. apply owned_by_event_ids. }
  set (vendors := λ P : User → bool,
         match map (λ r : Z * VendorApplication, app_vendor_id r.2) owned_apps
         with
         | [] => 0%nat
         | _ :: _ =>
             List.length
               (rows_with
                  (λ id u, String.eqb (role u) "vendor" && P u
                           && bool_decide
                                (id ∈ map (λ r : Z * VendorApplication,
                                             app_vendor_id r.2) owned_apps))
                  (users st))
         end).
  assert (Hvendors : ∀ P, (vendors P ≤ vendors (λ _, true))%nat).
  { intros P. unfold vendors. destruct (map _ owned_apps); [done|].
    apply rows_with_length_mono. intros k x.
    rewrite !andb_true_iff. tauto. }
  destruct (py_sum _) as [total|]; [|done].
  destruct (py_sum _) as [pending|]; [|done].
  intros [= <-]. cbn [applications_total applications_pending
    applications_approved applications_rejected applications_new_this_week
    events_total events_upcoming events_ongoing vendors_total vendors_active
    vendors_new_this_week vendors_inactive].
  split_and!.
  - by rewrite Happs.
  - unfold get_all_events. rewrite Hcheck, Hid. cbn [negb].
    eexists. split; [reflexivity|].
    rewrite length_map.
    apply Permutation_length. symmetry. apply order_by_desc_perm.
  - apply length_filter_disjoint3; intros x H1 H2; by rewrite H1 in H2.
  - apply length_filter.
  - apply length_filter_disjoint. intros x [H1 _] H2. by rewrite H1 in H2.
  - apply Hvendors.
  - apply Hvendors.
  - change (0 ≤ Z.of_nat (vendors (λ _, true)) - Z.of_nat (vendors is_active)).
    pose proof (Hvendors is_active). lia.
Qed.

Lemma dashboard_agrees_with_listings_witness :
  is_admin Sample.store "2" 2
  ∧ get_admin_dashboard_stats (λ n, n * 86400) Sample.store "2" 1000
    = Returned 200 (mkDashboard 1 1 0 1 1 0 1 0 1 1 0 0 0 750)
  ∧ 1%nat = List.length (owned_applications Sample.store 2)
  ∧ (∃ l, get_all_events Sample.store "2" = mkResponse 200 (EventList l)
          ∧ 1%nat = List.length l)
  ∧ (0 + 1 + 0 ≤ 1)%nat
  ∧ (1 ≤ 1)%nat
  ∧ (0 + 0 ≤ 1)%nat
  ∧ (1 ≤ 1)%nat
  ∧ (1 ≤ 1)%nat
  ∧ 0 ≤ 0.
Proof.
  assert (Hadmin : is_admin Sample.store "2" 2).
  { split; [reflexivity|]. eexists. split; reflexivity. }
  assert (Hd : get_admin_dashboard_stats (λ n, n * 86400) Sample.store "2" 1000
               = Returned 200 (mkDashboard 1 1 0 1 1 0 1 0 1 1 0 0 0 750))
    by (vm_compute; reflexivity).
  split; [exact Hadmin|]. split; [exact Hd|].
  exact (dashboard_agrees_with_listings (λ n, n * 86400) Sample.store
           "2" 2 1000 _ Hadmin Hd).
Defined.

(** X22.  An admin who owns no event gets a dashboard of zeros, whatever
    the other admins' events, applications and payments are. *)
Theorem dashboard_without_events
    (timedelta_days : Z → Z) (st : db) (identity : string) (admin_id : Z)
    (now : datetime) :
  is_admin st identity admin_id →
  (∀ id e, events st !! id = Some e → created_by_admin_id e ≠ admin_id) →
  get_admin_dashboard_stats timedelta_days st identity now
  = Returned 200 (mkDashboard 0 0 0 0 0 0 0 0 0 0 0 0 0 0).
Proof.
  intros [Hcheck Hid]%is_admin_check Hnone.
  assert (Hevents :
    rows_where (λ e, created_by_admin_id e =? admin_id) (events st) = []).
  { apply rows_where_nil. intros k e He. apply Z.eqb_neq. eauto. }
  assert (Hpayments :
    rows_where (λ p, bool_decide (payment_owner st p = Some admin_id))
      (payments st) = []).
  { apply rows_where_nil. intros k p _. apply bool_decide_eq_false_2.
    unfold payment_owner.
    destruct (vendor_applications st !! application_id p) as [a|]; [|done].
    simpl. destruct (events st !! event_id a) as [e|] eqn:He; [|done].
    simpl. intros [= Hown]. by apply (Hnone _ _ He). }
  unfold get_admin_dashboard_stats.
  rewrite Hcheck, Hid. cbv zeta. rewrite Hevents, Hpayments. reflexivity.
Qed.

Lemma dashboard_without_events_witness :
  is_admin
    (set_users Sample.store
       (<[5 := Sample.user "c@example.org" "admin" true]>
          (users Sample.store))) "5" 5
  ∧ get_admin_dashboard_stats (λ n, n * 86400)
      (set_users Sample.store
         (<[5 := Sample.user "c@example.org" "admin" true]>
            (users Sample.store))) "5" 1000
    = Returned 200 (mkDashboard 0 0 0 0 0 0 0 0 0 0 0 0 0 0).
Proof.
  assert (Hadmin :
    is_admin
      (set_users Sample.store
         (<[5 := Sample.user "c@example.org" "admin" true]>
            (users Sample.store))) "5" 5).
  { split; [reflexivity|]. eexists. split; reflexivity. }
  split; [exact Hadmin|].
  apply (dashboard_without_events _ _ "5" 5 1000 Hadmin).
  intros id e He.
  assert (Hrows :
    rows_where (λ e, created_by_admin_id e =? 5) (events Sample.store) = [])
    by (vm_compute; reflexivity).
  apply Z.eqb_neq. exact (proj1 (rows_where_nil _ _) Hrows id e He).
Defined.

Module ConfigFacts.
Import Config.

Lemma startswith_app (prefix s : string) :
  startswith prefix s = true ↔ ∃ rest, s = prefix +:+ rest.
Proof.
  revert s. induction prefix as [|a prefix IH]; intros s; simpl.
  - split; [eauto|done].
  - destruct s as [|b s]; [split; [done|by intros [? ?]]|].
    rewrite andb_true_iff, IH. split.
    + intros [->%Ascii.eqb_eq [rest ->]]. eauto.
    + intros [rest [= -> ->]]. rewrite Ascii.eqb_refl. eauto.
Qed.

End ConfigFacts.

(** X23.  [_normalize_database_url] swaps the scheme and nothing else, and
    normalising twice is normalising once: [postgres://rest] and
    [postgresql://rest] become [postgresql+psycopg://rest], every other
    value, [None] and the empty string included, is returned as it is, and
    the result never starts with one of the two old schemes. *)
Theorem normalize_database_url_outcome (url : option string) :
  (∀ rest,
      Config._normalize_database_url (Some ("postgres://" +:+ rest))
      = Some ("postgresql+psycopg://" +:+ rest)
      ∧ Config._normalize_database_url (Some ("postgresql://" +:+ rest))
        = Some ("postgresql+psycopg://" +:+ rest))
  ∧ ((∀ rest, url ≠ Some ("postgres://" +:+ rest))
     → (∀ rest, url ≠ Some ("postgresql://" +:+ rest))
     → Config._normalize_database_url url = url)
  ∧ (∀ u, Config._normalize_database_url url = Some u →
          Config.startswith "postgres://" u = false
          ∧ Config.startswith "postgresql://" u = false)
  ∧ Config._normalize_database_url (Config._normalize_database_url url)
    = Config._normalize_database_url url.
Proof.
  assert (Hswap : ∀ rest,
      Config._normalize_database_url (Some ("postgres://" +:+ rest))
      = Some ("postgresql+psycopg://" +:+ rest)
      ∧ Config._normalize_database_url (Some ("postgresql://" +:+ rest))
        = Some ("postgresql+psycopg://" +:+ rest)).
  { intros rest. split; reflexivity. }
  assert (Hcases :
    Config._normalize_database_url url = url
    ∧ (∀ u, url = Some u → Config.startswith "postgres://" u = false
                           ∧ Config.startswith "postgresql://" u = false)
    ∨ ∃ rest, (url = Some ("postgres://" +:+ rest)
               ∨ url = Some ("postgresql://" +:+ rest))
              ∧ Config._normalize_database_url url
                = Some ("postgresql+psycopg://" +:+ rest)).
  { destruct url as [u|]; [|left; split; [done|by intros ? [=]]].
    destruct (Config.startswith "postgres://" u) eqn:E1.
    { apply ConfigFacts.startswith_app in E1 as [rest ->].
      right. exists rest. split; [by left|apply Hswap]. }
    destruct (Config.startswith "postgresql://" u) eqn:E2.
    { apply ConfigFacts.startswith_app in E2 as [rest ->].
      right. exists rest. split; [by right|apply Hswap]. }
    left. split; [|by intros ? [= <-]].
    unfold Config._normalize_database_url. rewrite E1, E2.
    by destruct (String.eqb u ""). }
  split; [exact Hswap|]. split_and!.
  - intros H1 H2. destruct Hcases as [[Hsame _]|(rest & [->| ->] & _)]; [done| |].
    + by destruct (H1 rest).
    + by destruct (H2 rest).
  - intros u Hu. destruct Hcases as [[Hsame Hnot]|(rest & _ & Hrest)].
    + apply Hnot. by rewrite <- Hsame.
    + rewrite Hrest in Hu. injection Hu as <-. split; reflexivity.
  - destruct Hcases as [[Hsame _]|(rest & _ & Hrest)].
    + by rewrite !Hsame.
    + rewrite Hrest. reflexivity.
Qed.
